(** * Spotify MCP server: tool handlers and their text contracts

    A shallow embedding of the tool handlers of the repository
    ([library.ts], [playback.ts], [info.ts] and the stand-alone tools of
    [read.ts]) together with the properties their specification states.

    Conventions of the embedding.
    - A JavaScript number that the handlers only use as an integer (an
      offset, a limit, a count, a duration in milliseconds, a pitch class)
      is a [Z]; where such a number comes from outside without a bound (an
      offset, a count supplied by the service), its sums and its text are
      those of the double it denotes ([Js.to_double], [Js.add],
      [Js.double_to_string]), while indices and lengths of arrays are
      exact.  A fractional value of such a number is outside the model;
      numbers that are genuinely fractional (tempo, energy, ...) are kept
      abstract behind the class [JsRuntime].
    - An optional field of an argument record is an [option]; JavaScript
      truthiness is written out ([Js.truthy_string] and friends), so the
      empty string is falsy as it is in the source.
    - A handler is a computation in the monad [M]: it logs every call it
      makes on the external client and either returns a value or throws. *)

From Stdlib Require Import ZArith List String Ascii Bool Lia.
From Stdlib Require Import DecimalString DecimalPos DecimalZ.
Import ListNotations.

Local Open Scope list_scope.
Local Open Scope string_scope.

(** ** JavaScript primitives used by the handlers *)

Module Js.

(** The line feed and the double quote, as characters. *)
Definition nl : string := String "010"%char EmptyString.
Definition dq : string := String "034"%char EmptyString.

(** [String(n)] and [`${n}`] for an integral number. *)
Definition number_to_string (z : Z) : string :=
  NilZero.string_of_int (Z.to_int z).

(** [arr.join(sep)]. *)
Definition join (sep : string) (l : list string) : string :=
  String.concat sep l.

(** [arr.map((x, i) => f x i)], the index counted from [i0]. *)
Fixpoint mapi_from {A B : Type} (i0 : Z) (f : A -> Z -> B) (l : list A)
  : list B :=
  match l with
  | [] => []
  | x :: l' => f x i0 :: mapi_from (i0 + 1) f l'
  end.

Definition mapi {A B : Type} (f : A -> Z -> B) (l : list A) : list B :=
  mapi_from 0 f l.

(** [arr.slice(0, n)] for a literal [n]. *)
Definition slice0 {A : Type} (n : nat) (l : list A) : list A := firstn n l.

(** [arr.length]. *)
Definition length {A : Type} (l : list A) : Z := Z.of_nat (List.length l).

(** [arr.slice(0, n)] for a computed [n]: a negative end counts from the
    end of the array. *)
Definition slice_to {A : Type} (n : Z) (l : list A) : list A :=
  if (n <? 0)%Z then firstn (Z.to_nat (length l + n)) l
  else firstn (Z.to_nat n) l.

(** [arr[i]]: [None] stands for [undefined]. *)
Definition index {A : Type} (l : list A) (i : Z) : option A :=
  if (i <? 0)%Z then None else nth_error l (Z.to_nat i).

(** Truthiness of a string, of a number, and of optional values. *)
Definition truthy_string (s : string) : bool := negb (s =? "").

Definition truthy_number (z : Z) : bool := negb (z =? 0)%Z.

Definition truthy_opt {A : Type} (t : A -> bool) (o : option A) : bool :=
  match o with
  | Some a => t a
  | None => false
  end.

(** A value that is an object when present is truthy when present. *)
Definition present {A : Type} (o : option A) : bool :=
  match o with
  | Some _ => true
  | None => false
  end.

(** [`${x}`] for a value that may be [undefined]. *)
Definition render {A : Type} (f : A -> string) (o : option A) : string :=
  match o with
  | Some a => f a
  | None => "undefined"
  end.

(** [x || d] on strings and [x ?? d] on optional values. *)
Definition or_string (o : option string) (d : string) : string :=
  match o with
  | Some s => if truthy_string s then s else d
  | None => d
  end.

Definition nullish {A : Type} (o : option A) (d : A) : A :=
  match o with
  | Some a => a
  | None => d
  end.

(** *** Numbers as IEEE doubles

    A number that comes from outside (an offset of the arguments, a count
    supplied by the service) is a double.  Integers stand for the
    integer-valued doubles of magnitude below [2^1024]; the functions
    below give the double that an integer numeral denotes, the sum of two
    doubles, and the text of a double, as [JSON.parse], [+] and [`${x}`]
    do.  Below [2^53] in magnitude all three are exact. *)

(** The double nearest to an integer: round to nearest, ties to the even
    significand. *)
Definition to_double (z : Z) : Z :=
  let a := Z.abs z in
  if (a <? 2 ^ 53)%Z then z
  else
    let e := (Z.log2 a - 52)%Z in
    let q := (a / 2 ^ e)%Z in
    let r := (a mod 2 ^ e)%Z in
    let half := (2 ^ (e - 1))%Z in
    let q' :=
      if (r <? half)%Z then q
      else if (half <? r)%Z then (q + 1)%Z
      else if Z.even q then q else (q + 1)%Z in
    (Z.sgn z * (q' * 2 ^ e))%Z.

(** [a + b] *)
Definition add (a b : Z) : Z := to_double (to_double a + to_double b).

(** The decimal significands of [k] digits around a double [a] of [n]
    digits: [a] cut to [k] digits, and the next one up, which at a power
    of ten is [10^(k-1)] with one more digit in all.  The result is the
    significand [s] and the number of digits [n'] with [s * 10^(n'-k)]
    denoting [a], the closest one when both do. *)
Definition significand (a n k : Z) : option (Z * Z) :=
  let p := (10 ^ (n - k))%Z in
  let lo := (a / p)%Z in
  let hi := (lo + 1)%Z in
  let fits_lo := ((10 ^ (k - 1) <=? lo) && (to_double (lo * p) =? a))%Z in
  let fits_hi := (to_double (hi * p) =? a)%Z in
  let up := if (hi =? 10 ^ k)%Z then (10 ^ (k - 1), n + 1)%Z else (hi, n) in
  match fits_lo, fits_hi with
  | true, true =>
      let dlo := (a - lo * p)%Z in
      let dhi := (hi * p - a)%Z in
      Some (if (dlo <? dhi)%Z then (lo, n)
            else if (dhi <? dlo)%Z then up
            else if Z.even lo then (lo, n) else up)
  | true, false => Some (lo, n)
  | false, true => Some up
  | false, false => None
  end.

(** The shortest significand: the least number of digits [k] that has
    one, tried from [k] on. *)
Fixpoint shortest (fuel : nat) (a n k : Z) : Z * Z * Z :=
  match fuel with
  | O => (a, n, n)
  | S fuel' =>
      match significand a n k with
      | Some (s, n') => (s, k, n')
      | None => shortest fuel' a n (k + 1)%Z
      end
  end.

Fixpoint zeros (n : nat) : string :=
  match n with
  | O => ""
  | S n' => "0" ++ zeros n'
  end.

(** The text of a positive double at or above [2^53]: the shortest
    digits that denote it, padded with zeros up to 21 digits and in
    exponent notation beyond. *)
Definition large_to_string (a : Z) : string :=
  let n0 := Z.of_nat (String.length (number_to_string a)) in
  let '(s, k, n) := shortest 17 a n0 1 in
  let digits := number_to_string s in
  if (n <=? 21)%Z then digits ++ zeros (Z.to_nat (n - k))
  else
    match digits with
    | String d EmptyString => String d ("e+" ++ number_to_string (n - 1))
    | String d rest =>
        String d ("." ++ rest ++ "e+" ++ number_to_string (n - 1))
    | EmptyString => ""
    end.

(** [String(x)] and [`${x}`] for a number that comes from outside. *)
Definition double_to_string (z : Z) : string :=
  let v := to_double z in
  if (Z.abs v <? 2 ^ 53)%Z then number_to_string v
  else if (v <? 0)%Z then "-" ++ large_to_string (Z.abs v)
  else large_to_string v.

End Js.

(** The parts of the JavaScript runtime that stay abstract: the fractional
    numbers of the audio analysis, with their arithmetic and rendering
    ([Math.round], [x * 100], [toFixed], [`${x}`]), and the rendering of a
    date, and of a date and time, in the locale of the process. *)
Class JsRuntime : Type := {
  float : Type;
  float_truthy : float -> bool;
  Math_round : float -> float;
  times100 : float -> float;
  toFixed : float -> nat -> string;
  float_to_string : float -> string;
  toLocaleDateString : string -> string;
  toLocaleString : string -> string
}.

(** ** The tool envelope *)

Record content_item : Type := {
  ctype : string;
  text : string
}.

Record tool_result : Type := {
  content : list content_item
}.

(** [{ content: [{ type: 'text', text }] }] *)
Definition text_result (t : string) : tool_result :=
  {| content := [ {| ctype := "text"; text := t |} ] |}.

(** The text carried by an envelope. *)
Definition result_text (r : tool_result) : string :=
  match content r with
  | c :: _ => text c
  | [] => ""
  end.

(** ** Objects of the external music service *)

Inductive item_type : Type := track | album | artist | playlist.

Definition item_type_to_string (t : item_type) : string :=
  match t with
  | track => "track"
  | album => "album"
  | artist => "artist"
  | playlist => "playlist"
  end.

Record Artist : Type := {
  artist_name : string;
  artist_id : string
}.

Record Track : Type := {
  track_name : string;
  track_id : string;
  track_artists : list Artist;
  track_duration_ms : Z
}.

Record Album : Type := {
  album_name : string;
  album_id : string;
  album_artists : list Artist;
  album_total_tracks : Z
}.

(** A playlist; [pl_owner] is the owner's display name, absent when
    the owner object is, and [pl_tracks_total] is [tracks?.total]. *)
Record Playlist : Type := {
  pl_name : string;
  pl_id : string;
  pl_description : option string;
  pl_owner : option string;
  pl_tracks_total : option Z
}.

Record Page (A : Type) : Type := {
  items : list A;
  total : Z
}.

Arguments items {A} _.
Arguments total {A} _.

(** The result of a search: one optional page per requested type; an entry
    of the playlist page may be [null]. *)
Record SearchResults : Type := {
  res_tracks : option (Page Track);
  res_albums : option (Page Album);
  res_artists : option (Page Artist);
  res_playlists : option (Page (option Playlist))
}.

(** A playable item as the service delivers it (a track or an episode),
    before any check of its shape: the fields the guards inspect may be
    missing. *)
Record Item : Type := {
  item_kind : string;
  item_name : string;
  item_id : string;
  item_duration_ms : Z;
  item_artists : option (list Artist);
  item_album : option (option string)
}.

(** The view of an [Item] that a successful [isTrack] guard grants: the
    artists are an array and the album is an object, whose name may still
    be missing. *)
Record SpotifyTrack : Type := {
  st_name : string;
  st_id : string;
  st_duration_ms : Z;
  st_artists : list Artist;
  st_album_name : option string
}.

Record PlaylistedTrack : Type := {
  pt_track : option Item
}.

Record SavedTrack : Type := {
  saved_added_at : string;
  saved_track : option Item
}.

Record PlayHistory : Type := {
  history_track : option Item;
  history_played_at : string
}.

Record PlaybackState : Type := {
  state_item : option Item;
  state_progress_ms : option Z;
  state_is_playing : bool
}.

(** An entry of the queue, read through [any]: each field may be
    missing, and [duration_ms] counts only when it is a number. *)
Record QueueItem : Type := {
  qi_name : option string;
  qi_id : option string;
  qi_artists : option (list Artist);
  qi_duration_ms : option Z
}.

Record Queue : Type := {
  currently_playing : option QueueItem;
  queue_items : option (list QueueItem)
}.

Record AudioFeatures {R : JsRuntime} : Type := {
  tempo : float;
  key : Z;
  mode : Z;
  energy : float;
  danceability : float;
  valence : float;
  acousticness : float;
  instrumentalness : float;
  liveness : float;
  speechiness : float;
  loudness : float;
  time_signature : Z
}.

Record UserProfile : Type := {
  profile_id : string
}.

Record CreatedPlaylist : Type := {
  created_id : string
}.

(** ** Effects: calls on the external client, and exceptions *)

(** One constructor per method of the client that a handler invokes, with
    the arguments it is invoked with. *)
Inductive ApiCall : Type :=
| search (query : string) (types : list item_type) (limit : Z)
| currentUser_playlists_playlists (limit : Z)
| playlists_getPlaylistItems (playlist_id : string) (limit offset : Z)
| currentUser_tracks_savedTracks (limit offset : Z)
| player_getRecentlyPlayedTracks (limit : Z)
| albums_get (ids : list string)
| albums_tracks (id : string) (limit offset : Z)
| currentUser_albums_saveAlbums (ids : list string)
| currentUser_albums_removeSavedAlbums (ids : list string)
| currentUser_albums_hasSavedAlbums (ids : list string)
| player_startResumePlayback (device_id : string)
    (context_uri : option string) (uris : option (list string))
| player_pausePlayback (device_id : string)
| player_skipToNext (device_id : string)
| player_skipToPrevious (device_id : string)
| player_addItemToPlaybackQueue (uri device_id : string)
| currentUser_profile
| playlists_createPlaylist (user_id name : string)
    (description : option string) (public : bool)
| playlists_addItemsToPlaylist (playlist_id : string) (uris : list string)
    (position : option Z)
| player_getCurrentlyPlayingTrack
| player_getUsersQueue
| tracks_audioFeatures (id : string).

Inductive outcome (A : Type) : Type :=
| Returned (a : A)
| Thrown (message : string).

Arguments Returned {A} a.
Arguments Thrown {A} message.

(** A handler computation: the calls made, in order, and how it ended. *)
Definition M (A : Type) : Type := (list ApiCall * outcome A)%type.

Definition ret {A : Type} (a : A) : M A := ([], Returned a).

Definition throw {A : Type} (message : string) : M A := ([], Thrown message).

Definition bind {A B : Type} (m : M A) (k : A -> M B) : M B :=
  match m with
  | (t, Returned a) => let (t', r) := k a in ((t ++ t')%list, r)
  | (t, Thrown e) => (t, Thrown e)
  end.

(** [try { m } catch (error) { h message }] *)
Definition try_catch {A : Type} (m : M A) (h : string -> M A) : M A :=
  match m with
  | (t, Returned a) => (t, Returned a)
  | (t, Thrown e) => let (t', r) := h e in ((t ++ t')%list, r)
  end.

(** A call on the client: it is logged, and ends as the service decides. *)
Definition perform {A : Type} (c : ApiCall) (r : outcome A) : M A := ([c], r).

Notation "x <- m ;; k" := (bind m (fun x => k))
  (at level 61, m at next level, right associativity).

Definition calls {A : Type} (m : M A) : list ApiCall := fst m.

Definition result {A : Type} (m : M A) : outcome A := snd m.

(** The external service: how each method answers.  Within one handler
    invocation every method is called at most once, so an answer per method
    and argument list describes any behaviour of the service. *)
Record SpotifyApi {R : JsRuntime} : Type := {
  client_ready : outcome unit;
  on_search : string -> list item_type -> Z -> outcome SearchResults;
  on_playlists : Z -> outcome (Page Playlist);
  on_getPlaylistItems : string -> Z -> Z -> outcome (Page PlaylistedTrack);
  on_savedTracks : Z -> Z -> outcome (Page SavedTrack);
  on_getRecentlyPlayedTracks : Z -> outcome (Page PlayHistory);
  on_albums_get : list string -> outcome (list Album);
  on_albums_tracks : string -> Z -> Z -> outcome (Page Track);
  on_saveAlbums : list string -> outcome unit;
  on_removeSavedAlbums : list string -> outcome unit;
  on_hasSavedAlbums : list string -> outcome (list bool);
  on_startResumePlayback :
    string -> option string -> option (list string) -> outcome unit;
  on_pausePlayback : string -> outcome unit;
  on_skipToNext : string -> outcome unit;
  on_skipToPrevious : string -> outcome unit;
  on_addItemToPlaybackQueue : string -> string -> outcome unit;
  on_profile : outcome UserProfile;
  on_createPlaylist :
    string -> string -> option string -> bool -> outcome CreatedPlaylist;
  on_addItemsToPlaylist :
    string -> list string -> option Z -> outcome unit;
  on_getCurrentlyPlayingTrack : outcome (option PlaybackState);
  on_getUsersQueue : outcome (option Queue);
  on_audioFeatures : string -> outcome (option AudioFeatures)
}.

(** The methods of the client, as computations. *)
Module Api.
Section Methods.
Context {R : JsRuntime} (api : SpotifyApi).

Definition search_ q tys lim : M SearchResults :=
  perform (search q tys lim) (on_search api q tys lim).
Definition playlists_ lim : M (Page Playlist) :=
  perform (currentUser_playlists_playlists lim) (on_playlists api lim).
Definition getPlaylistItems pid lim off : M (Page PlaylistedTrack) :=
  perform (playlists_getPlaylistItems pid lim off)
          (on_getPlaylistItems api pid lim off).
Definition savedTracks lim off : M (Page SavedTrack) :=
  perform (currentUser_tracks_savedTracks lim off)
          (on_savedTracks api lim off).
Definition getRecentlyPlayedTracks lim : M (Page PlayHistory) :=
  perform (player_getRecentlyPlayedTracks lim)
          (on_getRecentlyPlayedTracks api lim).
Definition albums_get_ ids : M (list Album) :=
  perform (albums_get ids) (on_albums_get api ids).
Definition albums_tracks_ id lim off : M (Page Track) :=
  perform (albums_tracks id lim off) (on_albums_tracks api id lim off).
Definition saveAlbums ids : M unit :=
  perform (currentUser_albums_saveAlbums ids) (on_saveAlbums api ids).
Definition removeSavedAlbums ids : M unit :=
  perform (currentUser_albums_removeSavedAlbums ids)
          (on_removeSavedAlbums api ids).
Definition hasSavedAlbums ids : M (list bool) :=
  perform (currentUser_albums_hasSavedAlbums ids)
          (on_hasSavedAlbums api ids).
Definition startResumePlayback dev ctx uris : M unit :=
  perform (player_startResumePlayback dev ctx uris)
          (on_startResumePlayback api dev ctx uris).
Definition pausePlayback dev : M unit :=
  perform (player_pausePlayback dev) (on_pausePlayback api dev).
Definition skipToNext dev : M unit :=
  perform (player_skipToNext dev) (on_skipToNext api dev).
Definition skipToPrevious dev : M unit :=
  perform (player_skipToPrevious dev) (on_skipToPrevious api dev).
Definition addItemToPlaybackQueue uri dev : M unit :=
  perform (player_addItemToPlaybackQueue uri dev)
          (on_addItemToPlaybackQueue api uri dev).
Definition profile : M UserProfile :=
  perform currentUser_profile (on_profile api).
Definition createPlaylist uid name desc pub : M CreatedPlaylist :=
  perform (playlists_createPlaylist uid name desc pub)
          (on_createPlaylist api uid name desc pub).
Definition addItemsToPlaylist pid uris pos : M unit :=
  perform (playlists_addItemsToPlaylist pid uris pos)
          (on_addItemsToPlaylist api pid uris pos).
Definition getCurrentlyPlayingTrack : M (option PlaybackState) :=
  perform player_getCurrentlyPlayingTrack (on_getCurrentlyPlayingTrack api).
Definition getUsersQueue : M (option Queue) :=
  perform player_getUsersQueue (on_getUsersQueue api).
Definition audioFeatures id : M (option AudioFeatures) :=
  perform (tracks_audioFeatures id) (on_audioFeatures api id).

End Methods.
End Api.

(** ** The helpers of [utils.ts] *)

(** Modelled from the spec: [utils.ts], which defines the request wrapper
    [handleSpotifyRequest], is not among the sources.  The specification
    gives it a single responsibility: obtain a ready-to-use external-API
    client and execute the caller-supplied operation against it, surfacing
    any thrown error to the caller, with no retry. *)
Definition handleSpotifyRequest {R : JsRuntime} {A : Type}
  (api : SpotifyApi) (action : SpotifyApi -> M A) : M A :=
  match client_ready api with
  | Returned _ => action api
  | Thrown e => throw e
  end.

(** The two decimal digits of a number of seconds below one hundred. *)
Definition pad2 (z : Z) : string :=
  if (z <? 10)%Z then "0" ++ Js.number_to_string z
  else Js.number_to_string z.

(** Modelled from the spec: [utils.ts], which defines the duration
    formatter [formatDuration], is not among the sources.  The
    specification describes it as the pure function from a duration in
    milliseconds to the text [m:ss], the seconds being the remaining whole
    seconds, zero-padded to two digits. *)
Definition formatDuration (ms : Z) : string :=
  Js.number_to_string (ms / 60000) ++ ":" ++ pad2 ((ms mod 60000) / 1000).

(** [artists.map(a => a.name).join(', ')] *)
Definition artist_names (l : list Artist) : string :=
  Js.join ", " (map artist_name l).

(** The guard [isTrack] of [library.ts] and [info.ts]:
    [item && item.type === 'track' && Array.isArray(item.artists) &&
    item.album], as a type guard that grants the narrowed view. *)
Definition isTrack (item : option Item) : option SpotifyTrack :=
  match item with
  | Some it =>
      if item_kind it =? "track" then
        match item_artists it, item_album it with
        | Some arts, Some alb =>
            Some {| st_name := item_name it; st_id := item_id it;
                    st_duration_ms := item_duration_ms it;
                    st_artists := arts; st_album_name := alb |}
        | _, _ => None
        end
      else None
  | None => None
  end.

(** ** [playback.ts]: the tool [spotify_playback] *)

Module Playback.

Inductive operationEnum : Type :=
| play | pause | resume | skip_next | skip_prev | queue
| create_playlist | add_to_playlist.

(** The decoded argument record; every field but [operation] is
    optional. *)
Record args : Type := {
  operation : operationEnum;
  uri : option string;
  type : option item_type;
  id : option string;
  device_id : option string;
  name : option string;
  description : option string;
  public : option bool;
  playlist_id : option string;
  track_ids : option (list string);
  position : option Z
}.

(** [uri || (type && id)], for its truth value. *)
Definition has_target (a : args) : bool :=
  Js.truthy_opt Js.truthy_string (uri a)
  || (Js.present (type a) && Js.truthy_opt Js.truthy_string (id a)).

(** [uri || `spotify:${type}:${id}`] *)
Definition spotifyUri (a : args) : string :=
  Js.or_string (uri a)
    ("spotify:" ++ Js.render item_type_to_string (type a) ++ ":"
       ++ Js.render (fun s => s) (id a)).

Definition is_track_type (a : args) : bool :=
  match type a with
  | Some track => true
  | _ => false
  end.

Definition handler {R : JsRuntime} (api : SpotifyApi) (a : args)
  : M tool_result :=
  let device := Js.or_string (device_id a) "" in
  match operation a with
  | play =>
      if negb (has_target a) then
        ret (text_result "Error: Provide uri OR type+id")
      else
        _ <- handleSpotifyRequest api (fun api =>
               if is_track_type a then
                 Api.startResumePlayback api device None
                   (Some [spotifyUri a])
               else
                 Api.startResumePlayback api device (Some (spotifyUri a))
                   None) ;;
        ret (text_result
               ("Playing " ++ match type a with
                              | Some t => item_type_to_string t
                              | None => "music"
                              end))
  | pause =>
      _ <- handleSpotifyRequest api (fun api =>
             Api.pausePlayback api device) ;;
      ret (text_result "Paused")
  | resume =>
      _ <- handleSpotifyRequest api (fun api =>
             Api.startResumePlayback api device None None) ;;
      ret (text_result "Resumed")
  | skip_next =>
      _ <- handleSpotifyRequest api (fun api =>
             Api.skipToNext api device) ;;
      ret (text_result "Skipped to next")
  | skip_prev =>
      _ <- handleSpotifyRequest api (fun api =>
             Api.skipToPrevious api device) ;;
      ret (text_result "Skipped to previous")
  | queue =>
      if negb (has_target a) then
        ret (text_result "Error: Provide uri OR type+id")
      else
        _ <- handleSpotifyRequest api (fun api =>
               Api.addItemToPlaybackQueue api (spotifyUri a) device) ;;
        ret (text_result ("Added to queue: " ++ spotifyUri a))
  | create_playlist =>
      (* [!name] holds for an absent and for an empty name *)
      match name a with
      | Some n =>
          if negb (Js.truthy_string n) then
            ret (text_result "Error: name required")
          else
            created <- handleSpotifyRequest api (fun api =>
                         me <- Api.profile api ;;
                         Api.createPlaylist api (profile_id me) n
                           (description a) (Js.nullish (public a) false)) ;;
            ret (text_result
                   ("Created playlist " ++ Js.dq ++ n ++ Js.dq ++ " (ID: "
                      ++ created_id created ++ ")"))
      | None => ret (text_result "Error: name required")
      end
  | add_to_playlist =>
      (* [!playlist_id || !track_ids?.length] *)
      match playlist_id a, track_ids a with
      | Some pid, Some tids =>
          if negb (Js.truthy_string pid)
             || negb (Js.truthy_number (Js.length tids)) then
            ret (text_result "Error: playlist_id and track_ids required")
          else
            let trackUris := map (fun id => "spotify:track:" ++ id) tids in
            _ <- handleSpotifyRequest api (fun api =>
                   Api.addItemsToPlaylist api pid trackUris (position a)) ;;
            ret (text_result
                   ("Added " ++ Js.number_to_string (Js.length tids)
                      ++ " tracks to playlist"))
      | _, _ =>
          ret (text_result "Error: playlist_id and track_ids required")
      end
  end.

End Playback.

(** ** [library.ts]: the tool [spotify_library] *)

Module Library.

Inductive operationEnum : Type :=
| search | playlists | playlist_tracks | saved_tracks | recently_played
| albums | album_tracks | save_album | remove_album | check_saved.

Record args : Type := {
  operation : operationEnum;
  query : option string;
  type : option item_type;
  playlist_id : option string;
  album_ids : option (list string);
  limit : option Z;
  offset : option Z
}.

(** [`${i+1}. `] *)
Definition ordinal (i : Z) : string := Js.number_to_string (i + 1) ++ ". ".

Definition quoted (s : string) : string := Js.dq ++ s ++ Js.dq.

(** The line of a track or of an album in a search result. *)
Definition by_line (name_ : string) (arts : list Artist) (id_ : string)
  (i : Z) : string :=
  ordinal i ++ quoted name_ ++ " by " ++ artist_names arts ++ " - ID: " ++ id_.

(** The line of a playlist in a search result; the entry may be null. *)
Definition playlist_line (p : option Playlist) (i : Z) : string :=
  ordinal i ++ quoted (Js.render pl_name p) ++ " by "
    ++ Js.render (fun q => Js.render (fun s => s) (pl_owner q)) p
    ++ " - ID: " ++ Js.render pl_id p.

(** The text built from the search results, before the fallback. *)
Definition search_text (ty : item_type) (results : SearchResults) : string :=
  match ty, res_tracks results, res_albums results, res_artists results,
        res_playlists results with
  | track, Some pg, _, _, _ =>
      Js.join Js.nl
        (Js.mapi (fun t i =>
                    by_line (track_name t) (track_artists t) (track_id t) i)
                 (items pg))
  | album, _, Some pg, _, _ =>
      Js.join Js.nl
        (Js.mapi (fun a i =>
                    by_line (album_name a) (album_artists a) (album_id a) i)
                 (items pg))
  | artist, _, _, Some pg, _ =>
      Js.join Js.nl
        (Js.mapi (fun a i =>
                    ordinal i ++ artist_name a ++ " - ID: " ++ artist_id a)
                 (items pg))
  | playlist, _, _, _, Some pg =>
      Js.join Js.nl (Js.mapi playlist_line (items pg))
  | _, _, _, _, _ => ""
  end.

(** [text || fallback] *)
Definition or_text (t fallback : string) : string :=
  if Js.truthy_string t then t else fallback.

(** The line of an entry of a track list: [[Unknown]] unless the entry
    holds a track. *)
Definition track_line (t : option Item) (n : Z) : string :=
  match isTrack t with
  | Some st =>
      Js.double_to_string n ++ ". " ++ quoted (st_name st) ++ " by "
        ++ artist_names (st_artists st) ++ " - ID: " ++ st_id st
  | None => Js.double_to_string n ++ ". [Unknown]"
  end.

(** The line of a saved-state check: [`${id}: ${saved[i] ? ... }`] *)
Definition saved_line (saved : list bool) (id : string) (i : Z) : string :=
  id ++ ": " ++ match Js.index saved i with
                | Some true => "saved"
                | _ => "not saved"
                end.

(** [!album_ids?.length] *)
Definition no_album_ids (ids : option (list string)) : bool :=
  match ids with
  | Some l => negb (Js.truthy_number (Js.length l))
  | None => true
  end.

Definition handler {R : JsRuntime} (api : SpotifyApi) (a : args)
  : M tool_result :=
  let limit := Js.nullish (limit a) 20%Z in
  let offset := Js.to_double (Js.nullish (offset a) 0%Z) in
  match operation a with
  | search =>
      (* [!query || !type] *)
      match query a, type a with
      | Some q, Some ty =>
          if negb (Js.truthy_string q) then
            ret (text_result "Error: query and type required")
          else
            results <- handleSpotifyRequest api (fun api =>
                         Api.search_ api q [ty] limit) ;;
            ret (text_result (or_text (search_text ty results) "No results"))
      | _, _ => ret (text_result "Error: query and type required")
      end
  | playlists =>
      pls <- handleSpotifyRequest api (fun api => Api.playlists_ api limit) ;;
      let text :=
        Js.join Js.nl
          (Js.mapi (fun p i =>
                      ordinal i ++ quoted (pl_name p) ++ " ("
                        ++ Js.double_to_string
                             (match pl_tracks_total p with
                              | Some n => if Js.truthy_number n then n else 0
                              | None => 0
                              end)%Z
                        ++ " tracks) - ID: " ++ pl_id p)
                   (items pls)) in
      ret (text_result (or_text text "No playlists"))
  | playlist_tracks =>
      match playlist_id a with
      | Some pid =>
          if negb (Js.truthy_string pid) then
            ret (text_result "Error: playlist_id required")
          else
            tracks <- handleSpotifyRequest api (fun api =>
                        Api.getPlaylistItems api pid limit offset) ;;
            let text :=
              Js.join Js.nl
                (Js.mapi (fun item i =>
                            track_line (pt_track item)
                              (Js.add (Js.add offset i) 1))
                         (items tracks)) in
            ret (text_result
                   ("Tracks " ++ Js.double_to_string (Js.add offset 1) ++ "-"
                      ++ Js.double_to_string
                           (Js.add offset (Js.length (items tracks)))
                      ++ " of " ++ Js.double_to_string (total tracks)
                      ++ Js.nl ++ Js.nl ++ text))
      | None => ret (text_result "Error: playlist_id required")
      end
  | saved_tracks =>
      saved <- handleSpotifyRequest api (fun api =>
                 Api.savedTracks api limit offset) ;;
      let text :=
        Js.join Js.nl
          (Js.mapi (fun item i =>
                      track_line (saved_track item)
                        (Js.add (Js.add offset i) 1))
                   (items saved)) in
      ret (text_result
             ("Liked Songs " ++ Js.double_to_string (Js.add offset 1) ++ "-"
                ++ Js.double_to_string
                     (Js.add offset (Js.length (items saved)))
                ++ " of " ++ Js.double_to_string (total saved)
                ++ Js.nl ++ Js.nl ++ text))
  | recently_played =>
      history <- handleSpotifyRequest api (fun api =>
                   Api.getRecentlyPlayedTracks api limit) ;;
      let text :=
        Js.join Js.nl
          (Js.mapi (fun item i => track_line (history_track item) (i + 1))
                   (items history)) in
      ret (text_result (or_text text "No history"))
  | albums =>
      if no_album_ids (album_ids a) then
        ret (text_result "Error: album_ids required")
      else
        let ids := Js.nullish (album_ids a) [] in
        albs <- handleSpotifyRequest api (fun api =>
                  Api.albums_get_ api (Js.slice0 20 ids)) ;;
        let text :=
          Js.join Js.nl
            (Js.mapi (fun al i =>
                        ordinal i ++ quoted (album_name al) ++ " by "
                          ++ artist_names (album_artists al) ++ " ("
                          ++ Js.double_to_string (album_total_tracks al)
                          ++ " tracks) - ID: " ++ album_id al)
                     albs) in
        ret (text_result text)
  | album_tracks =>
      (* [!album_ids?.[0]] *)
      match album_ids a with
      | Some (id0 :: _) =>
          if negb (Js.truthy_string id0) then
            ret (text_result "Error: album_ids[0] required")
          else
            tracks <- handleSpotifyRequest api (fun api =>
                        Api.albums_tracks_ api id0 limit offset) ;;
            let text :=
              Js.join Js.nl
                (Js.mapi (fun t i =>
                            Js.double_to_string (Js.add (Js.add offset i) 1)
                              ++ ". " ++ quoted (track_name t) ++ " by "
                              ++ artist_names (track_artists t) ++ " ("
                              ++ formatDuration (track_duration_ms t)
                              ++ ") - ID: " ++ track_id t)
                         (items tracks)) in
            ret (text_result text)
      | _ => ret (text_result "Error: album_ids[0] required")
      end
  | save_album =>
      if no_album_ids (album_ids a) then
        ret (text_result "Error: album_ids required")
      else
        let ids := Js.nullish (album_ids a) [] in
        _ <- handleSpotifyRequest api (fun api =>
               Api.saveAlbums api (Js.slice0 20 ids)) ;;
        ret (text_result
               ("Saved " ++ Js.number_to_string (Js.length ids)
                  ++ " album(s)"))
  | remove_album =>
      if no_album_ids (album_ids a) then
        ret (text_result "Error: album_ids required")
      else
        let ids := Js.nullish (album_ids a) [] in
        _ <- handleSpotifyRequest api (fun api =>
               Api.removeSavedAlbums api (Js.slice0 20 ids)) ;;
        ret (text_result
               ("Removed " ++ Js.number_to_string (Js.length ids)
                  ++ " album(s)"))
  | check_saved =>
      if no_album_ids (album_ids a) then
        ret (text_result "Error: album_ids required")
      else
        let ids := Js.nullish (album_ids a) [] in
        saved <- handleSpotifyRequest api (fun api =>
                   Api.hasSavedAlbums api (Js.slice0 20 ids)) ;;
        let text := Js.join Js.nl (Js.mapi (saved_line saved) ids) in
        ret (text_result text)
  end.

End Library.

(** ** Reading the key-name table *)

(** A value together with the indices at which a table was read to
    compute it. *)
Definition Traced (A : Type) : Type := (list Z * A)%type.

(** [table[i]], recorded. *)
Definition table_read (table : list string) (i : Z) : Traced (option string) :=
  ([i], Js.index table i).

Definition reads {A : Type} (t : Traced A) : list Z := fst t.

Definition value {A : Type} (t : Traced A) : A := snd t.

(** [`${x * 100}.toFixed(0)%`] *)
Definition percent {R : JsRuntime} (x : float) : string :=
  toFixed (times100 x) 0 ++ "%".

(** [progress_ms || 0] *)
Definition progress_or_0 (p : option Z) : Z :=
  match p with
  | Some n => if Js.truthy_number n then n else 0%Z
  | None => 0%Z
  end.

(** ** [info.ts]: the tool [spotify_info] *)

Module Info.

Inductive operationEnum : Type :=
| now_playing | enriched_now_playing | queue | audio_features.

Record args : Type := {
  operation : operationEnum;
  track_id : option string;
  limit : option Z
}.

Definition keyNames : list string :=
  ["C"; "C♯"; "D"; "D♯"; "E"; "F"; "F♯"; "G"; "G♯"; "A"; "A♯"; "B"].

(** [features.key !== -1 ? keyNames[features.key] : 'Unknown'], as it is
    evaluated and as it is interpolated into the text. *)
Definition keyName_traced (key : Z) : Traced string :=
  if negb (key =? -1)%Z then
    let (r, v) := table_read keyNames key in (r, Js.render (fun s => s) v)
  else ([], "Unknown").

Definition keyName (key : Z) : string := value (keyName_traced key).

(** The key of the enriched summary:
    [features.key !== -1 ? keyNames[features.key] : null]. *)
Definition enriched_key (key : Z) : option string :=
  if negb (key =? -1)%Z then Js.index keyNames key else None.

(** [artists?.map(a => a.name).join(', ') || 'Unknown'] *)
Definition queue_artists (arts : option (list Artist)) : string :=
  match arts with
  | Some l =>
      if Js.truthy_string (artist_names l) then artist_names l else "Unknown"
  | None => "Unknown"
  end.

Definition now_playing_lines (st : SpotifyTrack) (progress : option Z)
  : list string :=
  [ "**Track**: " ++ Js.dq ++ st_name st ++ Js.dq;
    "**Artist**: " ++ artist_names (st_artists st);
    "**Album**: " ++ Js.render (fun s => s) (st_album_name st);
    "**Progress**: " ++ formatDuration (progress_or_0 progress) ++ " / "
      ++ formatDuration (st_duration_ms st) ].

Definition handler {R : JsRuntime} (api : SpotifyApi) (a : args)
  : M tool_result :=
  let limit := Js.nullish (limit a) 10%Z in
  match operation a with
  | now_playing =>
      current <- handleSpotifyRequest api (fun api =>
                   Api.getCurrentlyPlayingTrack api) ;;
      match current with
      | Some cur =>
          match isTrack (state_item cur) with
          | Some t =>
              ret (text_result
                     (Js.join Js.nl
                        (List.app
                           (now_playing_lines t (state_progress_ms cur))
                           [ "**Status**: "
                               ++ (if state_is_playing cur then "Playing"
                                   else "Paused");
                             "**ID**: " ++ st_id t ])))
          | None => ret (text_result "Nothing playing")
          end
      | None => ret (text_result "Nothing playing")
      end
  | enriched_now_playing =>
      current <- handleSpotifyRequest api (fun api =>
                   Api.getCurrentlyPlayingTrack api) ;;
      match current with
      | Some cur =>
          match isTrack (state_item cur) with
          | Some t =>
              features <- handleSpotifyRequest api (fun api =>
                            Api.audioFeatures api (st_id t)) ;;
              let bpm :=
                match features with
                | Some f =>
                    if float_truthy (tempo f) then Some (Math_round (tempo f))
                    else None
                | None => None
                end in
              let key :=
                match features with
                | Some f => enriched_key (key f)
                | None => None
                end in
              let mode :=
                match features with
                | Some f =>
                    if (mode f =? 1)%Z then Some "Major"
                    else if (mode f =? 0)%Z then Some "Minor" else None
                | None => None
                end in
              let bpm_lines :=
                match bpm with
                | Some b =>
                    if float_truthy b then ["**BPM**: " ++ float_to_string b]
                    else []
                | None => []
                end in
              let key_lines :=
                match key, mode with
                | Some k, Some m =>
                    if Js.truthy_string k then ["**Key**: " ++ k ++ " " ++ m]
                    else []
                | _, _ => []
                end in
              let feature_lines :=
                match features with
                | Some f =>
                    [ "**Energy**: " ++ percent (energy f);
                      "**Danceability**: " ++ percent (danceability f) ]
                | None => []
                end in
              let lines :=
                List.concat
                  [ now_playing_lines t (state_progress_ms cur);
                    bpm_lines; key_lines; feature_lines;
                    ["**ID**: " ++ st_id t] ] in
              ret (text_result (Js.join Js.nl lines))
          | None => ret (text_result "Nothing playing")
          end
      | None => ret (text_result "Nothing playing")
      end
  | queue =>
      q <- handleSpotifyRequest api (fun api => Api.getUsersQueue api) ;;
      let current :=
        match q with
        | Some q' => currently_playing q'
        | None => None
        end in
      let upcoming :=
        Js.slice_to limit
          (match q with
           | Some q' => Js.nullish (queue_items q') []
           | None => []
           end) in
      let text0 := "# Queue" ++ Js.nl ++ Js.nl in
      let text1 :=
        match current with
        | Some c =>
            text0 ++ "Now: " ++ Js.dq ++ Js.render (fun s => s) (qi_name c)
              ++ Js.dq ++ " by " ++ queue_artists (qi_artists c)
              ++ Js.nl ++ Js.nl
        | None => text0
        end in
      let text2 :=
        if Js.truthy_number (Js.length upcoming) then
          text1 ++ "Up next:" ++ Js.nl
            ++ Js.join Js.nl
                 (Js.mapi (fun t i =>
                             Js.number_to_string (i + 1) ++ ". " ++ Js.dq
                               ++ Js.render (fun s => s) (qi_name t) ++ Js.dq
                               ++ " by " ++ queue_artists (qi_artists t)
                               ++ " - ID: "
                               ++ Js.render (fun s => s) (qi_id t))
                          upcoming)
        else text1 ++ "Queue empty" in
      ret (text_result text2)
  | audio_features =>
      match track_id a with
      | Some tid =>
          if negb (Js.truthy_string tid) then
            ret (text_result "Error: track_id required")
          else
            features <- handleSpotifyRequest api (fun api =>
                          Api.audioFeatures api tid) ;;
            match features with
            | None => ret (text_result "No features found")
            | Some f =>
                let key := keyName (key f) in
                let mode := if (mode f =? 1)%Z then "Major" else "Minor" in
                ret (text_result
                       (Js.join Js.nl
                          [ "**BPM**: " ++ float_to_string (Math_round (tempo f));
                            "**Key**: " ++ key ++ " " ++ mode;
                            "**Energy**: " ++ percent (energy f);
                            "**Danceability**: " ++ percent (danceability f);
                            "**Valence**: " ++ percent (valence f);
                            "**Acousticness**: " ++ percent (acousticness f);
                            "**Instrumentalness**: "
                              ++ percent (instrumentalness f);
                            "**Loudness**: " ++ toFixed (loudness f) 1
                              ++ " dB";
                            "**Time Sig**: "
                              ++ Js.double_to_string (time_signature f)
                              ++ "/4" ]))
            end
      | None => ret (text_result "Error: track_id required")
      end
  end.

End Info.

(** ** [read.ts]: the stand-alone reading tools *)

Module Read.

(** The guard [isTrack] of [read.ts], which also requires
    [typeof item.album.name === 'string']. *)
Definition isTrack (item : option Item) : option SpotifyTrack :=
  match isTrack item with
  | Some st =>
      match st_album_name st with
      | Some _ => Some st
      | None => None
      end
  | None => None
  end.

(** *** [searchSpotify] *)

Record search_args : Type := {
  query : string;
  type : item_type;
  limit : option Z
}.

Definition ordinal (i : Z) : string := Js.number_to_string (i + 1) ++ ". ".

Definition quoted (s : string) : string := Js.dq ++ s ++ Js.dq.

Definition search_playlist_line (p : option Playlist) (i : Z) : string :=
  ordinal i ++ Js.dq
    ++ match p with
       | Some q => pl_name q
       | None => "Unknown Playlist"
       end
    ++ " ("
    ++ match p with
       | Some q => Js.nullish (pl_description q) "No description"
       | None => "No description"
       end
    ++ " tracks)" ++ Js.dq ++ " by "
    ++ Js.render (fun q => Js.render (fun s => s) (pl_owner q)) p
    ++ " - ID: " ++ Js.render pl_id p.

Definition formattedResults (ty : item_type) (results : SearchResults)
  : string :=
  match ty, res_tracks results, res_albums results, res_artists results,
        res_playlists results with
  | track, Some pg, _, _, _ =>
      Js.join Js.nl
        (Js.mapi (fun t i =>
                    ordinal i ++ quoted (track_name t) ++ " by "
                      ++ artist_names (track_artists t) ++ " ("
                      ++ formatDuration (track_duration_ms t) ++ ") - ID: "
                      ++ track_id t)
                 (items pg))
  | album, _, Some pg, _, _ =>
      Js.join Js.nl
        (Js.mapi (fun al i =>
                    ordinal i ++ quoted (album_name al) ++ " by "
                      ++ artist_names (album_artists al) ++ " - ID: "
                      ++ album_id al)
                 (items pg))
  | artist, _, _, Some pg, _ =>
      Js.join Js.nl
        (Js.mapi (fun ar i =>
                    ordinal i ++ artist_name ar ++ " - ID: " ++ artist_id ar)
                 (items pg))
  | playlist, _, _, _, Some pg =>
      Js.join Js.nl (Js.mapi search_playlist_line (items pg))
  | _, _, _, _, _ => ""
  end.

Definition searchSpotify {R : JsRuntime} (api : SpotifyApi) (a : search_args)
  : M tool_result :=
  let limitValue := Js.nullish (limit a) 10%Z in
  let ty := item_type_to_string (type a) in
  try_catch
    (results <- handleSpotifyRequest api (fun api =>
                  Api.search_ api (query a) [type a] limitValue) ;;
     let formatted := formattedResults (type a) results in
     ret (text_result
            (if (0 <? String.length formatted)%nat then
               "# Search results for " ++ quoted (query a) ++ " (type: "
                 ++ ty ++ ")" ++ Js.nl ++ Js.nl ++ formatted
             else
               "No " ++ ty ++ " results found for " ++ quoted (query a))))
    (fun message =>
       ret (text_result ("Error searching for " ++ ty ++ "s: " ++ message))).

(** *** [getPlaylistTracks] and [getUsersSavedTracks] *)

Record playlist_tracks_args : Type := {
  playlistId : string;
  pt_limit : option Z;
  pt_offset : option Z
}.

Record saved_tracks_args : Type := {
  st_limit : option Z;
  st_offset : option Z
}.

(** The text of a track that passed the guard, after its ordinal. *)
Definition track_body (t : SpotifyTrack) : string :=
  quoted (st_name t) ++ " by " ++ artist_names (st_artists t) ++ " ("
    ++ formatDuration (st_duration_ms t) ++ ") - ID: " ++ st_id t.

Definition playlist_track_line (offset : Z) (item : PlaylistedTrack) (i : Z)
  : string :=
  let n := Js.double_to_string (Js.add (Js.add offset i) 1) in
  match pt_track item with
  | None => n ++ ". [Removed track]"
  | Some it =>
      match isTrack (Some it) with
      | Some t => n ++ ". " ++ track_body t
      | None => n ++ ". Unknown item"
      end
  end.

Definition getPlaylistTracks {R : JsRuntime} (api : SpotifyApi)
  (a : playlist_tracks_args) : M tool_result :=
  let limit := Js.nullish (pt_limit a) 50%Z in
  let offset := Js.to_double (Js.nullish (pt_offset a) 0%Z) in
  playlistTracks <- handleSpotifyRequest api (fun api =>
                      Api.getPlaylistItems api (playlistId a) limit offset) ;;
  if (Js.length (items playlistTracks) =? 0)%Z then
    ret (text_result "This playlist doesn't have any tracks")
  else
    let formattedTracks :=
      Js.join Js.nl
        (Js.mapi (playlist_track_line offset) (items playlistTracks)) in
    ret (text_result
           ("# Tracks in Playlist ("
              ++ Js.double_to_string (Js.add offset 1) ++ "-"
              ++ Js.double_to_string
                   (Js.add offset (Js.length (items playlistTracks)))
              ++ " of " ++ Js.double_to_string (total playlistTracks) ++ ")"
              ++ Js.nl ++ Js.nl ++ formattedTracks)).

Definition saved_track_line {R : JsRuntime} (offset : Z) (item : SavedTrack)
  (i : Z) : string :=
  match saved_track item with
  | None => Js.number_to_string (i + 1) ++ ". [Removed track]"
  | Some it =>
      match isTrack (Some it) with
      | Some t =>
          Js.double_to_string (Js.add (Js.add offset i) 1) ++ ". "
            ++ track_body t
            ++ " - Added: " ++ toLocaleDateString (saved_added_at item)
      | None => Js.number_to_string (i + 1) ++ ". Unknown item"
      end
  end.

Definition getUsersSavedTracks {R : JsRuntime} (api : SpotifyApi)
  (a : saved_tracks_args) : M tool_result :=
  let limit := Js.nullish (st_limit a) 50%Z in
  let offset := Js.to_double (Js.nullish (st_offset a) 0%Z) in
  savedTracks <- handleSpotifyRequest api (fun api =>
                   Api.savedTracks api limit offset) ;;
  if (Js.length (items savedTracks) =? 0)%Z then
    ret (text_result "You don't have any saved tracks in your Liked Songs")
  else
    let formattedTracks :=
      Js.join Js.nl (Js.mapi (saved_track_line offset) (items savedTracks)) in
    ret (text_result
           ("# Your Liked Songs ("
              ++ Js.double_to_string (Js.add offset 1) ++ "-"
              ++ Js.double_to_string
                   (Js.add offset (Js.length (items savedTracks)))
              ++ " of " ++ Js.double_to_string (total savedTracks) ++ ")"
              ++ Js.nl ++ Js.nl ++ formattedTracks)).

(** *** [getTrackAudioFeatures] *)

Record audio_features_args : Type := {
  trackId : string
}.

Definition keyNames : list string :=
  ["C"; "C♯/D♭"; "D"; "D♯/E♭"; "E"; "F"; "F♯/G♭"; "G"; "G♯/A♭"; "A";
   "A♯/B♭"; "B"].

(** [features.key !== -1 ? keyNames[features.key] : 'Unknown'], as it is
    evaluated and as it is interpolated into the text. *)
Definition keyName_traced (key : Z) : Traced string :=
  if negb (key =? -1)%Z then
    let (r, v) := table_read keyNames key in (r, Js.render (fun s => s) v)
  else ([], "Unknown").

Definition keyName (key : Z) : string := value (keyName_traced key).

Definition getTrackAudioFeatures {R : JsRuntime} (api : SpotifyApi)
  (a : audio_features_args) : M tool_result :=
  try_catch
    (features <- handleSpotifyRequest api (fun api =>
                   Api.audioFeatures api (trackId a)) ;;
     match features with
     | None =>
         ret (text_result
                ("No audio features found for track ID: " ++ trackId a))
     | Some f =>
         let keyName := keyName (key f) in
         let mode := if (mode f =? 1)%Z then "Major" else "Minor" in
         ret (text_result
                ("# Audio Features" ++ Js.nl ++ Js.nl
                   ++ "**BPM (Tempo)**: "
                   ++ float_to_string (Math_round (tempo f)) ++ Js.nl
                   ++ "**Key**: " ++ keyName ++ " " ++ mode ++ Js.nl
                   ++ "**Energy**: " ++ percent (energy f) ++ Js.nl
                   ++ "**Danceability**: " ++ percent (danceability f)
                   ++ Js.nl
                   ++ "**Valence (Happiness)**: " ++ percent (valence f)
                   ++ Js.nl
                   ++ "**Acousticness**: " ++ percent (acousticness f)
                   ++ Js.nl
                   ++ "**Instrumentalness**: "
                   ++ percent (instrumentalness f) ++ Js.nl
                   ++ "**Liveness**: " ++ percent (liveness f) ++ Js.nl
                   ++ "**Speechiness**: " ++ percent (speechiness f) ++ Js.nl
                   ++ "**Loudness**: " ++ toFixed (loudness f) 1 ++ " dB"
                   ++ Js.nl
                   ++ "**Time Signature**: "
                   ++ Js.double_to_string (time_signature f) ++ "/4"))
     end)
    (fun message =>
       ret (text_result ("Error getting audio features: " ++ message))).

(** *** [getNowPlaying] *)

Definition getNowPlaying {R : JsRuntime} (api : SpotifyApi) : M tool_result :=
  try_catch
    (currentTrack <- handleSpotifyRequest api (fun api =>
                       Api.getCurrentlyPlayingTrack api) ;;
     match currentTrack with
     | Some cur =>
         match state_item cur with
         | Some it =>
             match isTrack (Some it) with
             | Some item =>
                 let artists := artist_names (st_artists item) in
                 let album := Js.render (fun s => s) (st_album_name item) in
                 let duration := formatDuration (st_duration_ms item) in
                 let progress :=
                   formatDuration (progress_or_0 (state_progress_ms cur)) in
                 ret (text_result
                        ("# Currently "
                           ++ (if state_is_playing cur then "Playing"
                               else "Paused") ++ Js.nl ++ Js.nl
                           ++ "**Track**: " ++ quoted (st_name item) ++ Js.nl
                           ++ "**Artist**: " ++ artists ++ Js.nl
                           ++ "**Album**: " ++ album ++ Js.nl
                           ++ "**Progress**: " ++ progress ++ " / "
                           ++ duration ++ Js.nl
                           ++ "**ID**: " ++ st_id item))
             | None =>
                 ret (text_result
                        "Currently playing item is not a track (might be a podcast episode)")
             end
         | None => ret (text_result "Nothing is currently playing on Spotify")
         end
     | None => ret (text_result "Nothing is currently playing on Spotify")
     end)
    (fun message =>
       ret (text_result ("Error getting current track: " ++ message))).

(** *** [getMyPlaylists] *)

Record playlists_args : Type := {
  mp_limit : option Z
}.

(** [playlist.tracks?.total ? playlist.tracks.total : 0] *)
Definition tracksTotal (p : Playlist) : Z :=
  match pl_tracks_total p with
  | Some n => if Js.truthy_number n then n else 0%Z
  | None => 0%Z
  end.

Definition playlist_line (p : Playlist) (i : Z) : string :=
  ordinal i ++ quoted (pl_name p) ++ " ("
    ++ Js.double_to_string (tracksTotal p) ++ " tracks) - ID: " ++ pl_id p.

Definition getMyPlaylists {R : JsRuntime} (api : SpotifyApi)
  (a : playlists_args) : M tool_result :=
  let limit := Js.nullish (mp_limit a) 50%Z in
  playlists <- handleSpotifyRequest api (fun api =>
                 Api.playlists_ api limit) ;;
  if (Js.length (items playlists) =? 0)%Z then
    ret (text_result "You don't have any playlists on Spotify")
  else
    let formattedPlaylists :=
      Js.join Js.nl (Js.mapi playlist_line (items playlists)) in
    ret (text_result
           ("# Your Spotify Playlists" ++ Js.nl ++ Js.nl
              ++ formattedPlaylists)).

(** *** [getRecentlyPlayed] *)

Record recently_played_args : Type := {
  rp_limit : option Z
}.

(** The line of an entry of the play history. *)
Definition history_line {R : JsRuntime} (item : PlayHistory) (i : Z)
  : string :=
  match history_track item with
  | None => Js.number_to_string (i + 1) ++ ". [Removed track]"
  | Some it =>
      match isTrack (Some it) with
      | Some t =>
          let playedAt :=
            if Js.truthy_string (history_played_at item) then
              toLocaleString (history_played_at item)
            else "Unknown time" in
          Js.number_to_string (i + 1) ++ ". " ++ track_body t
            ++ " - Played at: " ++ playedAt
      | None => Js.number_to_string (i + 1) ++ ". Unknown item"
      end
  end.

Definition getRecentlyPlayed {R : JsRuntime} (api : SpotifyApi)
  (a : recently_played_args) : M tool_result :=
  let limit := Js.nullish (rp_limit a) 50%Z in
  history <- handleSpotifyRequest api (fun api =>
               Api.getRecentlyPlayedTracks api limit) ;;
  if (Js.length (items history) =? 0)%Z then
    ret (text_result "You don't have any recently played tracks on Spotify")
  else
    let formattedHistory :=
      Js.join Js.nl (Js.mapi history_line (items history)) in
    ret (text_result
           ("# Recently Played Tracks" ++ Js.nl ++ Js.nl
              ++ formattedHistory)).

(** *** [getQueue] *)

Record queue_args : Type := {
  q_limit : option Z
}.

Definition entry_name (e : QueueItem) : string :=
  Js.nullish (qi_name e) "Unknown".

(** [Array.isArray(artists) ? artists.map(a => a.name).join(', ')
    : 'Unknown'] *)
Definition entry_artists (e : QueueItem) : string :=
  match qi_artists e with
  | Some l => artist_names l
  | None => "Unknown"
  end.

Definition entry_duration (e : QueueItem) : string :=
  match qi_duration_ms e with
  | Some d => formatDuration d
  | None => "Unknown"
  end.

Definition queue_line (e : QueueItem) (i : Z) : string :=
  ordinal i ++ quoted (entry_name e) ++ " by " ++ entry_artists e ++ " ("
    ++ entry_duration e ++ ") - ID: " ++ Js.nullish (qi_id e) "Unknown".

Definition currentText (current : option QueueItem) : string :=
  match current with
  | Some c =>
      "Currently Playing: " ++ quoted (entry_name c) ++ " by "
        ++ entry_artists c ++ " (" ++ entry_duration c ++ ")"
  | None => "Nothing is currently playing"
  end.

Definition getQueue {R : JsRuntime} (api : SpotifyApi) (a : queue_args)
  : M tool_result :=
  let limit := Js.nullish (q_limit a) 10%Z in
  try_catch
    (queue <- handleSpotifyRequest api (fun api => Api.getUsersQueue api) ;;
     let current :=
       match queue with
       | Some q => currently_playing q
       | None => None
       end in
     let upcoming :=
       match queue with
       | Some q => Js.nullish (queue_items q) []
       | None => []
       end in
     let header := "# Spotify Queue" ++ Js.nl ++ Js.nl in
     if (Js.length upcoming =? 0)%Z then
       ret (text_result
              (header ++ currentText current ++ Js.nl ++ Js.nl
                 ++ "No upcoming items in the queue"))
     else
       let toShow := Js.slice_to limit upcoming in
       let formatted := Js.join Js.nl (Js.mapi queue_line toShow) in
       ret (text_result
              (header ++ currentText current ++ Js.nl ++ Js.nl ++ "Next "
                 ++ Js.number_to_string (Js.length toShow) ++ " in queue:"
                 ++ Js.nl ++ Js.nl ++ formatted)))
    (fun message =>
       ret (text_result ("Error fetching queue: " ++ message))).

End Read.

(** ** The tempo lookup tool [getEnrichedNowPlaying] and its helpers *)

Module Bpm.

(** What this tool does to the outside: calls on the music-service client,
    HTTP requests to the lookup service, and lines on the error console. *)
Inductive Effect : Type :=
| spotify (c : ApiCall)
| fetch (url : string)
| console_error (label message : string).

Definition B (A : Type) : Type := (list Effect * outcome A)%type.

Definition retB {A : Type} (a : A) : B A := ([], Returned a).

Definition throwB {A : Type} (message : string) : B A := ([], Thrown message).

Definition bindB {A C : Type} (m : B A) (k : A -> B C) : B C :=
  match m with
  | (t, Returned a) => let (t', r) := k a in ((t ++ t')%list, r)
  | (t, Thrown e) => (t, Thrown e)
  end.

Definition try_catchB {A : Type} (m : B A) (h : string -> B A) : B A :=
  match m with
  | (t, Returned a) => (t, Returned a)
  | (t, Thrown e) => let (t', r) := h e in ((t ++ t')%list, r)
  end.

(** A computation on the music-service client, run inside this tool. *)
Definition lift {A : Type} (m : M A) : B A := (map spotify (fst m), snd m).

Definition log_error (label message : string) : B unit :=
  ([console_error label message], Returned tt).

Notation "x <-- m ;; k" := (bindB m (fun x => k))
  (at level 61, m at next level, right associativity).

(** The interfaces [GetSongBPMSearchResult] and [GetSongBPMSongData]. *)
Record SearchResult : Type := {
  song_id : string;
  song_title : string;
  song_uri : string;
  result_artist_name : string;
  result_tempo : option string;
  result_time_sig : option string;
  song_key : option string
}.

Record Song : Type := {
  id : string;
  title : string;
  song_artist_name : string;
  tempo : option string;
  time_sig : option string;
  key_of : option string
}.

Record SongData : Type := {
  song : option Song
}.

(** The body of a search response: [data.search], when it is there. *)
Record SearchData : Type := {
  search : option (list SearchResult)
}.

(** An HTTP response: [response.ok], [response.status], and what
    [response.json()] gives or throws (the body of a song response may be
    [null]). *)
Record Response (D : Type) : Type := {
  ok : bool;
  status : Z;
  json : outcome D
}.

Arguments ok {D} _.
Arguments status {D} _.
Arguments json {D} _.

(** The lookup service and the process around the tool: how [fetch]
    answers on the two endpoints, the API key read from the environment
    (empty when unset), the two string functions of the runtime that the
    tool uses, and the message of the [TypeError] raised when a property of
    [undefined] is read. *)
Record World : Type := {
  GETSONGBPM_API_KEY : string;
  fetch_search : string -> outcome (Response SearchData);
  fetch_song : string -> outcome (Response (option SongData));
  encodeURIComponent : string -> string;
  toLowerCase : string -> string;
  type_error : string -> string
}.

Definition GETSONGBPM_BASE_URL : string := "https://api.getsongbpm.com".

(** [s.includes(t)] *)
Fixpoint includes (s t : string) : bool :=
  String.prefix t s
  || match s with
     | EmptyString => false
     | String _ s' => includes s' t
     end.

(** [a || b] on optional strings, for its value. *)
Definition or_else (a b : option string) : option string :=
  match a with
  | Some s => if Js.truthy_string s then Some s else b
  | None => b
  end.

(** [if (!response.ok) throw ...; return await response.json()] *)
Definition read_json {D : Type} (r : Response D) : B D :=
  if negb (ok r) then
    throwB ("GetSongBPM API returned " ++ Js.double_to_string (status r))
  else ([], json r).

Definition search_url (w : World) (trackName artistName : string) : string :=
  GETSONGBPM_BASE_URL ++ "/search/?api_key=" ++ GETSONGBPM_API_KEY w
    ++ "&type=song&lookup="
    ++ encodeURIComponent w (trackName ++ " " ++ artistName).

Definition song_url (w : World) (songId : string) : string :=
  GETSONGBPM_BASE_URL ++ "/song/?api_key=" ++ GETSONGBPM_API_KEY w
    ++ "&id=" ++ songId.

(** [match || results[0] || null], with [match] the first result whose
    artist name includes the artist name, both in lower case. *)
Definition best_match (w : World) (artistName : string)
  (results : list SearchResult) : option SearchResult :=
  match find (fun r =>
                includes (toLowerCase w (result_artist_name r))
                  (toLowerCase w artistName))
             results with
  | Some m => Some m
  | None => Js.index results 0
  end.

Definition searchGetSongBPM (w : World) (trackName artistName : string)
  : B (option SearchResult) :=
  if negb (Js.truthy_string (GETSONGBPM_API_KEY w)) then
    throwB "GETSONGBPM_API_KEY environment variable not set"
  else
    let url := search_url w trackName artistName in
    try_catchB
      (response <-- ([fetch url], fetch_search w url) ;;
       data <-- read_json response ;;
       let results := Js.nullish (search data) [] in
       retB (best_match w artistName results))
      (fun error =>
         _ <-- log_error "GetSongBPM search error:" error ;;
         retB None).

Definition getSongDetails (w : World) (songId : string)
  : B (option SongData) :=
  if negb (Js.truthy_string (GETSONGBPM_API_KEY w)) then
    throwB "GETSONGBPM_API_KEY environment variable not set"
  else
    let url := song_url w songId in
    try_catchB
      (response <-- ([fetch url], fetch_song w url) ;;
       data <-- read_json response ;;
       retB data)
      (fun error =>
         _ <-- log_error "GetSongBPM details error:" error ;;
         retB None).

(** [item.artists[0]?.name || 'Unknown']; reading index 0 of a missing
    [artists] raises a [TypeError]. *)
Definition first_artist_name (w : World) (it : Item) : B string :=
  match item_artists it with
  | Some arts =>
      retB (match Js.index arts 0 with
            | Some a =>
                if Js.truthy_string (artist_name a) then artist_name a
                else "Unknown"
            | None => "Unknown"
            end)
  | None => throwB (type_error w "0")
  end.

(** [item.album.name]; reading [name] of a missing [album] raises a
    [TypeError], a missing name stays [undefined]. *)
Definition album_name_of (w : World) (it : Item) : B (option string) :=
  match item_album it with
  | Some n => retB n
  | None => throwB (type_error w "name")
  end.

(** [if (v) bpmData += `${label}${v}\n`] *)
Definition feature_line (label : string) (v : option string) : string :=
  match v with
  | Some t => if Js.truthy_string t then label ++ t ++ Js.nl else ""
  | None => ""
  end.

(** The section on audio features, from the details of the song and the
    search result that led to them. *)
Definition bpm_section (s : Song) (r : SearchResult) : string :=
  let tempo := or_else (tempo s) (result_tempo r) in
  let key := or_else (key_of s) (song_key r) in
  let timeSig := or_else (time_sig s) (result_time_sig r) in
  Js.nl ++ Js.nl ++ "**Audio Features:**" ++ Js.nl
    ++ feature_line "- BPM: " tempo
    ++ feature_line "- Key: " key
    ++ feature_line "- Time Signature: " timeSig.

(** The lookup of the audio features of a track: empty without a key, a
    search result, or the details of the song. *)
Definition bpmData (w : World) (trackName artistName : string) : B string :=
  if Js.truthy_string (GETSONGBPM_API_KEY w) then
    searchResult <-- searchGetSongBPM w trackName artistName ;;
    match searchResult with
    | Some r =>
        details <-- getSongDetails w (song_id r) ;;
        match details with
        | Some d =>
            match song d with
            | Some s => retB (bpm_section s r)
            | None => retB ""
            end
        | None => retB ""
        end
    | None => retB ""
    end
  else retB "".

Definition handler {R : JsRuntime} (w : World) (api : SpotifyApi)
  : B tool_result :=
  try_catchB
    (currentTrack <-- lift (handleSpotifyRequest api (fun api =>
                              Api.getCurrentlyPlayingTrack api)) ;;
     match currentTrack with
     | Some cur =>
         match state_item cur with
         | Some item =>
             if negb (item_kind item =? "track") then
               retB (text_result "Nothing is currently playing on Spotify")
             else
               let trackName := item_name item in
               artistName <-- first_artist_name w item ;;
               albumName <-- album_name_of w item ;;
               data <-- bpmData w trackName artistName ;;
               let duration := formatDuration (item_duration_ms item) in
               let progress :=
                 formatDuration (progress_or_0 (state_progress_ms cur)) in
               retB (text_result
                       ("# Currently "
                          ++ (if state_is_playing cur then "Playing"
                              else "Paused") ++ Js.nl ++ Js.nl
                          ++ "**Track**: " ++ Js.dq ++ trackName ++ Js.dq
                          ++ Js.nl
                          ++ "**Artist**: " ++ artistName ++ Js.nl
                          ++ "**Album**: "
                          ++ Js.render (fun s => s) albumName ++ Js.nl
                          ++ "**Progress**: " ++ progress ++ " / "
                          ++ duration ++ Js.nl
                          ++ "**ID**: " ++ item_id item ++ data))
         | None =>
             retB (text_result "Nothing is currently playing on Spotify")
         end
     | None => retB (text_result "Nothing is currently playing on Spotify")
     end)
    (fun message =>
       retB (text_result
               ("Error getting enriched track info: " ++ message))).

End Bpm.

(** ** Vocabulary of the specification *)

(** A validation or failure message: a text that starts with [Error: ]. *)
Definition is_error_text (t : string) : bool := String.prefix "Error: " t.

(** A required string is missing when it is absent or empty, a required
    list when it is absent or empty. *)
Definition missing_string (o : option string) : bool :=
  match o with
  | Some s => (s =? "")
  | None => true
  end.

Definition missing_list {A : Type} (o : option (list A)) : bool :=
  match o with
  | Some [] => true
  | Some (_ :: _) => false
  | None => true
  end.

(** The integers that every double arithmetic keeps exact: those of
    magnitude below [2^53] ([Number.MAX_SAFE_INTEGER] is [2^53 - 1]). *)
Definition safe_integer (z : Z) : Prop :=
  (- 9007199254740992 < z < 9007199254740992)%Z.

(** A text of lines: each line as it is, and one line feed between two
    consecutive lines. *)
Fixpoint one_per_line (lines : list string) : string :=
  match lines with
  | [] => ""
  | l :: rest =>
      match rest with
      | [] => l
      | _ :: _ => l ++ String "010"%char (one_per_line rest)
      end
  end.

(** The key-name table as the specification spells it out. *)
Definition spec_keyNames : list string :=
  ["C"; "C♯/D♭"; "D"; "D♯/E♭"; "E"; "F"; "F♯/G♭"; "G"; "G♯/A♭"; "A";
   "A♯/B♭"; "B"].

(** The rendering of a key over a table, as the specification states it:
    [Unknown] for [-1], and the [k]-th entry otherwise. *)
Definition spec_key_name (table : list string) (k : Z) : string :=
  if (k =? -1)%Z then "Unknown" else nth (Z.to_nat k) table "".

(** The two characters of a number of seconds between 0 and 99. *)
Definition two_digits (s : Z) : string :=
  String (ascii_of_nat (48 + Z.to_nat (s / 10)))
    (String (ascii_of_nat (48 + Z.to_nat (s mod 10))) EmptyString).

(** The number of results of the requested type in a search result, when
    the page of that type is there. *)
Definition result_count (ty : item_type) (results : SearchResults)
  : option nat :=
  match ty with
  | track => option_map (fun pg => List.length (items pg)) (res_tracks results)
  | album => option_map (fun pg => List.length (items pg)) (res_albums results)
  | artist =>
      option_map (fun pg => List.length (items pg)) (res_artists results)
  | playlist =>
      option_map (fun pg => List.length (items pg)) (res_playlists results)
  end.

(** The call that each album operation of the library tool makes. *)
Definition album_call (op : Library.operationEnum) (ids : list string)
  : option ApiCall :=
  match op with
  | Library.albums => Some (albums_get ids)
  | Library.save_album => Some (currentUser_albums_saveAlbums ids)
  | Library.remove_album => Some (currentUser_albums_removeSavedAlbums ids)
  | Library.check_saved => Some (currentUser_albums_hasSavedAlbums ids)
  | _ => None
  end.

(** A string field that is supplied and not empty. *)
Definition supplied (o : option string) : Prop :=
  exists s : string, o = Some s /\ s <> "".

(** The target of [play] and [queue]: a supplied [uri], or a [type]
    together with a supplied [id]. *)
Definition has_uri_or_type_and_id (a : Playback.args) : Prop :=
  supplied (Playback.uri a)
  \/ (Playback.type a <> None /\ supplied (Playback.id a)).

(** [`spotify:track:${id}`] for each identifier, in order. *)
Definition track_uris (ids : list string) : list string :=
  map (fun id => "spotify:track:" ++ id) ids.

(** The verb of the success message of the two album operations that
    change the library. *)
Definition album_verb (op : Library.operationEnum) : option string :=
  match op with
  | Library.save_album => Some "Saved"
  | Library.remove_album => Some "Removed"
  | _ => None
  end.

(** The argument records that fail the required-field validation of their
    operation, per tool. *)
Definition library_fails_validation (a : Library.args) : bool :=
  match Library.operation a with
  | Library.search =>
      missing_string (Library.query a) || negb (Js.present (Library.type a))
  | Library.playlist_tracks => missing_string (Library.playlist_id a)
  | Library.albums | Library.save_album | Library.remove_album
  | Library.check_saved => missing_list (Library.album_ids a)
  | Library.album_tracks =>
      match Library.album_ids a with
      | Some (id0 :: _) => (id0 =? "")
      | _ => true
      end
  | _ => false
  end.

Definition playback_fails_validation (a : Playback.args) : bool :=
  match Playback.operation a with
  | Playback.play | Playback.queue =>
      missing_string (Playback.uri a)
      && (negb (Js.present (Playback.type a))
          || missing_string (Playback.id a))
  | Playback.create_playlist => missing_string (Playback.name a)
  | Playback.add_to_playlist =>
      missing_string (Playback.playlist_id a)
      || missing_list (Playback.track_ids a)
  | _ => false
  end.

Definition info_fails_validation (a : Info.args) : bool :=
  match Info.operation a with
  | Info.audio_features => missing_string (Info.track_id a)
  | _ => false
  end.

(** ** A runtime and a service for the examples *)

(** [x.toFixed(d)] for an integer [x] of magnitude below [10^21]: its
    digits, and [d] zeros after the point when [d] is not zero. *)
Definition integer_toFixed (z : Z) (d : nat) : string :=
  Js.number_to_string (Js.to_double z)
    ++ match d with
       | O => ""
       | S _ => "." ++ Js.zeros d
       end.

(** A runtime in which the fractional numbers are integers (of magnitude
    below [10^19], so that a hundred times one stays below [10^21]) and a
    date is rendered as it was received. *)
Definition example_runtime : JsRuntime := {|
  float := Z;
  float_truthy := Js.truthy_number;
  Math_round := fun z => z;
  times100 := fun z => Js.to_double (Js.to_double z * 100);
  toFixed := integer_toFixed;
  float_to_string := Js.double_to_string;
  toLocaleDateString := fun s => s;
  toLocaleString := fun s => s
|}.

Definition no_results : SearchResults := {|
  res_tracks := None; res_albums := None; res_artists := None;
  res_playlists := None
|}.

(** A service in which every call succeeds, with the given answers to the
    calls that return data. *)
Definition example_api (results : SearchResults)
  (playlist_items : Page PlaylistedTrack) (saved_items : Page SavedTrack)
  (saved : list bool) (features : option (@AudioFeatures example_runtime))
  : @SpotifyApi example_runtime := {|
  client_ready := Returned tt;
  on_search := fun _ _ _ => Returned results;
  on_playlists := fun _ => Returned {| items := []; total := 0 |};
  on_getPlaylistItems := fun _ _ _ => Returned playlist_items;
  on_savedTracks := fun _ _ => Returned saved_items;
  on_getRecentlyPlayedTracks := fun _ => Returned {| items := []; total := 0 |};
  on_albums_get := fun _ => Returned [];
  on_albums_tracks := fun _ _ _ => Returned {| items := []; total := 0 |};
  on_saveAlbums := fun _ => Returned tt;
  on_removeSavedAlbums := fun _ => Returned tt;
  on_hasSavedAlbums := fun _ => Returned saved;
  on_startResumePlayback := fun _ _ _ => Returned tt;
  on_pausePlayback := fun _ => Returned tt;
  on_skipToNext := fun _ => Returned tt;
  on_skipToPrevious := fun _ => Returned tt;
  on_addItemToPlaybackQueue := fun _ _ => Returned tt;
  on_profile := Returned {| profile_id := "me" |};
  on_createPlaylist := fun _ _ _ _ => Returned {| created_id := "new" |};
  on_addItemsToPlaylist := fun _ _ _ => Returned tt;
  on_getCurrentlyPlayingTrack := Returned None;
  on_getUsersQueue := Returned None;
  on_audioFeatures := fun _ => Returned features
|}.

Definition empty_page {A : Type} : Page A := {| items := []; total := 0 |}.

(** The analysis of a track in C sharp major at 120 beats per minute. *)
Definition c_sharp_major : @AudioFeatures example_runtime :=
  @Build_AudioFeatures example_runtime
    120%Z 1%Z 1%Z 0%Z 0%Z 0%Z 0%Z 0%Z 0%Z 0%Z (-5)%Z 4%Z.

Definition quiet_api : @SpotifyApi example_runtime :=
  example_api no_results empty_page empty_page [] None.

(** A service whose client cannot be obtained. *)
Definition offline_api : @SpotifyApi example_runtime := {|
  client_ready := Thrown "No access token";
  on_search := fun _ _ _ => Thrown "offline";
  on_playlists := fun _ => Thrown "offline";
  on_getPlaylistItems := fun _ _ _ => Thrown "offline";
  on_savedTracks := fun _ _ => Thrown "offline";
  on_getRecentlyPlayedTracks := fun _ => Thrown "offline";
  on_albums_get := fun _ => Thrown "offline";
  on_albums_tracks := fun _ _ _ => Thrown "offline";
  on_saveAlbums := fun _ => Thrown "offline";
  on_removeSavedAlbums := fun _ => Thrown "offline";
  on_hasSavedAlbums := fun _ => Thrown "offline";
  on_startResumePlayback := fun _ _ _ => Thrown "offline";
  on_pausePlayback := fun _ => Thrown "offline";
  on_skipToNext := fun _ => Thrown "offline";
  on_skipToPrevious := fun _ => Thrown "offline";
  on_addItemToPlaybackQueue := fun _ _ => Thrown "offline";
  on_profile := Thrown "offline";
  on_createPlaylist := fun _ _ _ _ => Thrown "offline";
  on_addItemsToPlaylist := fun _ _ _ => Thrown "offline";
  on_getCurrentlyPlayingTrack := Thrown "offline";
  on_getUsersQueue := Thrown "offline";
  on_audioFeatures := fun _ => Thrown "offline"
|}.

Definition library_args (op : Library.operationEnum)
  (ids : option (list string)) : Library.args := {|
  Library.operation := op; Library.query := None; Library.type := None;
  Library.playlist_id := None; Library.album_ids := ids;
  Library.limit := None; Library.offset := None
|}.

Definition playback_args (op : Playback.operationEnum)
  (uri : option string) (ty : option item_type) (id : option string)
  (playlist_id : option string) (track_ids : option (list string))
  : Playback.args := {|
  Playback.operation := op; Playback.uri := uri; Playback.type := ty;
  Playback.id := id; Playback.device_id := None; Playback.name := None;
  Playback.description := None; Playback.public := None;
  Playback.playlist_id := playlist_id; Playback.track_ids := track_ids;
  Playback.position := None
|}.

(** Twenty-one album identifiers, [a1] to [a21]. *)
Definition twenty_one_ids : list string :=
  map (fun n => "a" ++ Js.number_to_string (Z.of_nat n)) (seq 1 21).

(** ** Vocabulary of the further properties *)

(** The URI that [play] and [queue] act on: the supplied [uri], and
    otherwise [spotify:<type>:<id>] built from the supplied type and
    identifier. *)
Inductive target_uri (a : Playback.args) : string -> Prop :=
| target_given (u : string) :
    Playback.uri a = Some u -> u <> "" -> target_uri a u
| target_built (t : item_type) (i : string) :
    ~ supplied (Playback.uri a) ->
    Playback.type a = Some t ->
    Playback.id a = Some i -> i <> "" ->
    target_uri a ("spotify:" ++ item_type_to_string t ++ ":" ++ i).

(** The device a playback operation addresses: the one given, and the
    empty string, which stands for the active device, when none is. *)
Definition device_of (a : Playback.args) : string :=
  match Playback.device_id a with
  | Some d => d
  | None => ""
  end.

(** The envelope that carries one text. *)
Definition carries (r : tool_result) (t : string) : Prop :=
  content r = [ {| ctype := "text"; text := t |} ].

(** A wrapped call that fails with the message [e]: the client cannot be
    obtained, or the call itself throws. *)
Definition fails_with {A : Type} (ready : outcome unit) (answer : outcome A)
  (e : string) : Prop :=
  ready = Thrown e \/ (ready = Returned tt /\ answer = Thrown e).

(** The arguments of one operation of the info tool. *)
Definition info_args (op : Info.operationEnum) (tid : option string)
  : Info.args := {|
  Info.operation := op; Info.track_id := tid; Info.limit := None
|}.

(** A track as the service delivers it, and an episode. *)
Definition sample_track : Item := {|
  item_kind := "track"; item_name := "Song"; item_id := "t1";
  item_duration_ms := 65000;
  item_artists := Some [ {| artist_name := "Band"; artist_id := "a1" |} ];
  item_album := Some (Some "Record")
|}.

Definition sample_episode : Item := {|
  item_kind := "episode"; item_name := "Talk"; item_id := "e1";
  item_duration_ms := 1000; item_artists := None; item_album := None
|}.

(** A search result matches an artist when the name of its artist
    contains the name of the artist, both in lower case. *)
Definition artist_matches (w : Bpm.World) (artistName : string)
  (r : Bpm.SearchResult) : Prop :=
  exists a b : string,
    Bpm.toLowerCase w (Bpm.result_artist_name r)
    = a ++ Bpm.toLowerCase w artistName ++ b.

(** A service that is playing the given item, with the given queue, and
    otherwise answers as [quiet_api] does. *)
Definition playing_api (it : Item) (q : option Queue)
  (features : option (@AudioFeatures example_runtime))
  : @SpotifyApi example_runtime := {|
  client_ready := Returned tt;
  on_search := fun _ _ _ => Returned no_results;
  on_playlists := fun _ => Returned empty_page;
  on_getPlaylistItems := fun _ _ _ => Returned empty_page;
  on_savedTracks := fun _ _ => Returned empty_page;
  on_getRecentlyPlayedTracks := fun _ => Returned empty_page;
  on_albums_get := fun _ => Returned [];
  on_albums_tracks := fun _ _ _ => Returned empty_page;
  on_saveAlbums := fun _ => Returned tt;
  on_removeSavedAlbums := fun _ => Returned tt;
  on_hasSavedAlbums := fun _ => Returned [];
  on_startResumePlayback := fun _ _ _ => Returned tt;
  on_pausePlayback := fun _ => Returned tt;
  on_skipToNext := fun _ => Returned tt;
  on_skipToPrevious := fun _ => Returned tt;
  on_addItemToPlaybackQueue := fun _ _ => Returned tt;
  on_profile := Returned {| profile_id := "me" |};
  on_createPlaylist := fun _ _ _ _ => Returned {| created_id := "new" |};
  on_addItemsToPlaylist := fun _ _ _ => Returned tt;
  on_getCurrentlyPlayingTrack :=
    Returned (Some {| state_item := Some it; state_progress_ms := Some 5000%Z;
                      state_is_playing := true |});
  on_getUsersQueue := Returned q;
  on_audioFeatures := fun _ => Returned features
|}.

(** A lookup service with the given key and answers; the string functions
    of the runtime are the identity, which they are on lower-case
    unreserved text. *)
Definition sample_world (key : string)
  (found : outcome (Bpm.Response Bpm.SearchData))
  (details : outcome (Bpm.Response (option Bpm.SongData))) : Bpm.World := {|
  Bpm.GETSONGBPM_API_KEY := key;
  Bpm.fetch_search := fun _ => found;
  Bpm.fetch_song := fun _ => details;
  Bpm.encodeURIComponent := fun s => s;
  Bpm.toLowerCase := fun s => s;
  Bpm.type_error := fun p => "Cannot read properties of undefined"
|}.

Definition sample_result : Bpm.SearchResult := {|
  Bpm.song_id := "s1"; Bpm.song_title := "Song"; Bpm.song_uri := "u";
  Bpm.result_artist_name := "band"; Bpm.result_tempo := Some "120";
  Bpm.result_time_sig := None; Bpm.song_key := None
|}.

(** A track whose album has no name, and a track without artists. *)
Definition sample_single : Item := {|
  item_kind := "track"; item_name := "Single"; item_id := "t2";
  item_duration_ms := 65000;
  item_artists := Some [ {| artist_name := "Band"; artist_id := "a1" |} ];
  item_album := Some None
|}.

Definition sample_bare_track : Item := {|
  item_kind := "track"; item_name := "Bare"; item_id := "t3";
  item_duration_ms := 65000; item_artists := None; item_album := None
|}.

(** The arguments of [create_playlist] for a playlist of the given
    name. *)
Definition create_playlist_args (n : string) : Playback.args := {|
  Playback.operation := Playback.create_playlist; Playback.uri := None;
  Playback.type := None; Playback.id := None; Playback.device_id := None;
  Playback.name := Some n; Playback.description := None;
  Playback.public := None; Playback.playlist_id := None;
  Playback.track_ids := None; Playback.position := None
|}.

(** A queue of one entry that has a name only, with nothing playing. *)
Definition sample_queue : Queue := {|
  currently_playing := None;
  queue_items :=
    Some [ {| qi_name := Some "Next"; qi_id := None; qi_artists := None;
              qi_duration_ms := None |} ]
|}.

(** The answers of the lookup service for a song found and described. *)
Definition sample_found : outcome (Bpm.Response Bpm.SearchData) :=
  Returned {| Bpm.ok := true; Bpm.status := 200;
              Bpm.json := Returned {| Bpm.search := Some [sample_result] |} |}.

Definition sample_song : Bpm.Song := {|
  Bpm.id := "s1"; Bpm.title := "Song"; Bpm.song_artist_name := "band";
  Bpm.tempo := Some "128"; Bpm.time_sig := None; Bpm.key_of := None
|}.

Definition sample_details
  : outcome (Bpm.Response (option Bpm.SongData)) :=
  Returned {| Bpm.ok := true; Bpm.status := 200;
              Bpm.json := Returned (Some {| Bpm.song := Some sample_song |}) |}.

(** Unfolds a handler of the library tool down to the answers of the
    service. *)
Ltac library_step :=
  unfold Library.handler, handleSpotifyRequest, Api.albums_get_,
    Api.saveAlbums, Api.removeSavedAlbums, Api.hasSavedAlbums, perform,
    bind, ret, throw, calls, result in *.

(** * Properties *)

(** ** Numbers, lists and the monad *)

Lemma to_int_printable (z : Z) :
  NilZero.int_of_string (NilZero.string_of_int (Z.to_int z))
  = Some (Z.to_int z).
Proof.
  apply NilZero.isi; destruct z; simpl; try discriminate;
    intros E; injection E; apply Unsigned.to_uint_nonnil.
Qed.

(** Two numbers that print alike are equal: what a text reports about a
    number determines the number. *)
Lemma number_to_string_inj (a b : Z) :
  Js.number_to_string a = Js.number_to_string b -> a = b.
Proof.
  unfold Js.number_to_string; intros H.
  pose proof (to_int_printable a) as Ha.
  rewrite H, to_int_printable in Ha.
  injection Ha as Ha.
  rewrite <- (DecimalZ.of_to a), <- (DecimalZ.of_to b).
  now rewrite Ha.
Qed.

Lemma mapi_from_length {A B : Type} (f : A -> Z -> B) (l : list A) :
  forall i0, List.length (Js.mapi_from i0 f l) = List.length l.
Proof.
  induction l as [|x l IH]; intros i0; simpl; [reflexivity|].
  now rewrite IH.
Qed.

Lemma mapi_from_nth_error {A B : Type} (f : A -> Z -> B) (l : list A) :
  forall i0 n,
    nth_error (Js.mapi_from i0 f l) n
    = option_map (fun x => f x (i0 + Z.of_nat n)%Z) (nth_error l n).
Proof.
  induction l as [|x l IH]; intros i0 n.
  - destruct n; reflexivity.
  - destruct n as [|n]; simpl.
    + now rewrite Z.add_0_r.
    + rewrite IH. destruct (nth_error l n); simpl; [|reflexivity].
      do 2 f_equal. lia.
Qed.

Lemma mapi_nth_error {A B : Type} (f : A -> Z -> B) (l : list A) (n : nat) :
  nth_error (Js.mapi f l) n
  = option_map (fun x => f x (Z.of_nat n)) (nth_error l n).
Proof.
  unfold Js.mapi. now rewrite mapi_from_nth_error.
Qed.

Lemma index_nth_error {A : Type} (l : list A) (n : nat) :
  Js.index l (Z.of_nat n) = nth_error l n.
Proof.
  unfold Js.index.
  destruct (Z.ltb_spec (Z.of_nat n) 0); [lia|].
  now rewrite Nat2Z.id.
Qed.

Section Wrapper.
Context {R : JsRuntime} (api : SpotifyApi).

(** Once the client is there, the wrapper runs the operation as it is. *)
Lemma handleSpotifyRequest_ready {A : Type} (action : SpotifyApi -> M A) u :
  client_ready api = Returned u ->
  handleSpotifyRequest api action = action api.
Proof.
  intros H. unfold handleSpotifyRequest. now rewrite H.
Qed.

(** Without a client, the wrapper throws before any call. *)
Lemma handleSpotifyRequest_no_client {A : Type}
  (action : SpotifyApi -> M A) e :
  client_ready api = Thrown e ->
  handleSpotifyRequest api action = ([], Thrown e).
Proof.
  intros H. unfold handleSpotifyRequest. now rewrite H.
Qed.

End Wrapper.

(** ** The duration formatter *)

Lemma pad2_two_digits (s : Z) :
  (0 <= s < 60)%Z -> pad2 s = two_digits s.
Proof.
  intros H. rewrite <- (Z2Nat.id s) by lia.
  assert (Hn : (Z.to_nat s < 60)%nat) by lia.
  revert Hn. generalize (Z.to_nat s) as n. intros n Hn.
  do 60 (destruct n as [|n]; [reflexivity|]). lia.
Qed.

(** C9. For every duration [d >= 0] in milliseconds, the formatter returns
    the minutes [d div 60000], a colon, and the remaining whole seconds as
    exactly two digits (a leading zero below ten); the seconds are below
    sixty, and minutes and seconds account for every whole second of [d].
    In particular 65000 is rendered [1:05]. *)
Theorem formatDuration_mss (d : Z) :
  (0 <= d)%Z ->
  let m := (d / 60000)%Z in
  let s := ((d mod 60000) / 1000)%Z in
  formatDuration d = Js.number_to_string m ++ ":" ++ two_digits s
  /\ String.length (two_digits s) = 2%nat
  /\ (0 <= s < 60)%Z
  /\ (m * 60 + s = d / 1000)%Z
  /\ formatDuration 65000 = "1:05".
Proof.
  intros Hd m s.
  assert (Hs : (0 <= s < 60)%Z).
  { subst s. pose proof (Z.mod_pos_bound d 60000 ltac:(lia)) as Hm.
    split.
    - apply Z.div_pos; lia.
    - apply Z.div_lt_upper_bound; lia. }
  repeat split; try lia.
  - unfold formatDuration. fold m s. now rewrite pad2_two_digits.
  - subst m s.
    pose proof (Z.div_mod d 60000 ltac:(lia)) as E.
    pose proof (Z.mod_pos_bound d 60000 ltac:(lia)) as Hm.
    set (q := (d / 60000)%Z) in *. set (r := (d mod 60000)%Z) in *.
    rewrite E.
    replace (60000 * q + r)%Z with (r + (q * 60) * 1000)%Z by lia.
    rewrite Z.div_add by lia. lia.
Qed.

Lemma formatDuration_mss_witness :
  (0 <= 65000)%Z
  /\ formatDuration 65000
     = Js.number_to_string (65000 / 60000)
         ++ ":" ++ two_digits ((65000 mod 60000) / 1000).
Proof.
  split; [lia | apply (formatDuration_mss 65000); lia].
Defined.

(** ** The key-name table *)

Lemma key_in_range (k : Z) :
  (-1 <= k <= 11)%Z ->
  (k = -1 \/ k = 0 \/ k = 1 \/ k = 2 \/ k = 3 \/ k = 4 \/ k = 5 \/ k = 6
   \/ k = 7 \/ k = 8 \/ k = 9 \/ k = 10 \/ k = 11)%Z.
Proof. lia. Qed.

(** The table of [getTrackAudioFeatures] is the one the specification
    spells out. *)
Lemma read_keyNames_spec : Read.keyNames = spec_keyNames.
Proof. reflexivity. Qed.

(** C1, as the code has it.  For every key [k] in [-1..11], both
    audio-features operations render [Unknown] for [-1] and never read
    their table at [-1]; otherwise [getTrackAudioFeatures] renders the
    [k]-th entry of the twelve-entry table [C, C♯/D♭, D, ..., B], and the
    [audio_features] operation of the info tool renders the [k]-th entry
    of its own table, which names the sharps only
    ([C, C♯, D, D♯, E, F, F♯, G, G♯, A, A♯, B]).  In both, 0 renders [C]
    and 11 renders [B]. *)
Theorem key_name_rendering (k : Z) :
  (-1 <= k <= 11)%Z ->
  Read.keyName k = spec_key_name spec_keyNames k
  /\ Info.keyName k = spec_key_name Info.keyNames k
  /\ ~ In (-1)%Z (reads (Read.keyName_traced k))
  /\ ~ In (-1)%Z (reads (Info.keyName_traced k))
  /\ List.length spec_keyNames = 12%nat
  /\ List.length Info.keyNames = 12%nat
  /\ Read.keyName 0 = "C" /\ Read.keyName 11 = "B"
  /\ Info.keyName 0 = "C" /\ Info.keyName 11 = "B".
Proof.
  intros H.
  destruct (key_in_range k H) as
    [->|[->|[->|[->|[->|[->|[->|[->|[->|[->|[->|[->| ->]]]]]]]]]]]];
    repeat split; try reflexivity;
    simpl; intuition discriminate.
Qed.

Lemma key_name_rendering_witness :
  (-1 <= 6 <= 11)%Z
  /\ Read.keyName 6 = spec_key_name spec_keyNames 6
  /\ Info.keyName 6 = spec_key_name Info.keyNames 6.
Proof.
  split; [lia|].
  destruct (key_name_rendering 6 ltac:(lia)) as (H1 & H2 & _).
  exact (conj H1 H2).
Defined.

(** C1, as stated, fails on the info tool: for key 1 its [audio_features]
    operation renders [C♯], while entry 1 of the table of the
    specification is [C♯/D♭]. *)
Lemma info_key_name_not_spec_table :
  Info.keyName 1 = "C♯"
  /\ spec_key_name spec_keyNames 1 = "C♯/D♭"
  /\ Info.keyName 1 <> spec_key_name spec_keyNames 1
  /\ exists lines : list string,
       result (Info.handler
                 (example_api no_results empty_page empty_page []
                    (Some c_sharp_major))
                 {| Info.operation := Info.audio_features;
                    Info.track_id := Some "t"; Info.limit := None |})
       = Returned (text_result (Js.join Js.nl lines))
       /\ nth_error lines 1 = Some "**Key**: C♯ Major".
Proof.
  repeat split; try reflexivity.
  - intros E; discriminate E.
  - eexists. split; reflexivity.
Qed.

(** ** The album operations of the library tool *)

Lemma no_album_ids_cons (x : string) (l : list string) :
  Library.no_album_ids (Some (x :: l)) = false.
Proof.
  unfold Library.no_album_ids, Js.truthy_number, Js.length.
  destruct (Z.eqb_spec (Z.of_nat (List.length (x :: l))) 0) as [E|]; simpl in *;
    [lia | reflexivity].
Qed.

Lemma firstn_prefix {A : Type} (n : nat) (l : list A) (i : nat) :
  (i < n)%nat -> nth_error (firstn n l) i = nth_error l i.
Proof.
  intros H. rewrite nth_error_firstn.
  destruct (Nat.ltb_spec i n); [reflexivity | lia].
Qed.

(** Joining with line feeds puts one line feed between consecutive
    lines and nothing else. *)
Lemma join_one_per_line (lines : list string) :
  Js.join Js.nl lines = one_per_line lines.
Proof.
  unfold Js.join.
  induction lines as [|l rest IH]; [reflexivity|].
  destruct rest as [|l' rest']; [reflexivity|].
  change (String.concat Js.nl (l :: l' :: rest'))
    with (l ++ Js.nl ++ String.concat Js.nl (l' :: rest')).
  rewrite IH. reflexivity.
Qed.

Section LibraryAlbums.
Context {R : JsRuntime} (api : SpotifyApi).

(** C2, as the code has it.  For every non-empty [album_ids] list supplied
    to [albums], [save_album], [remove_album] or [check_saved], the only
    call the operation makes on the service carries the first twenty
    elements of the list, in input order, when the list is longer than
    twenty, and the list itself when it has at most twenty elements; the
    call is made as soon as the client is available. *)
Theorem album_ids_first_twenty (a : Library.args) (ids : list string)
  (c : ApiCall) :
  album_call (Library.operation a) (Js.slice0 20 ids) = Some c ->
  Library.album_ids a = Some ids ->
  ids <> [] ->
  (client_ready api = Returned tt -> calls (Library.handler api a) = [c])
  /\ (forall c', In c' (calls (Library.handler api a)) -> c' = c)
  /\ ((20 < List.length ids)%nat ->
      List.length (Js.slice0 20 ids) = 20%nat
      /\ forall i, (i < 20)%nat ->
                   nth_error (Js.slice0 20 ids) i = nth_error ids i)
  /\ ((List.length ids <= 20)%nat -> Js.slice0 20 ids = ids).
Proof.
  intros Hc Hids Hne.
  destruct ids as [|x l]; [congruence|].
  repeat split.
  - intros Hready. library_step.
    rewrite Hids, Hready.
    destruct (Library.operation a); simpl in Hc; try discriminate;
      injection Hc as <-; rewrite no_album_ids_cons; simpl;
      match goal with
      | |- context [match ?o with Returned _ => _ | Thrown _ => _ end] =>
          destruct o; reflexivity
      end.
  - intros c' Hin. library_step.
    rewrite Hids in Hin.
    destruct (Library.operation a); simpl in Hc; try discriminate;
      injection Hc as <-; rewrite no_album_ids_cons in Hin; simpl in Hin;
      destruct (client_ready api); simpl in Hin;
      repeat match type of Hin with
             | context [match ?o with Returned _ => _ | Thrown _ => _ end] =>
                 destruct o; simpl in Hin
             end;
      intuition congruence.
  - unfold Js.slice0. apply firstn_length_le. lia.
  - intros i Hi. unfold Js.slice0. now apply firstn_prefix.
  - intros Hle. unfold Js.slice0. now apply firstn_all2.
Qed.

(** C3. For every non-empty [album_ids] list supplied to [check_saved],
    when the service answers, the returned envelope holds one text, made
    of exactly one line per supplied identifier, in input order, with one
    line feed between consecutive lines; the line of an identifier reads
    [<id>: saved] when the service reports it saved, and [<id>: not saved]
    when the service reports it not saved, and also for each identifier
    that the answer of the service does not cover. *)
Theorem check_saved_lines (a : Library.args) (ids : list string)
  (saved : list bool) :
  Library.operation a = Library.check_saved ->
  Library.album_ids a = Some ids ->
  ids <> [] ->
  client_ready api = Returned tt ->
  on_hasSavedAlbums api (Js.slice0 20 ids) = Returned saved ->
  exists (r : tool_result) (lines : list string),
    result (Library.handler api a) = Returned r
    /\ content r = [ {| ctype := "text"; text := one_per_line lines |} ]
    /\ List.length lines = List.length ids
    /\ forall (i : nat) (id : string),
         nth_error ids i = Some id ->
         (nth_error saved i = Some true ->
          nth_error lines i = Some (id ++ ": saved"))
         /\ (nth_error saved i = Some false ->
             nth_error lines i = Some (id ++ ": not saved"))
         /\ (nth_error saved i = None ->
             nth_error lines i = Some (id ++ ": not saved")).
Proof.
  intros Hop Hids Hne Hready Hsaved.
  exists (text_result (Js.join Js.nl (Js.mapi (Library.saved_line saved) ids))).
  exists (Js.mapi (Library.saved_line saved) ids).
  destruct ids as [|x l]; [congruence|].
  split; [|split; [|split]].
  - library_step.
    rewrite Hop, Hids, Hready, no_album_ids_cons. cbn [Js.nullish].
    now rewrite Hsaved.
  - unfold text_result, content. now rewrite join_one_per_line.
  - apply mapi_from_length.
  - intros i id Hi.
    rewrite mapi_nth_error, Hi. cbn [option_map].
    unfold Library.saved_line. rewrite index_nth_error.
    repeat split; intros ->; reflexivity.
Qed.

(** An identifier past the twentieth is not sent to the service; when the
    service answers for the identifiers it was sent, the line of such an
    identifier reads [not saved]. *)
Lemma check_saved_beyond_twenty (saved : list bool) (id : string) (i : nat) :
  (List.length saved <= 20)%nat -> (20 <= i)%nat ->
  Library.saved_line saved id (Z.of_nat i) = id ++ ": not saved".
Proof.
  intros Hs Hi. unfold Library.saved_line.
  rewrite index_nth_error.
  now rewrite (proj2 (nth_error_None saved i)) by lia.
Qed.

(** C10. Whenever [save_album] or [remove_album] returns its success
    message for a supplied [album_ids] list, the message reports the
    length of the whole list ([Saved <n> album(s)], [Removed <n>
    album(s)] with [n] the number of supplied identifiers), while the one
    call made carries the first twenty only; for a list longer than
    twenty the reported number is therefore not the number sent. *)
Theorem album_success_message_counts_all (a : Library.args)
  (ids : list string) (verb : string) (c : ApiCall) (r : tool_result) :
  album_verb (Library.operation a) = Some verb ->
  album_call (Library.operation a) (Js.slice0 20 ids) = Some c ->
  Library.album_ids a = Some ids ->
  result (Library.handler api a) = Returned r ->
  is_error_text (result_text r) = false ->
  result_text r
  = verb ++ " " ++ Js.number_to_string (Z.of_nat (List.length ids))
      ++ " album(s)"
  /\ calls (Library.handler api a) = [c]
  /\ ((20 < List.length ids)%nat ->
      List.length (Js.slice0 20 ids) = 20%nat
      /\ Js.number_to_string (Z.of_nat (List.length ids))
         <> Js.number_to_string 20).
Proof.
  intros Hverb Hc Hids Hres Herr.
  assert (Hlong : (20 < List.length ids)%nat ->
                  List.length (Js.slice0 20 ids) = 20%nat
                  /\ Js.number_to_string (Z.of_nat (List.length ids))
                     <> Js.number_to_string 20).
  { intros Hlen. split.
    - unfold Js.slice0. apply firstn_length_le. lia.
    - intros E. apply number_to_string_inj in E. lia. }
  library_step. rewrite Hids in *.
  destruct (Library.operation a); simpl in Hverb; try discriminate;
    injection Hverb as <-; simpl in Hc; injection Hc as <-;
    (destruct ids as [|x l];
     [ simpl in Hres; injection Hres as <-; discriminate Herr
     | rewrite no_album_ids_cons in *;
       destruct (client_ready api); simpl in *; [|discriminate Hres];
       match type of Hres with
       | context [match ?o with Returned _ => _ | Thrown _ => _ end] =>
           destruct o; simpl in *; [|discriminate Hres]
       end;
       injection Hres as <-; auto ]).
Qed.

End LibraryAlbums.

(** C2, as stated, fails on the empty list: it has at most twenty
    elements, yet it is not passed to the service; every album operation
    answers with a validation error instead and makes no call. *)
Lemma empty_album_ids_not_passed :
  Library.handler quiet_api (library_args Library.albums (Some []))
  = ([], Returned (text_result "Error: album_ids required"))
  /\ Library.handler quiet_api (library_args Library.save_album (Some []))
     = ([], Returned (text_result "Error: album_ids required"))
  /\ Library.handler quiet_api (library_args Library.remove_album (Some []))
     = ([], Returned (text_result "Error: album_ids required"))
  /\ Library.handler quiet_api (library_args Library.check_saved (Some []))
     = ([], Returned (text_result "Error: album_ids required"))
  /\ calls (Library.handler quiet_api
              (library_args Library.albums (Some [])))
     <> [albums_get []].
Proof.
  repeat split; try reflexivity. intros E; discriminate E.
Qed.

Lemma album_ids_first_twenty_witness :
  calls (Library.handler quiet_api
           (library_args Library.save_album (Some twenty_one_ids)))
  = [currentUser_albums_saveAlbums (Js.slice0 20 twenty_one_ids)]
  /\ List.length (Js.slice0 20 twenty_one_ids) = 20%nat.
Proof.
  destruct (album_ids_first_twenty quiet_api
              (library_args Library.save_album (Some twenty_one_ids))
              twenty_one_ids
              (currentUser_albums_saveAlbums (Js.slice0 20 twenty_one_ids))
              eq_refl eq_refl ltac:(discriminate))
    as (H1 & _ & H3 & _).
  split.
  - exact (H1 eq_refl).
  - exact (proj1 (H3 ltac:(vm_compute; lia))).
Defined.

Lemma check_saved_lines_witness :
  exists r : tool_result,
    result (Library.handler
              (example_api no_results empty_page empty_page [true; false]
                 None)
              (library_args Library.check_saved (Some ["x"; "y"; "z"])))
    = Returned r
    /\ content r
       = [ {| ctype := "text";
              text := "x: saved" ++ String "010"%char
                        ("y: not saved" ++ String "010"%char "z: not saved")
           |} ].
Proof.
  destruct (check_saved_lines
              (example_api no_results empty_page empty_page [true; false]
                 None)
              (library_args Library.check_saved (Some ["x"; "y"; "z"]))
              ["x"; "y"; "z"] [true; false]
              eq_refl eq_refl ltac:(discriminate) eq_refl eq_refl)
    as (r & lines & Hr & Hc & Hlen & Hline).
  exists r. split; [exact Hr|].
  pose proof (proj1 (Hline 0%nat "x" eq_refl) eq_refl) as H0.
  pose proof (proj1 (proj2 (Hline 1%nat "y" eq_refl)) eq_refl) as H1.
  pose proof (proj2 (proj2 (Hline 2%nat "z" eq_refl)) eq_refl) as H2.
  destruct lines as [|l0 [|l1 [|l2 [|l3 rest]]]]; try discriminate Hlen.
  injection H0 as ->. injection H1 as ->. injection H2 as ->.
  exact Hc.
Defined.

Lemma album_success_message_counts_all_witness :
  result_text
    (text_result "Saved 21 album(s)")
  = "Saved" ++ " " ++ Js.number_to_string (Z.of_nat
                                             (List.length twenty_one_ids))
      ++ " album(s)"
  /\ calls (Library.handler quiet_api
              (library_args Library.save_album (Some twenty_one_ids)))
     = [currentUser_albums_saveAlbums (Js.slice0 20 twenty_one_ids)].
Proof.
  destruct (album_success_message_counts_all quiet_api
              (library_args Library.save_album (Some twenty_one_ids))
              twenty_one_ids "Saved"
              (currentUser_albums_saveAlbums (Js.slice0 20 twenty_one_ids))
              (text_result "Saved 21 album(s)")
              eq_refl eq_refl eq_refl eq_refl eq_refl)
    as (H1 & H2 & _).
  exact (conj H1 H2).
Defined.

(** ** Search *)

Lemma or_text_nonempty (t fallback : string) :
  fallback <> "" -> Library.or_text t fallback <> "".
Proof.
  intros Hf. unfold Library.or_text, Js.truthy_string.
  destruct (String.eqb_spec t ""); simpl; assumption.
Qed.

Lemma mapi_empty_count {A : Type} (f : A -> Z -> string) (l : list A) :
  List.length l = 0%nat -> Js.join Js.nl (Js.mapi f l) = "".
Proof.
  destruct l; [reflexivity | discriminate].
Qed.

(** With no result of the requested type, both search operations build
    the empty text before they choose their message. *)
Lemma empty_results_text (ty : item_type) (results : SearchResults) :
  result_count ty results = Some 0%nat ->
  Read.formattedResults ty results = ""
  /\ Library.search_text ty results = "".
Proof.
  unfold result_count, Read.formattedResults, Library.search_text.
  destruct ty, (res_tracks results), (res_albums results),
    (res_artists results), (res_playlists results);
    simpl; intros H; try discriminate H; injection H as H;
    split; now apply mapi_empty_count.
Qed.

Section Search.
Context {R : JsRuntime} (api : SpotifyApi).

(** C4, as the code has it.  When the service returns an empty result
    list for the requested type, [searchSpotify] returns
    [No <type> results found for "<query>"], naming the requested type,
    whereas the [search] operation of the library tool, which requires a
    non-empty query, returns [No results]; and no text returned by either
    search operation is the empty string. *)
Theorem empty_search_messages :
  (forall (a : Read.search_args) (results : SearchResults),
      client_ready api = Returned tt ->
      on_search api (Read.query a) [Read.type a]
        (Js.nullish (Read.limit a) 10%Z) = Returned results ->
      result_count (Read.type a) results = Some 0%nat ->
      result (Read.searchSpotify api a)
      = Returned
          (text_result
             ("No " ++ item_type_to_string (Read.type a)
                ++ " results found for " ++ Js.dq ++ Read.query a ++ Js.dq)))
  /\ (forall (a : Library.args) (q : string) (ty : item_type)
        (results : SearchResults),
         Library.operation a = Library.search ->
         Library.query a = Some q -> q <> "" ->
         Library.type a = Some ty ->
         client_ready api = Returned tt ->
         on_search api q [ty] (Js.nullish (Library.limit a) 20%Z)
         = Returned results ->
         result_count ty results = Some 0%nat ->
         result (Library.handler api a)
         = Returned (text_result "No results"))
  /\ (forall (a : Read.search_args) (r : tool_result),
         result (Read.searchSpotify api a) = Returned r ->
         result_text r <> "")
  /\ (forall (a : Library.args) (r : tool_result),
         Library.operation a = Library.search ->
         result (Library.handler api a) = Returned r ->
         result_text r <> "").
Proof.
  repeat split.
  - intros a results Hready Hs Hcount.
    unfold Read.searchSpotify, handleSpotifyRequest, Api.search_, perform,
      try_catch, bind, ret, result.
    rewrite Hready, Hs. simpl.
    now rewrite (proj1 (empty_results_text _ _ Hcount)).
  - intros a q ty results Hop Hq Hne Hty Hready Hs Hcount.
    unfold Library.handler, handleSpotifyRequest, Api.search_, perform,
      bind, ret, result.
    rewrite Hop, Hq, Hty, Hready.
    unfold Js.truthy_string. destruct (String.eqb_spec q ""); [contradiction|].
    simpl. rewrite Hs. simpl.
    now rewrite (proj2 (empty_results_text _ _ Hcount)).
  - intros a r.
    unfold Read.searchSpotify, handleSpotifyRequest, Api.search_, perform,
      try_catch, bind, ret, throw, result.
    destruct (client_ready api) as [u|e]; simpl.
    + destruct (on_search api _ _ _) as [results|e]; simpl.
      * destruct (0 <? String.length _)%nat; intros H; injection H as <-;
          destruct (Read.type a); discriminate.
      * intros H; injection H as <-. destruct (Read.type a); discriminate.
    + intros H; injection H as <-. destruct (Read.type a); discriminate.
  - intros a r Hop.
    unfold Library.handler, handleSpotifyRequest, Api.search_, perform,
      bind, ret, throw, result.
    rewrite Hop.
    destruct (Library.query a) as [q|], (Library.type a) as [ty|];
      try (intros H; injection H as <-; discriminate).
    destruct (negb (Js.truthy_string q));
      [intros H; injection H as <-; discriminate|].
    destruct (client_ready api) as [u|e]; simpl; [|discriminate].
    destruct (on_search api _ _ _) as [results|e]; simpl; [|discriminate].
    intros H; injection H as <-. simpl.
    apply or_text_nonempty. discriminate.
Qed.

End Search.

Lemma empty_search_messages_witness :
  result (Read.searchSpotify
            (example_api
               {| res_tracks := None; res_albums := Some empty_page;
                  res_artists := None; res_playlists := None |}
               empty_page empty_page [] None)
            {| Read.query := "q"; Read.type := album; Read.limit := None |})
  = Returned
      (text_result ("No album results found for " ++ Js.dq ++ "q" ++ Js.dq)).
Proof.
  apply (proj1 (empty_search_messages
                  (example_api
                     {| res_tracks := None; res_albums := Some empty_page;
                        res_artists := None; res_playlists := None |}
                     empty_page empty_page [] None))
           {| Read.query := "q"; Read.type := album; Read.limit := None |}
           {| res_tracks := None; res_albums := Some empty_page;
              res_artists := None; res_playlists := None |}
           eq_refl eq_refl eq_refl).
Defined.

(** C4, as stated, fails on the library tool: with an empty list of
    tracks for the query, its [search] operation answers [No results],
    which does not name the requested type. *)
Lemma library_search_message_not_typed :
  result (Library.handler
            (example_api
               {| res_tracks := Some empty_page; res_albums := None;
                  res_artists := None; res_playlists := None |}
               empty_page empty_page [] None)
            {| Library.operation := Library.search;
               Library.query := Some "q"; Library.type := Some track;
               Library.playlist_id := None; Library.album_ids := None;
               Library.limit := None; Library.offset := None |})
  = Returned (text_result "No results")
  /\ String.prefix ("No " ++ item_type_to_string track ++ " results found")
       "No results" = false.
Proof.
  split; reflexivity.
Qed.

(** ** The playback tool *)

Lemma truthy_supplied (o : option string) :
  Js.truthy_opt Js.truthy_string o = true <-> supplied o.
Proof.
  unfold supplied, Js.truthy_opt, Js.truthy_string. split.
  - destruct o as [s|]; [|discriminate].
    destruct (String.eqb_spec s ""); [discriminate|].
    intros _. now exists s.
  - intros (s & -> & Hs).
    destruct (String.eqb_spec s ""); [contradiction | reflexivity].
Qed.

(** The test [uri || (type && id)] of the code holds exactly for the
    argument records that name a target. *)
Lemma has_target_spec (a : Playback.args) :
  Playback.has_target a = true <-> has_uri_or_type_and_id a.
Proof.
  unfold Playback.has_target, has_uri_or_type_and_id.
  rewrite orb_true_iff, andb_true_iff, !truthy_supplied.
  assert (Js.present (Playback.type a) = true <-> Playback.type a <> None).
  { destruct (Playback.type a); simpl; split; congruence. }
  tauto.
Qed.

Lemma has_target_false (a : Playback.args) :
  ~ has_uri_or_type_and_id a -> Playback.has_target a = false.
Proof.
  intros H. destruct (Playback.has_target a) eqn:E; [|reflexivity].
  now apply has_target_spec in E.
Qed.

Lemma playing_is_not_error (ty : option item_type) :
  is_error_text
    ("Playing " ++ match ty with
                   | Some t => item_type_to_string t
                   | None => "music"
                   end) = false.
Proof. reflexivity. Qed.

Lemma track_uris_nth (ids : list string) (i : nat) (id : string) :
  nth_error ids i = Some id ->
  nth_error (track_uris ids) i = Some ("spotify:track:" ++ id).
Proof.
  intros H. unfold track_uris. now rewrite nth_error_map, H.
Qed.

Section PlaybackTool.
Context {R : JsRuntime} (api : SpotifyApi).

(** C5, as the code has it.  For [play] and [queue]: when no [uri] is
    supplied (absent or empty) and [type] and [id] are not both supplied
    ([id] absent or empty), the operation returns the validation-error
    text and makes no call on the service; when a non-empty [uri] is
    supplied, or [type] and a non-empty [id] are, no validation error is
    produced and the call is made as soon as the client is available. *)
Theorem play_queue_target_validation (a : Playback.args) :
  Playback.operation a = Playback.play
  \/ Playback.operation a = Playback.queue ->
  (~ has_uri_or_type_and_id a ->
   Playback.handler api a
   = ([], Returned (text_result "Error: Provide uri OR type+id")))
  /\ (has_uri_or_type_and_id a ->
      (forall r : tool_result,
          result (Playback.handler api a) = Returned r ->
          is_error_text (result_text r) = false)
      /\ (client_ready api = Returned tt ->
          exists c : ApiCall, calls (Playback.handler api a) = [c])).
Proof.
  intros Hop. split.
  - intros Hno. apply has_target_false in Hno.
    unfold Playback.handler.
    destruct Hop as [-> | ->]; now rewrite Hno.
  - intros Hyes. apply has_target_spec in Hyes.
    unfold Playback.handler, handleSpotifyRequest,
      Api.startResumePlayback, Api.addItemToPlaybackQueue, perform, bind,
      ret, throw, calls, result.
    destruct Hop as [-> | ->]; rewrite Hyes; simpl; split.
    + intros r. destruct (client_ready api); simpl; [|discriminate].
      destruct (Playback.is_track_type a);
        match goal with
        | |- context [match ?o with Returned _ => _ | Thrown _ => _ end] =>
            destruct o; simpl; [|discriminate]
        end;
        intros H; injection H as <-; apply playing_is_not_error.
    + intros ->. destruct (Playback.is_track_type a);
        match goal with
        | |- context [match ?o with Returned _ => _ | Thrown _ => _ end] =>
            destruct o; simpl; eexists; reflexivity
        end.
    + intros r. destruct (client_ready api); simpl; [|discriminate].
      match goal with
      | |- context [match ?o with Returned _ => _ | Thrown _ => _ end] =>
          destruct o; simpl; [|discriminate]
      end.
      intros H; injection H as <-. reflexivity.
    + intros ->.
      match goal with
      | |- context [match ?o with Returned _ => _ | Thrown _ => _ end] =>
          destruct o; simpl; eexists; reflexivity
      end.
Qed.

(** C6, as the code has it.  [add_to_playlist] returns the
    validation-error text and makes no call whenever [track_ids] is absent
    or empty, or [playlist_id] is absent or empty; otherwise the only call
    it makes carries the playlist, the list of [spotify:track:<id>] for
    each supplied identifier in input order, and the position. *)
Theorem add_to_playlist_uris (a : Playback.args) :
  Playback.operation a = Playback.add_to_playlist ->
  (missing_string (Playback.playlist_id a) = true
   \/ missing_list (Playback.track_ids a) = true ->
   Playback.handler api a
   = ([], Returned
            (text_result "Error: playlist_id and track_ids required")))
  /\ (forall (pid : string) (tids : list string),
         Playback.playlist_id a = Some pid -> pid <> "" ->
         Playback.track_ids a = Some tids -> tids <> [] ->
         (client_ready api = Returned tt ->
          calls (Playback.handler api a)
          = [playlists_addItemsToPlaylist pid (track_uris tids)
               (Playback.position a)])
         /\ (forall c : ApiCall,
                In c (calls (Playback.handler api a)) ->
                c = playlists_addItemsToPlaylist pid (track_uris tids)
                      (Playback.position a))
         /\ List.length (track_uris tids) = List.length tids
         /\ (forall (i : nat) (id : string),
                nth_error tids i = Some id ->
                nth_error (track_uris tids) i
                = Some ("spotify:track:" ++ id))).
Proof.
  intros Hop. unfold Playback.handler. rewrite Hop. split.
  - unfold missing_string, missing_list, Js.truthy_string.
    destruct (Playback.playlist_id a) as [pid|],
      (Playback.track_ids a) as [[|t tids]|];
      try reflexivity;
      try (destruct (pid =? ""); reflexivity).
    destruct (pid =? ""); [reflexivity|].
    intros [H|H]; discriminate H.
  - intros pid tids -> Hpid -> Hne.
    destruct tids as [|t tids]; [congruence|].
    unfold Js.truthy_string.
    destruct (String.eqb_spec pid ""); [contradiction|].
    replace (Js.truthy_number (Js.length (t :: tids))) with true
      by (unfold Js.truthy_number, Js.length;
          destruct (Z.eqb_spec (Z.of_nat (List.length (t :: tids))) 0);
          simpl in *; [lia | reflexivity]).
    unfold handleSpotifyRequest, Api.addItemsToPlaylist, perform, bind, ret,
      throw, calls. fold (track_uris (t :: tids)). cbn [negb orb].
    repeat split.
    + intros ->.
      destruct (on_addItemsToPlaylist api _ _ _); reflexivity.
    + intros c. destruct (client_ready api); cbn [fst].
      * destruct (on_addItemsToPlaylist api _ _ _); simpl; intuition.
      * simpl; intuition.
    + unfold track_uris. apply length_map.
    + intros i id. apply track_uris_nth.
Qed.

End PlaybackTool.

(** C5, as stated, fails on an empty [uri]: the field is present, yet
    [play] and [queue] answer with the validation error; likewise for a
    present [type] with an empty [id]. *)
Lemma empty_uri_is_rejected :
  Playback.uri (playback_args Playback.play (Some "") None None None None)
  = Some ""
  /\ Playback.handler quiet_api
       (playback_args Playback.play (Some "") None None None None)
     = ([], Returned (text_result "Error: Provide uri OR type+id"))
  /\ Playback.handler quiet_api
       (playback_args Playback.queue (Some "") None None None None)
     = ([], Returned (text_result "Error: Provide uri OR type+id"))
  /\ Playback.handler quiet_api
       (playback_args Playback.play None (Some track) (Some "") None None)
     = ([], Returned (text_result "Error: Provide uri OR type+id")).
Proof.
  repeat split; reflexivity.
Qed.

Lemma play_queue_target_validation_witness :
  Playback.handler quiet_api
    (playback_args Playback.queue None (Some album) None None None)
  = ([], Returned (text_result "Error: Provide uri OR type+id")).
Proof.
  apply (proj1 (play_queue_target_validation quiet_api
                  (playback_args Playback.queue None (Some album) None None
                     None)
                  (or_intror eq_refl))).
  intros [(s & H & _) | (_ & s & H & _)]; discriminate H.
Defined.

(** C6, as stated, fails on an empty [playlist_id]: the field is present
    and the track list is not empty, yet no list of track URIs is passed
    to the service; the operation answers with the validation error. *)
Lemma empty_playlist_id_is_rejected :
  Playback.playlist_id
    (playback_args Playback.add_to_playlist None None None (Some "")
       (Some ["a"]))
  = Some ""
  /\ Playback.handler quiet_api
       (playback_args Playback.add_to_playlist None None None (Some "")
          (Some ["a"]))
     = ([], Returned
              (text_result "Error: playlist_id and track_ids required")).
Proof.
  split; reflexivity.
Qed.

Lemma add_to_playlist_uris_witness :
  calls (Playback.handler quiet_api
           (playback_args Playback.add_to_playlist None None None (Some "p")
              (Some ["a"; "b"])))
  = [playlists_addItemsToPlaylist "p"
       ["spotify:track:a"; "spotify:track:b"] None].
Proof.
  apply (proj2 (add_to_playlist_uris quiet_api
                  (playback_args Playback.add_to_playlist None None None
                     (Some "p") (Some ["a"; "b"]))
                  eq_refl)
           "p" ["a"; "b"] eq_refl ltac:(discriminate) eq_refl
           ltac:(discriminate)).
  reflexivity.
Defined.

(** ** Pagination headers *)

Lemma length_eqb_0 {A : Type} (l : list A) :
  (Js.length l =? 0)%Z = match l with [] => true | _ :: _ => false end.
Proof.
  unfold Js.length. destruct l; [reflexivity|].
  destruct (Z.eqb_spec (Z.of_nat (List.length (a :: l))) 0); simpl in *;
    [lia | reflexivity].
Qed.

(** On safe integers the arithmetic of doubles is that of the integers,
    and the text of a double is its decimal numeral. *)
Lemma to_double_safe (z : Z) : safe_integer z -> Js.to_double z = z.
Proof.
  unfold safe_integer, Js.to_double. intros H.
  change (2 ^ 53)%Z with 9007199254740992%Z.
  destruct (Z.ltb_spec (Z.abs z) 9007199254740992); [reflexivity | lia].
Qed.

Lemma add_safe (a b : Z) :
  safe_integer a -> safe_integer b -> safe_integer (a + b) ->
  Js.add a b = (a + b)%Z.
Proof.
  intros Ha Hb Hab. unfold Js.add.
  now rewrite (to_double_safe a Ha), (to_double_safe b Hb), to_double_safe.
Qed.

Lemma double_to_string_safe (z : Z) :
  safe_integer z -> Js.double_to_string z = Js.number_to_string z.
Proof.
  intros H. unfold Js.double_to_string. rewrite (to_double_safe z H).
  unfold safe_integer in H. change (2 ^ 53)%Z with 9007199254740992%Z.
  destruct (Z.ltb_spec (Z.abs z) 9007199254740992); [reflexivity | lia].
Qed.

(** The two numbers of a range header, within the safe integers. *)
Lemma range_numbers (o : Z) (n : nat) :
  (0 <= o)%Z -> safe_integer (o + 1) -> safe_integer (o + Z.of_nat n) ->
  Js.double_to_string (Js.add o 1) = Js.number_to_string (o + 1)
  /\ Js.double_to_string (Js.add o (Z.of_nat n))
     = Js.number_to_string (o + Z.of_nat n).
Proof.
  intros Ho H1 Hn.
  assert (safe_integer o) by (unfold safe_integer in *; lia).
  assert (safe_integer 1) by (unfold safe_integer; lia).
  assert (safe_integer (Z.of_nat n)) by (unfold safe_integer in *; lia).
  rewrite !add_safe by assumption.
  now rewrite !double_to_string_safe by assumption.
Qed.

Section Pagination.
Context {R : JsRuntime} (api : SpotifyApi).

(** What the four list operations return on a page, in the numbers of the
    runtime. *)
Lemma library_playlist_tracks_text (a : Library.args) (pid : string)
  (page : Page PlaylistedTrack) :
  Library.operation a = Library.playlist_tracks ->
  Library.playlist_id a = Some pid -> pid <> "" ->
  client_ready api = Returned tt ->
  let o := Js.to_double (Js.nullish (Library.offset a) 0%Z) in
  on_getPlaylistItems api pid (Js.nullish (Library.limit a) 20%Z) o
  = Returned page ->
  exists body : string,
    result (Library.handler api a)
    = Returned
        (text_result
           ("Tracks " ++ Js.double_to_string (Js.add o 1) ++ "-"
              ++ Js.double_to_string (Js.add o (Js.length (items page)))
              ++ " of " ++ Js.double_to_string (total page)
              ++ Js.nl ++ Js.nl ++ body)).
Proof.
  intros Hop Hpid Hne Hready o Hpage.
  unfold Library.handler, handleSpotifyRequest, Api.getPlaylistItems,
    perform, bind, ret, result.
  rewrite Hop, Hpid, Hready. unfold Js.truthy_string.
  destruct (String.eqb_spec pid ""); [contradiction|]. cbn [negb].
  fold o. rewrite Hpage. eexists. reflexivity.
Qed.

Lemma library_saved_tracks_text (a : Library.args) (page : Page SavedTrack) :
  Library.operation a = Library.saved_tracks ->
  client_ready api = Returned tt ->
  let o := Js.to_double (Js.nullish (Library.offset a) 0%Z) in
  on_savedTracks api (Js.nullish (Library.limit a) 20%Z) o = Returned page ->
  exists body : string,
    result (Library.handler api a)
    = Returned
        (text_result
           ("Liked Songs " ++ Js.double_to_string (Js.add o 1) ++ "-"
              ++ Js.double_to_string (Js.add o (Js.length (items page)))
              ++ " of " ++ Js.double_to_string (total page)
              ++ Js.nl ++ Js.nl ++ body)).
Proof.
  intros Hop Hready o Hpage.
  unfold Library.handler, handleSpotifyRequest, Api.savedTracks,
    perform, bind, ret, result.
  rewrite Hop, Hready. fold o. rewrite Hpage. eexists. reflexivity.
Qed.

Lemma getPlaylistTracks_text (a : Read.playlist_tracks_args)
  (page : Page PlaylistedTrack) :
  client_ready api = Returned tt ->
  let o := Js.to_double (Js.nullish (Read.pt_offset a) 0%Z) in
  on_getPlaylistItems api (Read.playlistId a)
    (Js.nullish (Read.pt_limit a) 50%Z) o = Returned page ->
  (items page <> [] ->
   exists body : string,
     result (Read.getPlaylistTracks api a)
     = Returned
         (text_result
            ("# Tracks in Playlist (" ++ Js.double_to_string (Js.add o 1)
               ++ "-"
               ++ Js.double_to_string (Js.add o (Js.length (items page)))
               ++ " of " ++ Js.double_to_string (total page) ++ ")"
               ++ Js.nl ++ Js.nl ++ body)))
  /\ (items page = [] ->
      result (Read.getPlaylistTracks api a)
      = Returned (text_result "This playlist doesn't have any tracks")).
Proof.
  intros Hready o Hpage.
  unfold Read.getPlaylistTracks, handleSpotifyRequest,
    Api.getPlaylistItems, perform, bind, ret, result.
  rewrite Hready. fold o. rewrite Hpage, length_eqb_0.
  split.
  - intros Hne. destruct (items page) eqn:E; [congruence|].
    eexists. reflexivity.
  - intros ->. reflexivity.
Qed.

Lemma getUsersSavedTracks_text (a : Read.saved_tracks_args)
  (page : Page SavedTrack) :
  client_ready api = Returned tt ->
  let o := Js.to_double (Js.nullish (Read.st_offset a) 0%Z) in
  on_savedTracks api (Js.nullish (Read.st_limit a) 50%Z) o = Returned page ->
  (items page <> [] ->
   exists body : string,
     result (Read.getUsersSavedTracks api a)
     = Returned
         (text_result
            ("# Your Liked Songs (" ++ Js.double_to_string (Js.add o 1)
               ++ "-"
               ++ Js.double_to_string (Js.add o (Js.length (items page)))
               ++ " of " ++ Js.double_to_string (total page) ++ ")"
               ++ Js.nl ++ Js.nl ++ body)))
  /\ (items page = [] ->
      result (Read.getUsersSavedTracks api a)
      = Returned
          (text_result
             "You don't have any saved tracks in your Liked Songs")).
Proof.
  intros Hready o Hpage.
  unfold Read.getUsersSavedTracks, handleSpotifyRequest, Api.savedTracks,
    perform, bind, ret, result.
  rewrite Hready. fold o. rewrite Hpage, length_eqb_0.
  split.
  - intros Hne. destruct (items page) eqn:E; [congruence|].
    eexists. reflexivity.
  - intros ->. reflexivity.
Qed.

(** C7, as the code has it.  For every integer offset [o >= 0] and every
    page returned by the service such that [o+1], [o+(number of items
    returned)] and the total are safe integers (of magnitude below
    [2^53], where the numbers of the runtime are exact), the
    [playlist_tracks] and [saved_tracks] operations of the library tool
    start their text with a header that reports the range from [o+1] to
    [o+(number of items returned)] and the total as the service supplied
    it; [getPlaylistTracks] and [getUsersSavedTracks] do so for every
    non-empty list of items, and answer an empty list with a fixed message
    that carries no range. *)
Theorem pagination_header :
  (forall (a : Library.args) (pid : string) (page : Page PlaylistedTrack),
      Library.operation a = Library.playlist_tracks ->
      Library.playlist_id a = Some pid -> pid <> "" ->
      client_ready api = Returned tt ->
      let o := Js.nullish (Library.offset a) 0%Z in
      let n := Z.of_nat (List.length (items page)) in
      (0 <= o)%Z -> safe_integer (o + 1) -> safe_integer (o + n) ->
      safe_integer (total page) ->
      on_getPlaylistItems api pid (Js.nullish (Library.limit a) 20%Z) o
      = Returned page ->
      exists (r : tool_result) (body : string),
        result (Library.handler api a) = Returned r
        /\ content r
           = [ {| ctype := "text";
                  text := "Tracks " ++ Js.number_to_string (o + 1) ++ "-"
                            ++ Js.number_to_string (o + n) ++ " of "
                            ++ Js.number_to_string (total page)
                            ++ Js.nl ++ Js.nl ++ body |} ])
  /\ (forall (a : Library.args) (page : Page SavedTrack),
         Library.operation a = Library.saved_tracks ->
         client_ready api = Returned tt ->
         let o := Js.nullish (Library.offset a) 0%Z in
         let n := Z.of_nat (List.length (items page)) in
         (0 <= o)%Z -> safe_integer (o + 1) -> safe_integer (o + n) ->
         safe_integer (total page) ->
         on_savedTracks api (Js.nullish (Library.limit a) 20%Z) o
         = Returned page ->
         exists (r : tool_result) (body : string),
           result (Library.handler api a) = Returned r
           /\ content r
              = [ {| ctype := "text";
                     text := "Liked Songs " ++ Js.number_to_string (o + 1)
                               ++ "-" ++ Js.number_to_string (o + n)
                               ++ " of " ++ Js.number_to_string (total page)
                               ++ Js.nl ++ Js.nl ++ body |} ])
  /\ (forall (a : Read.playlist_tracks_args) (page : Page PlaylistedTrack),
         client_ready api = Returned tt ->
         let o := Js.nullish (Read.pt_offset a) 0%Z in
         let n := Z.of_nat (List.length (items page)) in
         (0 <= o)%Z -> safe_integer (o + 1) -> safe_integer (o + n) ->
         safe_integer (total page) ->
         on_getPlaylistItems api (Read.playlistId a)
           (Js.nullish (Read.pt_limit a) 50%Z) o
         = Returned page ->
         exists r : tool_result,
           result (Read.getPlaylistTracks api a) = Returned r
           /\ (items page <> [] ->
               exists body : string,
                 content r
                 = [ {| ctype := "text";
                        text := "# Tracks in Playlist ("
                                  ++ Js.number_to_string (o + 1) ++ "-"
                                  ++ Js.number_to_string (o + n) ++ " of "
                                  ++ Js.number_to_string (total page) ++ ")"
                                  ++ Js.nl ++ Js.nl ++ body |} ])
           /\ (items page = [] ->
               content r
               = [ {| ctype := "text";
                      text := "This playlist doesn't have any tracks" |} ]))
  /\ (forall (a : Read.saved_tracks_args) (page : Page SavedTrack),
         client_ready api = Returned tt ->
         let o := Js.nullish (Read.st_offset a) 0%Z in
         let n := Z.of_nat (List.length (items page)) in
         (0 <= o)%Z -> safe_integer (o + 1) -> safe_integer (o + n) ->
         safe_integer (total page) ->
         on_savedTracks api (Js.nullish (Read.st_limit a) 50%Z) o
         = Returned page ->
         exists r : tool_result,
           result (Read.getUsersSavedTracks api a) = Returned r
           /\ (items page <> [] ->
               exists body : string,
                 content r
                 = [ {| ctype := "text";
                        text := "# Your Liked Songs ("
                                  ++ Js.number_to_string (o + 1) ++ "-"
                                  ++ Js.number_to_string (o + n) ++ " of "
                                  ++ Js.number_to_string (total page) ++ ")"
                                  ++ Js.nl ++ Js.nl ++ body |} ])
           /\ (items page = [] ->
               content r
               = [ {| ctype := "text";
                      text := "You don't have any saved tracks in your Liked Songs"
                   |} ])).
Proof.
  split; [|split; [|split]].
  - intros a pid page Hop Hpid Hne Hready o n Ho H1 Hn Ht Hpage.
    assert (Hsafe : safe_integer o) by (unfold safe_integer in *; lia).
    destruct (library_playlist_tracks_text a pid page Hop Hpid Hne Hready)
      as [body E].
    { fold o. now rewrite (to_double_safe o Hsafe). }
    fold o in E. rewrite (to_double_safe o Hsafe) in E.
    unfold Js.length in E. fold n in E.
    destruct (range_numbers o _ Ho H1 Hn) as [E1 En]. fold n in En.
    rewrite E1, En, (double_to_string_safe _ Ht) in E.
    eexists. exists body. split; [exact E | reflexivity].
  - intros a page Hop Hready o n Ho H1 Hn Ht Hpage.
    assert (Hsafe : safe_integer o) by (unfold safe_integer in *; lia).
    destruct (library_saved_tracks_text a page Hop Hready) as [body E].
    { fold o. now rewrite (to_double_safe o Hsafe). }
    fold o in E. rewrite (to_double_safe o Hsafe) in E.
    unfold Js.length in E. fold n in E.
    destruct (range_numbers o _ Ho H1 Hn) as [E1 En]. fold n in En.
    rewrite E1, En, (double_to_string_safe _ Ht) in E.
    eexists. exists body. split; [exact E | reflexivity].
  - intros a page Hready o n Ho H1 Hn Ht Hpage.
    assert (Hsafe : safe_integer o) by (unfold safe_integer in *; lia).
    destruct (getPlaylistTracks_text a page Hready) as [Hfull Hempty].
    { fold o. now rewrite (to_double_safe o Hsafe). }
    destruct (items page) as [|x l] eqn:Hitems.
    + eexists. split; [apply Hempty; reflexivity|].
      split; [congruence | reflexivity].
    + destruct Hfull as [body E]; [discriminate|].
      fold o in E. rewrite (to_double_safe o Hsafe) in E.
      unfold Js.length in E. fold n in E.
      destruct (range_numbers o _ Ho H1 Hn) as [E1 En]. fold n in En.
      rewrite E1, En, (double_to_string_safe _ Ht) in E.
      eexists. split; [exact E|].
      split; [intros _; exists body; reflexivity | discriminate].
  - intros a page Hready o n Ho H1 Hn Ht Hpage.
    assert (Hsafe : safe_integer o) by (unfold safe_integer in *; lia).
    destruct (getUsersSavedTracks_text a page Hready) as [Hfull Hempty].
    { fold o. now rewrite (to_double_safe o Hsafe). }
    destruct (items page) as [|x l] eqn:Hitems.
    + eexists. split; [apply Hempty; reflexivity|].
      split; [congruence | reflexivity].
    + destruct Hfull as [body E]; [discriminate|].
      fold o in E. rewrite (to_double_safe o Hsafe) in E.
      unfold Js.length in E. fold n in E.
      destruct (range_numbers o _ Ho H1 Hn) as [E1 En]. fold n in En.
      rewrite E1, En, (double_to_string_safe _ Ht) in E.
      eexists. split; [exact E|].
      split; [intros _; exists body; reflexivity | discriminate].
Qed.

End Pagination.

(** C7, as stated, fails on an empty page: [getPlaylistTracks] and
    [getUsersSavedTracks] answer it with a fixed message in which no range
    and no total is reported, while the library tool reports the range
    [1-0].  It also fails beyond the safe integers: at the offset [2^53]
    the header of the library tool starts its range at [2^53], since
    [2^53 + 1] is not a number of the runtime. *)
Lemma empty_page_has_no_header :
  result (Read.getPlaylistTracks quiet_api
            {| Read.playlistId := "p"; Read.pt_limit := None;
               Read.pt_offset := None |})
  = Returned (text_result "This playlist doesn't have any tracks")
  /\ String.prefix
       ("# Tracks in Playlist (" ++ Js.number_to_string (0 + 1) ++ "-"
          ++ Js.number_to_string (0 + 0) ++ " of " ++ Js.number_to_string 0)
       "This playlist doesn't have any tracks" = false
  /\ result (Read.getUsersSavedTracks quiet_api
               {| Read.st_limit := None; Read.st_offset := None |})
     = Returned
         (text_result "You don't have any saved tracks in your Liked Songs")
  /\ result (Library.handler quiet_api
               {| Library.operation := Library.saved_tracks;
                  Library.query := None; Library.type := None;
                  Library.playlist_id := None; Library.album_ids := None;
                  Library.limit := None; Library.offset := None |})
     = Returned
         (text_result ("Liked Songs 1-0 of 0" ++ Js.nl ++ Js.nl))
  /\ result (Library.handler quiet_api
               {| Library.operation := Library.saved_tracks;
                  Library.query := None; Library.type := None;
                  Library.playlist_id := None; Library.album_ids := None;
                  Library.limit := None;
                  Library.offset := Some 9007199254740992%Z |})
     = Returned
         (text_result
            ("Liked Songs 9007199254740992-9007199254740992 of 0"
               ++ Js.nl ++ Js.nl))
  /\ Js.number_to_string (9007199254740992 + 1) = "9007199254740993".
Proof.
  repeat split; vm_compute; reflexivity.
Qed.

Lemma pagination_header_witness :
  exists (r : tool_result) (body : string),
    result (Library.handler
              (example_api no_results
                 {| items := [ {| pt_track := None |};
                               {| pt_track := None |} ];
                    total := 40 |}
                 empty_page [] None)
              {| Library.operation := Library.playlist_tracks;
                 Library.query := None; Library.type := None;
                 Library.playlist_id := Some "p";
                 Library.album_ids := None;
                 Library.limit := None; Library.offset := Some 10%Z |})
    = Returned r
    /\ content r
       = [ {| ctype := "text";
              text := "Tracks 11-12 of 40" ++ Js.nl ++ Js.nl ++ body |} ].
Proof.
  exact (proj1 (pagination_header
                  (example_api no_results
                     {| items := [ {| pt_track := None |};
                                   {| pt_track := None |} ];
                        total := 40 |}
                     empty_page [] None))
           {| Library.operation := Library.playlist_tracks;
              Library.query := None; Library.type := None;
              Library.playlist_id := Some "p";
              Library.album_ids := None;
              Library.limit := None; Library.offset := Some 10%Z |}
           "p"
           {| items := [ {| pt_track := None |}; {| pt_track := None |} ];
              total := 40 |}
           eq_refl eq_refl ltac:(discriminate) eq_refl
           ltac:(simpl; lia) ltac:(unfold safe_integer; simpl; lia)
           ltac:(unfold safe_integer; simpl; lia)
           ltac:(unfold safe_integer; simpl; lia) eq_refl).
Defined.

(** ** Validation errors are payload *)

Lemma missing_string_falsy (o : option string) :
  missing_string o = true -> Js.truthy_opt Js.truthy_string o = false.
Proof.
  unfold missing_string, Js.truthy_opt, Js.truthy_string.
  destruct o as [s|]; [|reflexivity]. now intros ->.
Qed.

Lemma missing_list_no_album_ids (o : option (list string)) :
  missing_list o = true -> Library.no_album_ids o = true.
Proof.
  destruct o as [[|x l]|]; simpl; try reflexivity; discriminate.
Qed.

Section Validation.
Context {R : JsRuntime} (api : SpotifyApi).

(** C8. For each of the three tool handlers and every argument record
    that fails the required-field validation of its operation (a missing
    query or type, playlist_id, album_ids, name, track_id or track_ids,
    or a missing target of [play] and [queue]), the handler makes no call,
    does not throw, and returns an envelope whose text starts with
    [Error: ]. *)
Theorem validation_errors_are_text :
  (forall a : Library.args,
      library_fails_validation a = true ->
      exists t : string,
        Library.handler api a = ([], Returned (text_result t))
        /\ is_error_text t = true)
  /\ (forall a : Playback.args,
         playback_fails_validation a = true ->
         exists t : string,
           Playback.handler api a = ([], Returned (text_result t))
           /\ is_error_text t = true)
  /\ (forall a : Info.args,
         info_fails_validation a = true ->
         exists t : string,
           Info.handler api a = ([], Returned (text_result t))
           /\ is_error_text t = true).
Proof.
  split; [|split].
  - intros a. unfold library_fails_validation, Library.handler.
    destruct (Library.operation a); try discriminate.
    + (* search *)
      unfold missing_string, Js.truthy_string.
      destruct (Library.query a) as [q|], (Library.type a) as [ty|]; simpl;
        try (intros _; eexists; split; reflexivity).
      rewrite orb_false_r. intros ->. eexists; split; reflexivity.
    + (* playlist_tracks *)
      unfold missing_string, Js.truthy_string.
      destruct (Library.playlist_id a) as [pid|];
        [intros ->|intros _]; eexists; split; reflexivity.
    + (* albums *)
      intros H. rewrite (missing_list_no_album_ids _ H).
      eexists; split; reflexivity.
    + (* album_tracks *)
      unfold Js.truthy_string.
      destruct (Library.album_ids a) as [[|id0 l]|];
        [intros _|intros ->|intros _]; eexists; split; reflexivity.
    + (* save_album *)
      intros H. rewrite (missing_list_no_album_ids _ H).
      eexists; split; reflexivity.
    + (* remove_album *)
      intros H. rewrite (missing_list_no_album_ids _ H).
      eexists; split; reflexivity.
    + (* check_saved *)
      intros H. rewrite (missing_list_no_album_ids _ H).
      eexists; split; reflexivity.
  - intros a. unfold playback_fails_validation, Playback.handler.
    assert (Htarget :
              missing_string (Playback.uri a)
              && (negb (Js.present (Playback.type a))
                  || missing_string (Playback.id a)) = true ->
              Playback.has_target a = false).
    { intros H. apply andb_true_iff in H as [Hu Hti].
      unfold Playback.has_target.
      rewrite (missing_string_falsy _ Hu). simpl.
      apply orb_true_iff in Hti as [Ht|Hi].
      - apply negb_true_iff in Ht. now rewrite Ht.
      - rewrite (missing_string_falsy _ Hi). apply andb_false_r. }
    destruct (Playback.operation a); try discriminate.
    + intros H. rewrite (Htarget H). eexists; split; reflexivity.
    + intros H. rewrite (Htarget H). eexists; split; reflexivity.
    + (* create_playlist *)
      unfold missing_string, Js.truthy_string.
      destruct (Playback.name a) as [n|];
        [intros ->|intros _]; eexists; split; reflexivity.
    + (* add_to_playlist *)
      unfold missing_string, missing_list, Js.truthy_string.
      destruct (Playback.playlist_id a) as [pid|],
        (Playback.track_ids a) as [[|t tids]|]; simpl;
        try (intros _; eexists; split; reflexivity);
        try (destruct (pid =? ""); intros _; eexists; split; reflexivity).
      rewrite orb_false_r. intros ->. eexists; split; reflexivity.
  - intros a. unfold info_fails_validation, Info.handler.
    destruct (Info.operation a); try discriminate.
    unfold missing_string, Js.truthy_string.
    destruct (Info.track_id a) as [tid|];
      [intros ->|intros _]; eexists; split; reflexivity.
Qed.

End Validation.

Lemma validation_errors_are_text_witness :
  exists t : string,
    Library.handler offline_api (library_args Library.search None)
    = ([], Returned (text_result t))
    /\ is_error_text t = true.
Proof.
  exact (proj1 (validation_errors_are_text offline_api)
           (library_args Library.search None) eq_refl).
Defined.

(** ** The key line of the audio-features operations *)

Section KeyLine.
Context {R : JsRuntime} (api : SpotifyApi).

(** The second line of the text of [audio_features] is the key line, and
    its key name is the rendering [Info.keyName] of the key. *)
Lemma audio_features_key_line (a : Info.args) (tid : string)
  (f : AudioFeatures) :
  Info.operation a = Info.audio_features ->
  Info.track_id a = Some tid -> tid <> "" ->
  client_ready api = Returned tt ->
  on_audioFeatures api tid = Returned (Some f) ->
  exists lines : list string,
    result (Info.handler api a)
    = Returned (text_result (Js.join Js.nl lines))
    /\ nth_error lines 1
       = Some ("**Key**: " ++ Info.keyName (key f) ++ " "
                 ++ (if (mode f =? 1)%Z then "Major" else "Minor")).
Proof.
  intros Hop Htid Hne Hready Hf.
  unfold Info.handler, handleSpotifyRequest, Api.audioFeatures, perform,
    bind, ret, result.
  rewrite Hop, Htid, Hready. unfold Js.truthy_string.
  destruct (String.eqb_spec tid ""); [contradiction|]. cbn [negb].
  rewrite Hf. eexists. split; reflexivity.
Qed.

(** The text of [getTrackAudioFeatures] holds the key line, and its key
    name is the rendering [Read.keyName] of the key. *)
Lemma getTrackAudioFeatures_key_line (a : Read.audio_features_args)
  (f : AudioFeatures) :
  client_ready api = Returned tt ->
  on_audioFeatures api (Read.trackId a) = Returned (Some f) ->
  exists before after : string,
    result (Read.getTrackAudioFeatures api a)
    = Returned
        (text_result
           ("# Audio Features" ++ Js.nl ++ Js.nl ++ before ++ Js.nl
              ++ "**Key**: " ++ Read.keyName (key f) ++ " "
              ++ (if (mode f =? 1)%Z then "Major" else "Minor") ++ Js.nl
              ++ after)).
Proof.
  intros Hready Hf.
  unfold Read.getTrackAudioFeatures, handleSpotifyRequest,
    Api.audioFeatures, perform, try_catch, bind, ret, result.
  rewrite Hready, Hf. simpl.
  exists ("**BPM (Tempo)**: " ++ float_to_string (Math_round (tempo f))).
  eexists. reflexivity.
Qed.

End KeyLine.

(** * Further properties of the handlers *)

(** ** The playback tool, operation by operation *)

Lemma device_or_empty (a : Playback.args) :
  Js.or_string (Playback.device_id a) "" = device_of a.
Proof.
  unfold Js.or_string, device_of, Js.truthy_string.
  destruct (Playback.device_id a) as [d|]; [|reflexivity].
  destruct (String.eqb_spec d ""); simpl; congruence.
Qed.

(** A target names the URI that the code builds, and passes the test of
    the code. *)
Lemma target_uri_spotifyUri (a : Playback.args) (u : string) :
  target_uri a u ->
  Playback.has_target a = true /\ Playback.spotifyUri a = u.
Proof.
  intros H. split.
  - apply has_target_spec. unfold has_uri_or_type_and_id, supplied.
    inversion H as [u' Hu Hne | t i Hno Ht Hi Hne]; subst.
    + left. now exists u.
    + right. split; [congruence|]. now exists i.
  - unfold Playback.spotifyUri, Js.or_string, Js.truthy_string.
    inversion H as [u' Hu Hne | t i Hno Ht Hi Hne]; subst.
    + rewrite Hu. destruct (String.eqb_spec u ""); [contradiction|].
      reflexivity.
    + rewrite Ht, Hi. cbn [Js.render].
      destruct (Playback.uri a) as [u'|] eqn:Hu; [|reflexivity].
      destruct (String.eqb_spec u' ""); [reflexivity|].
      exfalso. apply Hno. now exists u'.
Qed.

Section PlaybackOperations.
Context {R : JsRuntime} (api : SpotifyApi).

(** X1. [play] with a target and an available client makes one call,
    [startResumePlayback], on the device given (the empty string when
    none is): with [type] equal to [track] the URI is sent as the single
    element of [uris] and no context is named; in every other case,
    also when a track is given by [uri] alone, the URI is sent as the
    context and [uris] is left out.  The text of a success names the type
    given, or [music] when none is. *)
Theorem play_sends_target (a : Playback.args) (u : string) :
  Playback.operation a = Playback.play ->
  target_uri a u ->
  client_ready api = Returned tt ->
  (Playback.type a = Some track ->
   calls (Playback.handler api a)
   = [player_startResumePlayback (device_of a) None (Some [u])])
  /\ (Playback.type a <> Some track ->
      calls (Playback.handler api a)
      = [player_startResumePlayback (device_of a) (Some u) None])
  /\ (forall r : tool_result,
         result (Playback.handler api a) = Returned r ->
         carries r ("Playing "
                      ++ match Playback.type a with
                         | Some t => item_type_to_string t
                         | None => "music"
                         end)).
Proof.
  intros Hop Hu Hready.
  destruct (target_uri_spotifyUri a u Hu) as [Ht Huri].
  unfold Playback.handler, handleSpotifyRequest, Api.startResumePlayback,
    perform, bind, ret, calls, result.
  rewrite Hop, Ht, Hready, Huri, device_or_empty. cbn [negb].
  unfold Playback.is_track_type.
  split; [|split].
  - intros ->.
    destruct (on_startResumePlayback api _ _ _); reflexivity.
  - intros Hnot.
    destruct (Playback.type a) as [[]|]; try congruence;
      destruct (on_startResumePlayback api _ _ _); reflexivity.
  - intros r.
    destruct (Playback.type a) as [[]|];
      destruct (on_startResumePlayback api _ _ _); cbn [snd];
      try discriminate; intros H; injection H as <-; reflexivity.
Qed.

(** X2. [queue] with a target and an available client makes one call,
    [addItemToPlaybackQueue], with the URI of the target and the device
    given; the text of a success repeats that URI. *)
Theorem queue_sends_target (a : Playback.args) (u : string) :
  Playback.operation a = Playback.queue ->
  target_uri a u ->
  client_ready api = Returned tt ->
  calls (Playback.handler api a)
  = [player_addItemToPlaybackQueue u (device_of a)]
  /\ (forall r : tool_result,
         result (Playback.handler api a) = Returned r ->
         carries r ("Added to queue: " ++ u))
  /\ (forall e : string,
         on_addItemToPlaybackQueue api u (device_of a) = Thrown e ->
         result (Playback.handler api a) = Thrown e).
Proof.
  intros Hop Hu Hready.
  destruct (target_uri_spotifyUri a u Hu) as [Ht Huri].
  unfold Playback.handler, handleSpotifyRequest, Api.addItemToPlaybackQueue,
    perform, bind, ret, calls, result.
  rewrite Hop, Ht, Hready, Huri, device_or_empty. cbn [negb].
  split; [|split].
  - destruct (on_addItemToPlaybackQueue api _ _); reflexivity.
  - intros r. destruct (on_addItemToPlaybackQueue api _ _); cbn [snd];
      try discriminate; intros H; injection H as <-; reflexivity.
  - intros e ->. reflexivity.
Qed.

(** X3. [create_playlist] with a name and an available client first asks
    for the profile of the user and then creates the playlist under the
    identifier of that profile, with the name and the description given
    and private unless [public] says otherwise.  When the profile cannot
    be read nothing is created and the exception is thrown; the text of a
    success quotes the name and gives the identifier of the new
    playlist. *)
Theorem create_playlist_steps (a : Playback.args) (n : string) :
  Playback.operation a = Playback.create_playlist ->
  Playback.name a = Some n -> n <> "" ->
  client_ready api = Returned tt ->
  (forall e : string,
      on_profile api = Thrown e ->
      Playback.handler api a = ([currentUser_profile], Thrown e))
  /\ (forall me : UserProfile,
         on_profile api = Returned me ->
         let visible := match Playback.public a with
                        | Some b => b
                        | None => false
                        end in
         let creation :=
           playlists_createPlaylist (profile_id me) n
             (Playback.description a) visible in
         calls (Playback.handler api a) = [currentUser_profile; creation]
         /\ (forall e : string,
                on_createPlaylist api (profile_id me) n
                  (Playback.description a) visible = Thrown e ->
                result (Playback.handler api a) = Thrown e)
         /\ (forall created : CreatedPlaylist,
                on_createPlaylist api (profile_id me) n
                  (Playback.description a) visible = Returned created ->
                exists r : tool_result,
                  result (Playback.handler api a) = Returned r
                  /\ carries r
                       ("Created playlist " ++ String "034"%char n
                          ++ String "034"%char
                               (" (ID: " ++ created_id created ++ ")")))).
Proof.
  intros Hop Hn Hne Hready.
  unfold Playback.handler, handleSpotifyRequest, Api.profile,
    Api.createPlaylist, perform, bind, ret, calls, result.
  rewrite Hop, Hn, Hready. unfold Js.truthy_string.
  destruct (String.eqb_spec n ""); [contradiction|]. cbn [negb].
  split.
  - intros e ->. reflexivity.
  - intros me ->. cbv zeta. unfold Js.nullish.
    split; [|split].
    + destruct (on_createPlaylist api _ _ _ _); reflexivity.
    + intros e ->. reflexivity.
    + intros created ->. eexists. split; reflexivity.
Qed.

(** X4. The four transport controls take no argument but the device:
    whatever else the argument record holds, each makes exactly one call
    once the client is available ([pause] pauses, [resume] resumes
    without naming a context or tracks, [skip_next] and [skip_prev]
    skip), answers with its fixed text when the service answers, and
    throws what the service throws. *)
Theorem transport_controls (a : Playback.args) :
  client_ready api = Returned tt ->
  forall (c : ApiCall) (answer : outcome unit) (t : string),
    (Playback.operation a = Playback.pause
     /\ c = player_pausePlayback (device_of a)
     /\ answer = on_pausePlayback api (device_of a) /\ t = "Paused")
    \/ (Playback.operation a = Playback.resume
        /\ c = player_startResumePlayback (device_of a) None None
        /\ answer = on_startResumePlayback api (device_of a) None None
        /\ t = "Resumed")
    \/ (Playback.operation a = Playback.skip_next
        /\ c = player_skipToNext (device_of a)
        /\ answer = on_skipToNext api (device_of a)
        /\ t = "Skipped to next")
    \/ (Playback.operation a = Playback.skip_prev
        /\ c = player_skipToPrevious (device_of a)
        /\ answer = on_skipToPrevious api (device_of a)
        /\ t = "Skipped to previous") ->
    calls (Playback.handler api a) = [c]
    /\ (forall u : unit,
           answer = Returned u ->
           exists r : tool_result,
             result (Playback.handler api a) = Returned r /\ carries r t)
    /\ (forall e : string,
           answer = Thrown e -> result (Playback.handler api a) = Thrown e).
Proof.
  intros Hready c answer t H.
  unfold Playback.handler, handleSpotifyRequest, Api.pausePlayback,
    Api.startResumePlayback, Api.skipToNext, Api.skipToPrevious,
    perform, bind, ret, calls, result.
  rewrite Hready, device_or_empty.
  destruct H as [(-> & -> & -> & ->) | [(-> & -> & -> & ->)
                | [(-> & -> & -> & ->) | (-> & -> & -> & ->)]]];
    (split;
     [ match goal with
       | |- context [match ?o with Returned _ => _ | Thrown _ => _ end] =>
           destruct o; reflexivity
       end
     | split;
       [ intros u ->; eexists; split; reflexivity
       | intros e ->; reflexivity ] ]).
Qed.

(** X5. On success [add_to_playlist] reports the number of identifiers it
    was given, which is the number of URIs it sent: nothing is cut off. *)
Theorem add_to_playlist_reports_all (a : Playback.args) (pid : string)
  (tids : list string) (r : tool_result) :
  Playback.operation a = Playback.add_to_playlist ->
  Playback.playlist_id a = Some pid -> pid <> "" ->
  Playback.track_ids a = Some tids -> tids <> [] ->
  result (Playback.handler api a) = Returned r ->
  carries r ("Added " ++ Js.number_to_string (Z.of_nat (List.length tids))
               ++ " tracks to playlist")
  /\ calls (Playback.handler api a)
     = [playlists_addItemsToPlaylist pid (track_uris tids)
          (Playback.position a)]
  /\ List.length (track_uris tids) = List.length tids.
Proof.
  intros Hop Hpid Hne Htids Hnil.
  unfold Playback.handler, handleSpotifyRequest, Api.addItemsToPlaylist,
    perform, bind, ret, throw, calls, result.
  rewrite Hop, Hpid, Htids. unfold Js.truthy_string.
  destruct (String.eqb_spec pid ""); [contradiction|].
  destruct tids as [|t tids]; [congruence|].
  replace (Js.truthy_number (Js.length (t :: tids))) with true
    by (unfold Js.truthy_number, Js.length;
        destruct (Z.eqb_spec (Z.of_nat (List.length (t :: tids))) 0);
        simpl in *; [lia | reflexivity]).
  cbn [negb orb]. fold (track_uris (t :: tids)).
  destruct (client_ready api); cbn [snd fst]; [|discriminate].
  destruct (on_addItemsToPlaylist api _ _ _); cbn [snd fst app];
    [|discriminate].
  intros H; injection H as <-.
  repeat split. unfold track_uris. apply length_map.
Qed.

End PlaybackOperations.

Lemma play_sends_target_witness :
  calls (Playback.handler quiet_api
           (playback_args Playback.play None (Some track) (Some "abc")
              None None))
  = [player_startResumePlayback "" None (Some ["spotify:track:abc"])].
Proof.
  refine (proj1 (play_sends_target quiet_api
                   (playback_args Playback.play None (Some track)
                      (Some "abc") None None)
                   "spotify:track:abc" eq_refl _ eq_refl) eq_refl).
  apply (target_built _ track "abc");
    [intros (u & H & _); discriminate H | reflexivity | reflexivity
    | discriminate].
Defined.

Lemma queue_sends_target_witness :
  calls (Playback.handler quiet_api
           (playback_args Playback.queue (Some "spotify:album:x") None None
              None None))
  = [player_addItemToPlaybackQueue "spotify:album:x" ""].
Proof.
  refine (proj1 (queue_sends_target quiet_api
                   (playback_args Playback.queue (Some "spotify:album:x")
                      None None None None)
                   "spotify:album:x" eq_refl _ eq_refl)).
  apply target_given; [reflexivity | discriminate].
Defined.

Lemma create_playlist_steps_witness :
  calls (Playback.handler quiet_api (create_playlist_args "Mix"))
  = [currentUser_profile; playlists_createPlaylist "me" "Mix" None false].
Proof.
  assert (Hne : "Mix" <> "") by discriminate.
  exact (proj1
           (proj2 (create_playlist_steps quiet_api
                     (create_playlist_args "Mix") "Mix" eq_refl eq_refl Hne
                     eq_refl)
              {| profile_id := "me" |} eq_refl)).
Defined.

Lemma transport_controls_witness :
  calls (Playback.handler quiet_api
           (playback_args Playback.pause None None None None None))
  = [player_pausePlayback ""].
Proof.
  exact (proj1
           (transport_controls quiet_api
              (playback_args Playback.pause None None None None None)
              eq_refl (player_pausePlayback "") (Returned tt) "Paused"
              (or_introl
                 (conj eq_refl (conj eq_refl (conj eq_refl eq_refl)))))).
Defined.

Lemma add_to_playlist_reports_all_witness :
  carries (text_result "Added 2 tracks to playlist")
    "Added 2 tracks to playlist"
  /\ calls (Playback.handler quiet_api
              (playback_args Playback.add_to_playlist None None None
                 (Some "p") (Some ["a"; "b"])))
     = [playlists_addItemsToPlaylist "p"
          ["spotify:track:a"; "spotify:track:b"] None].
Proof.
  assert (Hp : "p" <> "") by discriminate.
  assert (Ht : ["a"; "b"] <> []) by discriminate.
  destruct (add_to_playlist_reports_all quiet_api
              (playback_args Playback.add_to_playlist None None None
                 (Some "p") (Some ["a"; "b"]))
              "p" ["a"; "b"] (text_result "Added 2 tracks to playlist")
              eq_refl eq_refl Hp eq_refl Ht eq_refl) as (Hc & Hcalls & _).
  split; [exact Hc | exact Hcalls].
Defined.


(** ** Where exceptions go *)

Lemma missing_string_truthy (o : option string) :
  missing_string o = negb (Js.truthy_opt Js.truthy_string o).
Proof.
  unfold missing_string, Js.truthy_opt, Js.truthy_string.
  destruct o as [s|]; [|reflexivity]. now rewrite negb_involutive.
Qed.

Lemma missing_list_truthy (l : list string) :
  missing_list (Some l) = negb (Js.truthy_number (Js.length l)).
Proof.
  unfold missing_list, Js.truthy_number, Js.length.
  destruct l as [|x l]; [reflexivity|].
  destruct (Z.eqb_spec (Z.of_nat (List.length (x :: l))) 0); simpl in *;
    [lia | reflexivity].
Qed.

(** A wrapped call that fails throws its message, after the call when it
    was made. *)
Lemma wrapped_failure {R : JsRuntime} {A : Type} (api : SpotifyApi)
  (c : ApiCall) (answer : outcome A) (e : string) :
  fails_with (client_ready api) answer e ->
  result (handleSpotifyRequest api (fun _ => perform c answer)) = Thrown e.
Proof.
  unfold fails_with, handleSpotifyRequest, perform, result.
  intros [-> | [-> ->]]; reflexivity.
Qed.

Section Exceptions.
Context {R : JsRuntime} (api : SpotifyApi).

(** X6. The three consolidated handlers have no catch: for every argument
    record that passes the required-field validation of its operation, a
    client that cannot be obtained makes the handler throw the message of
    that failure, before any call. *)
Theorem unavailable_client_is_thrown (e : string) :
  client_ready api = Thrown e ->
  (forall a : Library.args,
      library_fails_validation a = false ->
      Library.handler api a = ([], Thrown e))
  /\ (forall a : Playback.args,
         playback_fails_validation a = false ->
         Playback.handler api a = ([], Thrown e))
  /\ (forall a : Info.args,
         info_fails_validation a = false ->
         Info.handler api a = ([], Thrown e)).
Proof.
  intros Hready. split; [|split]; intros a.
  - unfold library_fails_validation, Library.handler, handleSpotifyRequest,
      bind, throw, Library.no_album_ids.
    rewrite Hready.
    destruct (Library.operation a); try reflexivity.
    + rewrite missing_string_truthy.
      destruct (Library.query a) as [q|], (Library.type a) as [ty|];
        cbn [Js.truthy_opt Js.present negb orb]; try discriminate;
        try (rewrite orb_true_r; discriminate).
      rewrite orb_false_r. intros ->. reflexivity.
    + rewrite missing_string_truthy.
      destruct (Library.playlist_id a) as [pid|];
        cbn [Js.truthy_opt negb]; [|discriminate].
      intros ->. reflexivity.
    + destruct (Library.album_ids a) as [l|]; [|discriminate].
      rewrite missing_list_truthy. intros ->. reflexivity.
    + unfold Js.truthy_string.
      destruct (Library.album_ids a) as [[|id0 l]|]; try discriminate.
      intros ->. reflexivity.
    + destruct (Library.album_ids a) as [l|]; [|discriminate].
      rewrite missing_list_truthy. intros ->. reflexivity.
    + destruct (Library.album_ids a) as [l|]; [|discriminate].
      rewrite missing_list_truthy. intros ->. reflexivity.
    + destruct (Library.album_ids a) as [l|]; [|discriminate].
      rewrite missing_list_truthy. intros ->. reflexivity.
  - unfold playback_fails_validation, Playback.handler, handleSpotifyRequest,
      bind, throw, Playback.has_target.
    rewrite Hready, !missing_string_truthy.
    destruct (Playback.operation a); try reflexivity.
    + destruct (Js.truthy_opt Js.truthy_string (Playback.uri a)),
        (Js.present (Playback.type a)),
        (Js.truthy_opt Js.truthy_string (Playback.id a));
        cbn [negb andb orb]; try discriminate; reflexivity.
    + destruct (Js.truthy_opt Js.truthy_string (Playback.uri a)),
        (Js.present (Playback.type a)),
        (Js.truthy_opt Js.truthy_string (Playback.id a));
        cbn [negb andb orb]; try discriminate; reflexivity.
    + destruct (Playback.name a) as [n|]; cbn [Js.truthy_opt negb];
        [|discriminate].
      intros ->. reflexivity.
    + destruct (Playback.playlist_id a) as [pid|],
        (Playback.track_ids a) as [[|t tids]|];
        cbn [Js.truthy_opt negb orb missing_list]; try discriminate;
        try (rewrite orb_true_r; discriminate).
      rewrite orb_false_r. intros ->.
      pose proof (missing_list_truthy (t :: tids)) as Hl.
      cbn [missing_list] in Hl. rewrite <- Hl. reflexivity.
  - unfold info_fails_validation, Info.handler, handleSpotifyRequest,
      bind, throw.
    rewrite Hready.
    destruct (Info.operation a); try reflexivity.
    rewrite missing_string_truthy.
    destruct (Info.track_id a) as [tid|]; cbn [Js.truthy_opt negb];
      [|discriminate].
    intros ->. reflexivity.
Qed.

(** X7. The tools of [read.ts] that wrap their work in a try and catch
    never throw: a failure to obtain the client or a failing call becomes
    the text [Error <doing>: <message>] of a returned envelope. *)
Theorem caught_failures_become_text (e : string) :
  (forall a : Read.search_args,
      fails_with (client_ready api)
        (on_search api (Read.query a) [Read.type a]
           (Js.nullish (Read.limit a) 10%Z)) e ->
      exists r : tool_result,
        result (Read.searchSpotify api a) = Returned r
        /\ carries r ("Error searching for "
                        ++ item_type_to_string (Read.type a) ++ "s: " ++ e))
  /\ (fails_with (client_ready api) (on_getCurrentlyPlayingTrack api) e ->
      exists r : tool_result,
        result (Read.getNowPlaying api) = Returned r
        /\ carries r ("Error getting current track: " ++ e))
  /\ (forall a : Read.queue_args,
         fails_with (client_ready api) (on_getUsersQueue api) e ->
         exists r : tool_result,
           result (Read.getQueue api a) = Returned r
           /\ carries r ("Error fetching queue: " ++ e))
  /\ (forall a : Read.audio_features_args,
         fails_with (client_ready api)
           (on_audioFeatures api (Read.trackId a)) e ->
         exists r : tool_result,
           result (Read.getTrackAudioFeatures api a) = Returned r
           /\ carries r ("Error getting audio features: " ++ e)).
Proof.
  split; [|split; [|split]].
  - intros a H.
    unfold Read.searchSpotify, handleSpotifyRequest, Api.search_, perform,
      try_catch, bind, ret, throw, result.
    destruct H as [-> | [-> ->]]; eexists; split; reflexivity.
  - intros H.
    unfold Read.getNowPlaying, handleSpotifyRequest,
      Api.getCurrentlyPlayingTrack, perform, try_catch, bind, ret, throw,
      result.
    destruct H as [-> | [-> ->]]; eexists; split; reflexivity.
  - intros a H.
    unfold Read.getQueue, handleSpotifyRequest, Api.getUsersQueue, perform,
      try_catch, bind, ret, throw, result.
    destruct H as [-> | [-> ->]]; eexists; split; reflexivity.
  - intros a H.
    unfold Read.getTrackAudioFeatures, handleSpotifyRequest,
      Api.audioFeatures, perform, try_catch, bind, ret, throw, result.
    destruct H as [-> | [-> ->]]; eexists; split; reflexivity.
Qed.

(** X8. The other four tools of [read.ts] have no catch: the same failure
    is thrown to the caller of the handler, and no envelope is
    returned. *)
Theorem uncaught_failures_are_thrown (e : string) :
  (forall a : Read.playlists_args,
      fails_with (client_ready api)
        (on_playlists api (Js.nullish (Read.mp_limit a) 50%Z)) e ->
      result (Read.getMyPlaylists api a) = Thrown e)
  /\ (forall a : Read.playlist_tracks_args,
         fails_with (client_ready api)
           (on_getPlaylistItems api (Read.playlistId a)
              (Js.nullish (Read.pt_limit a) 50%Z)
              (Js.to_double (Js.nullish (Read.pt_offset a) 0%Z))) e ->
         result (Read.getPlaylistTracks api a) = Thrown e)
  /\ (forall a : Read.recently_played_args,
         fails_with (client_ready api)
           (on_getRecentlyPlayedTracks api
              (Js.nullish (Read.rp_limit a) 50%Z)) e ->
         result (Read.getRecentlyPlayed api a) = Thrown e)
  /\ (forall a : Read.saved_tracks_args,
         fails_with (client_ready api)
           (on_savedTracks api (Js.nullish (Read.st_limit a) 50%Z)
              (Js.to_double (Js.nullish (Read.st_offset a) 0%Z))) e ->
         result (Read.getUsersSavedTracks api a) = Thrown e).
Proof.
  split; [|split; [|split]].
  - intros a H.
    unfold Read.getMyPlaylists, handleSpotifyRequest, Api.playlists_,
      perform, bind, throw, result.
    destruct H as [-> | [-> ->]]; reflexivity.
  - intros a H.
    unfold Read.getPlaylistTracks, handleSpotifyRequest,
      Api.getPlaylistItems, perform, bind, throw, result.
    destruct H as [-> | [-> ->]]; reflexivity.
  - intros a H.
    unfold Read.getRecentlyPlayed, handleSpotifyRequest,
      Api.getRecentlyPlayedTracks, perform, bind, throw, result.
    destruct H as [-> | [-> ->]]; reflexivity.
  - intros a H.
    unfold Read.getUsersSavedTracks, handleSpotifyRequest, Api.savedTracks,
      perform, bind, throw, result.
    destruct H as [-> | [-> ->]]; reflexivity.
Qed.

End Exceptions.

Lemma unavailable_client_is_thrown_witness :
  Library.handler offline_api (library_args Library.playlists None)
  = ([], Thrown "No access token").
Proof.
  exact (proj1 (unavailable_client_is_thrown offline_api "No access token"
                  eq_refl)
           (library_args Library.playlists None) eq_refl).
Defined.

Lemma caught_failures_become_text_witness :
  exists r : tool_result,
    result (Read.getNowPlaying offline_api) = Returned r
    /\ carries r "Error getting current track: No access token".
Proof.
  exact (proj1 (proj2 (caught_failures_become_text offline_api
                         "No access token"))
           (or_introl eq_refl)).
Defined.

Lemma uncaught_failures_are_thrown_witness :
  result (Read.getMyPlaylists offline_api {| Read.mp_limit := None |})
  = Thrown "No access token".
Proof.
  exact (proj1 (uncaught_failures_are_thrown offline_api "No access token")
           {| Read.mp_limit := None |} (or_introl eq_refl)).
Defined.


(** ** The library tool beyond the album operations *)




Section LibraryLists.
Context {R : JsRuntime} (api : SpotifyApi).

(** X9. [album_tracks] reads the first identifier only: two argument
    records that agree on it, on the limit and on the offset get the same
    calls and the same result, whatever further identifiers they list;
    the one call asks for the tracks of that first album. *)
Theorem album_tracks_reads_first_id (a a' : Library.args) (id0 : string)
  (rest rest' : list string) :
  Library.operation a = Library.album_tracks ->
  Library.operation a' = Library.album_tracks ->
  Library.album_ids a = Some (id0 :: rest) ->
  Library.album_ids a' = Some (id0 :: rest') ->
  Library.limit a = Library.limit a' ->
  Library.offset a = Library.offset a' ->
  Library.handler api a = Library.handler api a'
  /\ (id0 <> "" -> client_ready api = Returned tt ->
      calls (Library.handler api a)
      = [albums_tracks id0 (Js.nullish (Library.limit a) 20%Z)
           (Js.to_double (Js.nullish (Library.offset a) 0%Z))]).
Proof.
  intros Hop Hop' Hids Hids' Hl Ho.
  unfold Library.handler. rewrite Hop, Hop', Hids, Hids', Hl, Ho.
  split; [reflexivity|].
  intros Hne Hready. unfold Js.truthy_string.
  destruct (String.eqb_spec id0 ""); [contradiction|]. cbn [negb].
  unfold handleSpotifyRequest, Api.albums_tracks_, perform, bind, ret, calls.
  rewrite Hready.
  destruct (on_albums_tracks api _ _ _); reflexivity.
Qed.


(** X11. [albums] and [album_tracks] have no such fallback: when the
    service returns no album, respectively no track, the envelope carries
    the empty text. *)
Theorem album_texts_can_be_empty (a : Library.args) :
  client_ready api = Returned tt ->
  (Library.operation a = Library.albums ->
   forall ids : list string,
     Library.album_ids a = Some ids -> ids <> [] ->
     on_albums_get api (Js.slice0 20 ids) = Returned [] ->
     exists r : tool_result,
       result (Library.handler api a) = Returned r /\ carries r "")
  /\ (Library.operation a = Library.album_tracks ->
      forall (id0 : string) (rest : list string) (page : Page Track),
        Library.album_ids a = Some (id0 :: rest) -> id0 <> "" ->
        on_albums_tracks api id0 (Js.nullish (Library.limit a) 20%Z)
          (Js.to_double (Js.nullish (Library.offset a) 0%Z))
        = Returned page ->
        items page = [] ->
        exists r : tool_result,
          result (Library.handler api a) = Returned r /\ carries r "").
Proof.
  intros Hready. split.
  - intros Hop ids Hids Hne Hget.
    destruct ids as [|x l]; [congruence|].
    unfold Library.handler, handleSpotifyRequest, Api.albums_get_, perform,
      bind, ret, result.
    rewrite Hop, Hids, Hready, no_album_ids_cons. cbn [Js.nullish].
    rewrite Hget. eexists. split; reflexivity.
  - intros Hop id0 rest page Hids Hne Hget Hnil.
    unfold Library.handler, handleSpotifyRequest, Api.albums_tracks_,
      perform, bind, ret, result.
    rewrite Hop, Hids, Hready. unfold Js.truthy_string.
    destruct (String.eqb_spec id0 ""); [contradiction|]. cbn [negb].
    rewrite Hget. cbv beta iota zeta. rewrite Hnil.
    eexists. split; reflexivity.
Qed.

End LibraryLists.

Lemma album_tracks_reads_first_id_witness :
  Library.handler quiet_api
    (library_args Library.album_tracks (Some ["a"; "b"]))
  = Library.handler quiet_api
      (library_args Library.album_tracks (Some ["a"; "c"])).
Proof.
  exact (proj1 (album_tracks_reads_first_id quiet_api
                  (library_args Library.album_tracks (Some ["a"; "b"]))
                  (library_args Library.album_tracks (Some ["a"; "c"]))
                  "a" ["b"] ["c"]
                  eq_refl eq_refl eq_refl eq_refl eq_refl eq_refl)).
Defined.


Lemma album_texts_can_be_empty_witness :
  exists r : tool_result,
    result (Library.handler quiet_api
              (library_args Library.albums (Some ["a"])))
    = Returned r
    /\ carries r "".
Proof.
  assert (Hne : ["a"] <> []) by discriminate.
  exact (proj1 (album_texts_can_be_empty quiet_api
                  (library_args Library.albums (Some ["a"])) eq_refl)
           eq_refl ["a"] eq_refl Hne eq_refl).
Defined.


(** ** The lists of [read.ts], line by line *)

Lemma nth_error_some_lt {A : Type} (l : list A) (i : nat) (x : A) :
  nth_error l i = Some x -> (i < List.length l)%nat.
Proof.
  intros H. apply nth_error_Some. congruence.
Qed.

(** The number of the line of entry [i] at offset [o], within the safe
    integers. *)
Lemma line_number_safe (o : Z) (i n : nat) :
  (0 <= o)%Z -> safe_integer (o + Z.of_nat n) -> (i < n)%nat ->
  Js.double_to_string (Js.add (Js.add o (Z.of_nat i)) 1)
  = Js.number_to_string (o + Z.of_nat i + 1).
Proof.
  intros Ho Hn Hi.
  assert (safe_integer o) by (unfold safe_integer in *; lia).
  assert (safe_integer (Z.of_nat i)) by (unfold safe_integer in *; lia).
  assert (safe_integer (o + Z.of_nat i)) by (unfold safe_integer in *; lia).
  assert (safe_integer 1) by (unfold safe_integer; lia).
  assert (safe_integer (o + Z.of_nat i + 1))
    by (unfold safe_integer in *; lia).
  rewrite (add_safe o (Z.of_nat i)) by assumption.
  rewrite add_safe by assumption.
  now rewrite double_to_string_safe.
Qed.

Section ReadLists.
Context {R : JsRuntime} (api : SpotifyApi).


(** X13. [getUsersSavedTracks] numbers its lines unevenly: on a non-empty
    page at offset [o] the line of entry [i] is numbered [o+i+1] when the
    entry holds a track, but [i+1], without the offset, when the track is
    missing ([[Removed track]]) or is not a track ([Unknown item]). *)
Theorem saved_track_lines_numbering (a : Read.saved_tracks_args)
  (page : Page SavedTrack) :
  client_ready api = Returned tt ->
  let o := Js.nullish (Read.st_offset a) 0%Z in
  let n := List.length (items page) in
  (0 <= o)%Z -> safe_integer (o + Z.of_nat n) ->
  safe_integer (total page) ->
  on_savedTracks api (Js.nullish (Read.st_limit a) 50%Z) o = Returned page ->
  items page <> [] ->
  exists (r : tool_result) (lines : list string),
    result (Read.getUsersSavedTracks api a) = Returned r
    /\ carries r
         ("# Your Liked Songs (" ++ Js.number_to_string (o + 1) ++ "-"
            ++ Js.number_to_string (o + Z.of_nat n) ++ " of "
            ++ Js.number_to_string (total page) ++ ")"
            ++ Js.nl ++ Js.nl ++ one_per_line lines)
    /\ List.length lines = n
    /\ forall (i : nat) (item : SavedTrack),
         nth_error (items page) i = Some item ->
         (saved_track item = None ->
          nth_error lines i
          = Some (Js.number_to_string (Z.of_nat i + 1)
                    ++ ". [Removed track]"))
         /\ (forall it : Item,
                saved_track item = Some it ->
                Read.isTrack (Some it) = None ->
                nth_error lines i
                = Some (Js.number_to_string (Z.of_nat i + 1)
                          ++ ". Unknown item"))
         /\ (forall (it : Item) (t : SpotifyTrack),
                saved_track item = Some it ->
                Read.isTrack (Some it) = Some t ->
                exists rest : string,
                  nth_error lines i
                  = Some (Js.number_to_string (o + Z.of_nat i + 1)
                            ++ ". " ++ rest)).
Proof.
  intros Hready o n Ho Hn Ht Hpage Hne.
  assert (Hsafe : safe_integer o) by (unfold safe_integer in *; lia).
  assert (Hpos : (0 < n)%nat).
  { subst n. destruct (items page); [congruence | cbn; lia]. }
  assert (H1 : safe_integer (o + 1)) by (unfold safe_integer in *; lia).
  exists (text_result
            ("# Your Liked Songs (" ++ Js.number_to_string (o + 1) ++ "-"
               ++ Js.number_to_string (o + Z.of_nat n) ++ " of "
               ++ Js.number_to_string (total page) ++ ")"
               ++ Js.nl ++ Js.nl
               ++ one_per_line
                    (Js.mapi (Read.saved_track_line o) (items page)))).
  exists (Js.mapi (Read.saved_track_line o) (items page)).
  split; [|split; [reflexivity | split]].
  - unfold Read.getUsersSavedTracks, handleSpotifyRequest, Api.savedTracks,
      perform, bind, ret, result.
    assert (Hz : (Js.length (items page) =? 0)%Z = false)
      by (unfold Js.length; fold n; apply Z.eqb_neq; lia).
    fold o. rewrite Hready, (to_double_safe o Hsafe), Hpage.
    cbv beta iota zeta. rewrite Hz. cbn [snd]. unfold Js.length. fold n.
    destruct (range_numbers o n Ho H1 Hn) as [-> ->].
    rewrite (double_to_string_safe _ Ht), join_one_per_line. reflexivity.
  - apply mapi_from_length.
  - intros i item Hi.
    pose proof (nth_error_some_lt _ _ _ Hi) as Hlt.
    rewrite mapi_nth_error, Hi. cbn [option_map].
    unfold Read.saved_track_line.
    rewrite (line_number_safe o i n Ho Hn Hlt).
    repeat split.
    + intros ->. reflexivity.
    + intros it -> ->. reflexivity.
    + intros it t -> ->. eexists. reflexivity.
Qed.

End ReadLists.


Lemma saved_track_lines_numbering_witness :
  exists (r : tool_result) (lines : list string),
    result (Read.getUsersSavedTracks
              (example_api no_results empty_page
                 {| items := [ {| saved_added_at := "2024-01-01";
                                  saved_track := None |} ];
                    total := 9 |}
                 [] None)
              {| Read.st_limit := None; Read.st_offset := Some 5%Z |})
    = Returned r
    /\ carries r ("# Your Liked Songs (6-6 of 9)" ++ Js.nl ++ Js.nl
                    ++ one_per_line lines)
    /\ nth_error lines 0 = Some "1. [Removed track]".
Proof.
  assert (Ho : (0 <= 5)%Z) by discriminate.
  assert (Hn : safe_integer (5 + Z.of_nat 1)) by (split; reflexivity).
  assert (Ht : safe_integer 9) by (split; reflexivity).
  assert (Hne : [ {| saved_added_at := "2024-01-01";
                     saved_track := None |} ] <> []) by discriminate.
  destruct (saved_track_lines_numbering
              (example_api no_results empty_page
                 {| items := [ {| saved_added_at := "2024-01-01";
                                  saved_track := None |} ];
                    total := 9 |}
                 [] None)
              {| Read.st_limit := None; Read.st_offset := Some 5%Z |}
              {| items := [ {| saved_added_at := "2024-01-01";
                               saved_track := None |} ];
                 total := 9 |}
              eq_refl Ho Hn Ht eq_refl Hne)
    as (r & lines & Hr & Hc & _ & Hl).
  exists r, lines.
  split; [exact Hr | split; [exact Hc|]].
  exact (proj1 (Hl 0%nat {| saved_added_at := "2024-01-01";
                            saved_track := None |} eq_refl) eq_refl).
Defined.


(** ** Keys outside the table, guards, queues and the playing item *)

Lemma index_outside {A : Type} (l : list A) (k : Z) :
  (k < 0 \/ Z.of_nat (List.length l) <= k)%Z -> Js.index l k = None.
Proof.
  intros H. unfold Js.index.
  destruct (Z.ltb_spec k 0); [reflexivity|].
  apply nth_error_None. lia.
Qed.

Lemma slice_to_length {A : Type} (l : Z) (xs : list A) :
  (0 <= l)%Z ->
  List.length (Js.slice_to l xs) = Nat.min (Z.to_nat l) (List.length xs).
Proof.
  intros H. unfold Js.slice_to.
  destruct (Z.ltb_spec l 0); [lia|]. apply length_firstn.
Qed.

Lemma slice_to_nth {A : Type} (l : Z) (xs : list A) (i : nat) :
  (0 <= l)%Z -> (i < Z.to_nat l)%nat ->
  nth_error (Js.slice_to l xs) i = nth_error xs i.
Proof.
  intros H Hi. unfold Js.slice_to.
  destruct (Z.ltb_spec l 0); [lia|]. now apply firstn_prefix.
Qed.

(** X14. A key outside the table and other than [-1] is rendered as the
    text [undefined] by both audio-features operations, and any mode other
    than 1 as [Minor]: the key line of [audio_features] then reads
    [**Key**: undefined Major] or [**Key**: undefined Minor]. *)
Theorem key_outside_table_is_undefined (k : Z) :
  (k < -1 \/ 11 < k)%Z ->
  Read.keyName k = "undefined"
  /\ Info.keyName k = "undefined"
  /\ forall (R : JsRuntime) (api : SpotifyApi) (a : Info.args)
       (tid : string) (f : AudioFeatures),
       Info.operation a = Info.audio_features ->
       Info.track_id a = Some tid -> tid <> "" ->
       client_ready api = Returned tt ->
       on_audioFeatures api tid = Returned (Some f) ->
       key f = k ->
       exists (r : tool_result) (lines : list string),
         result (Info.handler api a) = Returned r
         /\ carries r (one_per_line lines)
         /\ nth_error lines 1
            = Some ("**Key**: undefined "
                      ++ (if (mode f =? 1)%Z then "Major" else "Minor")).
Proof.
  intros Hk.
  assert (HR : Read.keyName k = "undefined").
  { unfold Read.keyName, Read.keyName_traced, table_read, value.
    destruct (Z.eqb_spec k (-1)); [lia|]. cbn [negb snd].
    rewrite index_outside; [reflexivity|]. cbn. lia. }
  assert (HI : Info.keyName k = "undefined").
  { unfold Info.keyName, Info.keyName_traced, table_read, value.
    destruct (Z.eqb_spec k (-1)); [lia|]. cbn [negb snd].
    rewrite index_outside; [reflexivity|]. cbn. lia. }
  split; [exact HR | split; [exact HI|]].
  intros R api a tid f Hop Htid Hne Hready Hf Hkey.
  destruct (audio_features_key_line api a tid f Hop Htid Hne Hready Hf)
    as (lines & Hres & Hline).
  exists (text_result (Js.join Js.nl lines)), lines.
  split; [exact Hres | split].
  - unfold carries. now rewrite join_one_per_line.
  - rewrite Hline, Hkey, HI. reflexivity.
Qed.

Lemma key_outside_table_is_undefined_witness :
  Read.keyName 12 = "undefined" /\ Info.keyName 12 = "undefined".
Proof.
  assert (H : (12 < -1 \/ 11 < 12)%Z) by (right; reflexivity).
  split.
  - exact (proj1 (key_outside_table_is_undefined 12 H)).
  - exact (proj1 (proj2 (key_outside_table_is_undefined 12 H))).
Defined.

(** X15. The guard of [read.ts] is the stricter one: whatever it accepts,
    the guard of the library and info tools accepts with the same view,
    and the view has an album name; an item of type [track] with artists
    and an album without a name passes the guard of the library and info
    tools only, so that the library tool lists it as a track where
    [getPlaylistTracks] prints [Unknown item]. *)
Theorem read_guard_is_stricter :
  (forall (item : option Item) (st : SpotifyTrack),
      Read.isTrack item = Some st ->
      isTrack item = Some st /\ st_album_name st <> None)
  /\ (forall (it : Item) (arts : list Artist),
         item_kind it = "track" ->
         item_artists it = Some arts ->
         item_album it = Some None ->
         Read.isTrack (Some it) = None
         /\ isTrack (Some it)
            = Some {| st_name := item_name it; st_id := item_id it;
                      st_duration_ms := item_duration_ms it;
                      st_artists := arts; st_album_name := None |}
         /\ (forall o i : Z,
                Read.playlist_track_line o {| pt_track := Some it |} i
                = Js.double_to_string (Js.add (Js.add o i) 1)
                    ++ ". Unknown item")
         /\ (forall n : Z,
                Library.track_line (Some it) n
                = Js.double_to_string n ++ ". "
                    ++ String "034"%char (item_name it ++ String "034"%char "")
                    ++ " by " ++ artist_names arts ++ " - ID: "
                    ++ item_id it)).
Proof.
  split.
  - intros item st. unfold Read.isTrack.
    destruct (isTrack item) as [st'|]; [|discriminate].
    destruct (st_album_name st') eqn:E; [|discriminate].
    intros H; injection H as <-. split; [reflexivity | congruence].
  - intros it arts Hk Ha Hal.
    assert (HI : isTrack (Some it)
                 = Some {| st_name := item_name it; st_id := item_id it;
                           st_duration_ms := item_duration_ms it;
                           st_artists := arts; st_album_name := None |}).
    { unfold isTrack. rewrite Hk, Ha, Hal. reflexivity. }
    assert (HR : Read.isTrack (Some it) = None).
    { unfold Read.isTrack. rewrite HI. reflexivity. }
    split; [exact HR | split; [exact HI | split]].
    + intros o i. unfold Read.playlist_track_line. cbn [pt_track].
      rewrite HR. reflexivity.
    + intros n. unfold Library.track_line. rewrite HI.
      unfold Library.quoted. cbn [st_name st_artists st_id].
      reflexivity.
Qed.

Lemma read_guard_is_stricter_witness :
  Read.isTrack (Some sample_single) = None
  /\ Library.track_line (Some sample_single) 3
     = "3. " ++ String "034"%char ("Single" ++ String "034"%char "")
         ++ " by Band - ID: t2".
Proof.
  destruct (proj2 read_guard_is_stricter sample_single
              [ {| artist_name := "Band"; artist_id := "a1" |} ]
              eq_refl eq_refl eq_refl) as (Hr & _ & _ & Hl).
  split; [exact Hr | exact (Hl 3%Z)].
Defined.

Section QueueAndPlaying.
Context {R : JsRuntime} (api : SpotifyApi).

(** X16. [getQueue] shows the first entries of the queue, at most [limit]
    of them (10 when no limit is given): for a non-empty queue the text
    announces [Next <n> in queue:] with [n] the number of lines that
    follow, which is the smaller of the limit and the length of the
    queue; line [i] (counted from 0) is numbered [i+1] and names entry
    [i], as [Unknown] when it has no name.  For an empty or missing queue
    the text says that no items are upcoming. *)
Theorem getQueue_shows_first_entries (a : Read.queue_args) (q : Queue) :
  client_ready api = Returned tt ->
  on_getUsersQueue api = Returned (Some q) ->
  let l := Js.nullish (Read.q_limit a) 10%Z in
  (0 <= l)%Z ->
  exists (r : tool_result) (current : string),
    result (Read.getQueue api a) = Returned r
    /\ calls (Read.getQueue api a) = [player_getUsersQueue]
    /\ (currently_playing q = None ->
        current = "Nothing is currently playing")
    /\ (queue_items q = None \/ queue_items q = Some [] ->
        carries r ("# Spotify Queue" ++ Js.nl ++ Js.nl ++ current
                     ++ Js.nl ++ Js.nl ++ "No upcoming items in the queue"))
    /\ (forall upcoming : list QueueItem,
           queue_items q = Some upcoming -> upcoming <> [] ->
           exists lines : list string,
             carries r ("# Spotify Queue" ++ Js.nl ++ Js.nl ++ current
                          ++ Js.nl ++ Js.nl ++ "Next "
                          ++ Js.number_to_string
                               (Z.of_nat (List.length lines))
                          ++ " in queue:" ++ Js.nl ++ Js.nl
                          ++ one_per_line lines)
             /\ List.length lines
                = Nat.min (Z.to_nat l) (List.length upcoming)
             /\ forall (i : nat) (e : QueueItem),
                  (i < Z.to_nat l)%nat ->
                  nth_error upcoming i = Some e ->
                  exists rest : string,
                    nth_error lines i
                    = Some ((Js.number_to_string (Z.of_nat i + 1) ++ ". ")
                              ++ String "034"%char
                                   (match qi_name e with
                                    | Some name => name
                                    | None => "Unknown"
                                    end ++ String "034"%char "")
                              ++ " by " ++ rest)).
Proof.
  intros Hready Hq l Hl.
  unfold Read.getQueue, handleSpotifyRequest, Api.getUsersQueue, perform,
    try_catch, bind, ret, result, calls.
  rewrite Hready, Hq. fold l. cbv beta iota zeta.
  exists (text_result
            (if (Js.length (Js.nullish (queue_items q) []) =? 0)%Z then
               ("# Spotify Queue" ++ Js.nl ++ Js.nl)
                 ++ Read.currentText (currently_playing q)
                 ++ Js.nl ++ Js.nl ++ "No upcoming items in the queue"
             else
               ("# Spotify Queue" ++ Js.nl ++ Js.nl)
                 ++ Read.currentText (currently_playing q)
                 ++ Js.nl ++ Js.nl ++ "Next "
                 ++ Js.number_to_string
                      (Js.length
                         (Js.slice_to l (Js.nullish (queue_items q) [])))
                 ++ " in queue:" ++ Js.nl ++ Js.nl
                 ++ Js.join Js.nl
                      (Js.mapi Read.queue_line
                         (Js.slice_to l (Js.nullish (queue_items q) []))))).
  exists (Read.currentText (currently_playing q)).
  rewrite length_eqb_0.
  split; [|split; [|split; [|split]]].
  - destruct (Js.nullish (queue_items q) []); reflexivity.
  - destruct (Js.nullish (queue_items q) []); reflexivity.
  - intros ->. reflexivity.
  - intros [-> | ->]; reflexivity.
  - intros upcoming -> Hne. cbn [Js.nullish].
    destruct upcoming as [|e0 up]; [congruence|].
    exists (Js.mapi Read.queue_line (Js.slice_to l (e0 :: up))).
    split; [|split].
    + unfold carries, text_result, content, Js.length, Js.mapi.
      rewrite join_one_per_line, mapi_from_length. reflexivity.
    + unfold Js.mapi. rewrite mapi_from_length. now apply slice_to_length.
    + intros i e Hi He.
      rewrite mapi_nth_error, (slice_to_nth l _ i Hl Hi), He.
      cbn [option_map].
      unfold Read.queue_line, Read.ordinal, Read.quoted, Read.entry_name,
        Js.nullish.
      eexists. reflexivity.
Qed.

(** X17. When the playing item is not a track (an episode, say),
    [getNowPlaying] says so, while the [now_playing] and
    [enriched_now_playing] operations of the info tool answer
    [Nothing playing]; the enriched operation then makes no call for
    audio features. *)
Theorem item_that_is_not_a_track (cur : PlaybackState) (it : Item) :
  client_ready api = Returned tt ->
  on_getCurrentlyPlayingTrack api = Returned (Some cur) ->
  state_item cur = Some it ->
  isTrack (Some it) = None ->
  (exists r : tool_result,
      result (Read.getNowPlaying api) = Returned r
      /\ carries r
           "Currently playing item is not a track (might be a podcast episode)")
  /\ (forall a : Info.args,
         Info.operation a = Info.now_playing
         \/ Info.operation a = Info.enriched_now_playing ->
         Info.handler api a
         = ([player_getCurrentlyPlayingTrack],
            Returned (text_result "Nothing playing"))).
Proof.
  intros Hready Hcur Hit Hguard.
  assert (HR : Read.isTrack (Some it) = None)
    by (unfold Read.isTrack; now rewrite Hguard).
  split.
  - unfold Read.getNowPlaying, handleSpotifyRequest,
      Api.getCurrentlyPlayingTrack, perform, try_catch, bind, ret, result.
    rewrite Hready, Hcur. cbv beta iota zeta. rewrite Hit, HR.
    eexists. split; reflexivity.
  - intros a [Hop | Hop];
      unfold Info.handler, handleSpotifyRequest,
        Api.getCurrentlyPlayingTrack, perform, bind, ret;
      rewrite Hop, Hready, Hcur; cbv beta iota zeta;
      rewrite Hit, Hguard; reflexivity.
Qed.

(** X18. With a track playing, [enriched_now_playing] asks for the audio
    features of that very track, after the playing state and before
    anything is returned; when that second call throws, so does the
    handler. *)
Theorem enriched_asks_for_playing_track (a : Info.args)
  (cur : PlaybackState) (t : SpotifyTrack) :
  Info.operation a = Info.enriched_now_playing ->
  client_ready api = Returned tt ->
  on_getCurrentlyPlayingTrack api = Returned (Some cur) ->
  isTrack (state_item cur) = Some t ->
  calls (Info.handler api a)
  = [player_getCurrentlyPlayingTrack; tracks_audioFeatures (st_id t)]
  /\ (forall e : string,
         on_audioFeatures api (st_id t) = Thrown e ->
         result (Info.handler api a) = Thrown e)
  /\ (forall features : option AudioFeatures,
         on_audioFeatures api (st_id t) = Returned features ->
         exists r : tool_result,
           result (Info.handler api a) = Returned r).
Proof.
  intros Hop Hready Hcur Ht.
  unfold Info.handler, handleSpotifyRequest, Api.getCurrentlyPlayingTrack,
    Api.audioFeatures, perform, bind, ret, calls, result.
  rewrite Hop, Hready, Hcur. cbv beta iota zeta. rewrite Ht.
  split; [|split].
  - destruct (on_audioFeatures api (st_id t)); reflexivity.
  - intros e ->. reflexivity.
  - intros features ->. eexists. reflexivity.
Qed.

End QueueAndPlaying.

Lemma getQueue_shows_first_entries_witness :
  exists (r : tool_result) (lines : list string),
    result (Read.getQueue (playing_api sample_track (Some sample_queue) None)
              {| Read.q_limit := None |})
    = Returned r
    /\ carries r ("# Spotify Queue" ++ Js.nl ++ Js.nl
                    ++ "Nothing is currently playing" ++ Js.nl ++ Js.nl
                    ++ "Next "
                    ++ Js.number_to_string (Z.of_nat (List.length lines))
                    ++ " in queue:" ++ Js.nl ++ Js.nl ++ one_per_line lines)
    /\ List.length lines = 1%nat.
Proof.
  assert (Hl : (0 <= 10)%Z) by discriminate.
  assert (Hne : [ {| qi_name := Some "Next"; qi_id := None;
                     qi_artists := None; qi_duration_ms := None |} ] <> [])
    by discriminate.
  destruct (getQueue_shows_first_entries
              (playing_api sample_track (Some sample_queue) None)
              {| Read.q_limit := None |} sample_queue eq_refl eq_refl Hl)
    as (r & current & Hr & _ & Hcur & _ & Hup).
  destruct (Hup _ eq_refl Hne) as (lines & Hc & Hlen & _).
  exists r, lines.
  rewrite (Hcur eq_refl) in Hc.
  split; [exact Hr | split; [exact Hc | exact Hlen]].
Defined.

Lemma item_that_is_not_a_track_witness :
  exists r : tool_result,
    result (Read.getNowPlaying (playing_api sample_episode None None))
    = Returned r
    /\ carries r
         "Currently playing item is not a track (might be a podcast episode)".
Proof.
  exact (proj1 (item_that_is_not_a_track
                  (playing_api sample_episode None None)
                  {| state_item := Some sample_episode;
                     state_progress_ms := Some 5000%Z;
                     state_is_playing := true |}
                  sample_episode eq_refl eq_refl eq_refl eq_refl)).
Defined.

Lemma enriched_asks_for_playing_track_witness :
  calls (Info.handler (playing_api sample_track None None)
           (info_args Info.enriched_now_playing None))
  = [player_getCurrentlyPlayingTrack; tracks_audioFeatures "t1"].
Proof.
  exact (proj1 (enriched_asks_for_playing_track
                  (playing_api sample_track None None)
                  (info_args Info.enriched_now_playing None)
                  {| state_item := Some sample_track;
                     state_progress_ms := Some 5000%Z;
                     state_is_playing := true |}
                  {| st_name := "Song"; st_id := "t1";
                     st_duration_ms := 65000;
                     st_artists :=
                       [ {| artist_name := "Band"; artist_id := "a1" |} ];
                     st_album_name := Some "Record" |}
                  eq_refl eq_refl eq_refl eq_refl)).
Defined.


(** ** The tempo lookup tool *)

(** [s.includes(t)]: [t] occurs in [s]. *)
Lemma prefix_app (t s : string) :
  String.prefix t s = true <-> exists b : string, s = t ++ b.
Proof.
  revert s. induction t as [|c t IH]; intros s.
  - split; [intros _; now exists s | intros _; destruct s; reflexivity].
  - destruct s as [|d s]; cbn.
    + split; [discriminate | intros [b H]; discriminate H].
    + destruct (Ascii.ascii_dec c d) as [->|Hcd].
      * rewrite IH. split; intros [b H]; exists b; [now rewrite H|].
        now injection H.
      * split; [discriminate|]. intros [b H]. injection H. congruence.
Qed.

Lemma includes_occurs (s t : string) :
  Bpm.includes s t = true <-> exists a b : string, s = a ++ t ++ b.
Proof.
  induction s as [|c s IH]; cbn [Bpm.includes].
  - rewrite orb_false_r, prefix_app. split.
    + intros [b H]. now exists "", b.
    + intros (a & b & H). destruct a; [now exists b|discriminate H].
  - rewrite orb_true_iff, prefix_app, IH. split.
    + intros [[b H] | (a & b & H)].
      * now exists "", b.
      * exists (String c a), b. now rewrite H.
    + intros (a & b & H). destruct a as [|c' a].
      * left. now exists b.
      * right. exists a, b. now injection H.
Qed.

Section Lookup.
Context (w : Bpm.World).

(** X19. The best match among the search results is the first result
    whose artist matches; when no artist matches it is the first result,
    and there is none only when there are no results.  It is always one
    of the results. *)
Theorem best_match_prefers_artist (artistName : string)
  (results : list Bpm.SearchResult) :
  (results = [] <-> Bpm.best_match w artistName results = None)
  /\ (forall m : Bpm.SearchResult,
         Bpm.best_match w artistName results = Some m -> In m results)
  /\ ((forall r : Bpm.SearchResult,
          In r results -> ~ artist_matches w artistName r) ->
      Bpm.best_match w artistName results = hd_error results)
  /\ (forall (before after : list Bpm.SearchResult) (m : Bpm.SearchResult),
         results = (before ++ m :: after)%list ->
         (forall r : Bpm.SearchResult,
             In r before -> ~ artist_matches w artistName r) ->
         artist_matches w artistName m ->
         Bpm.best_match w artistName results = Some m).
Proof.
  unfold Bpm.best_match, artist_matches.
  set (p := fun r : Bpm.SearchResult =>
              Bpm.includes (Bpm.toLowerCase w (Bpm.result_artist_name r))
                (Bpm.toLowerCase w artistName)).
  assert (Hp : forall r, p r = true
                         <-> exists a b,
                               Bpm.toLowerCase w (Bpm.result_artist_name r)
                               = a ++ Bpm.toLowerCase w artistName ++ b)
    by (intros r; apply includes_occurs).
  split; [|split; [|split]].
  - split.
    + intros ->. reflexivity.
    + destruct results as [|r0 rs]; [reflexivity|].
      destruct (find p (r0 :: rs)); discriminate.
  - intros m. destruct (find p results) as [m'|] eqn:E.
    + intros H; injection H as <-. now apply find_some in E.
    + destruct results as [|r0 rs]; [discriminate|].
      cbn. intros H; injection H as <-. now left.
  - intros Hnone.
    destruct (find p results) as [m'|] eqn:E.
    + apply find_some in E as [Hin Hm]. apply Hp in Hm.
      now apply Hnone in Hin.
    + destruct results; reflexivity.
  - intros before after m -> Hbefore Hm.
    induction before as [|b before IH]; cbn [find app].
    + now rewrite (proj2 (Hp m) Hm).
    + destruct (p b) eqn:Eb.
      * apply Hp in Eb. exfalso. apply (Hbefore b); [now left | exact Eb].
      * cbn [find app] in IH.
        destruct (find p (before ++ m :: after)) as [m'|] eqn:E.
        -- apply IH. intros r Hr. apply Hbefore. now right.
        -- exfalso. specialize (IH ltac:(intros r Hr; apply Hbefore;
                                          now right)).
           destruct (before ++ m :: after)%list eqn:E2.
           ++ destruct before; discriminate E2.
           ++ pose proof (find_none p _ E m) as Hnot.
              rewrite <- E2 in Hnot.
              rewrite (proj2 (Hp m) Hm) in Hnot.
              discriminate Hnot. apply in_or_app. right. now left.
Qed.

End Lookup.

Lemma best_match_prefers_artist_witness :
  Bpm.best_match (sample_world "k" sample_found sample_details) "band"
    [ {| Bpm.song_id := "s0"; Bpm.song_title := "Song"; Bpm.song_uri := "u";
         Bpm.result_artist_name := "x"; Bpm.result_tempo := None;
         Bpm.result_time_sig := None; Bpm.song_key := None |};
      sample_result ]
  = Some sample_result.
Proof.
  refine (proj2 (proj2 (proj2
            (best_match_prefers_artist
               (sample_world "k" sample_found sample_details) "band" _)))
            [ _ ] [] sample_result eq_refl _ _).
  - intros r [<- | []] (a & b & H). cbn in H.
    destruct a as [|c [|c' a]]; discriminate H.
  - exists "", "". reflexivity.
Defined.

Section LookupTool.
Context {R : JsRuntime} (w : Bpm.World) (api : SpotifyApi).

(** X20. [getEnrichedNowPlaying] never throws: whatever the music service
    and the lookup service do, an envelope is returned; a client that
    cannot be obtained or a failing call gives the text
    [Error getting enriched track info: <message>], and so does a playing
    track that has no artists, with the message of the type error. *)
Theorem enriched_lookup_never_throws :
  (exists r : tool_result, snd (Bpm.handler w api) = Returned r)
  /\ (forall e : string,
         fails_with (client_ready api) (on_getCurrentlyPlayingTrack api) e ->
         exists r : tool_result,
           snd (Bpm.handler w api) = Returned r
           /\ carries r ("Error getting enriched track info: " ++ e))
  /\ (forall (cur : PlaybackState) (it : Item),
         client_ready api = Returned tt ->
         on_getCurrentlyPlayingTrack api = Returned (Some cur) ->
         state_item cur = Some it ->
         item_kind it = "track" -> item_artists it = None ->
         Bpm.handler w api
         = ([Bpm.spotify player_getCurrentlyPlayingTrack],
            Returned
              (text_result
                 ("Error getting enriched track info: "
                    ++ Bpm.type_error w "0")))).
Proof.
  split; [|split].
  - unfold Bpm.handler, Bpm.try_catchB.
    match goal with
    | |- context [match ?m with (_, _) => _ end] => destruct m as [t [r|e]]
    end; cbn [snd]; eexists; reflexivity.
  - intros e H.
    unfold Bpm.handler, Bpm.try_catchB, Bpm.bindB, Bpm.lift, Bpm.retB,
      handleSpotifyRequest, Api.getCurrentlyPlayingTrack, perform, throw.
    destruct H as [-> | [-> ->]]; eexists; split; reflexivity.
  - intros cur it Hready Hcur Hit Hkind Harts.
    unfold Bpm.handler, Bpm.try_catchB, Bpm.bindB, Bpm.lift, Bpm.retB,
      Bpm.first_artist_name, Bpm.throwB, handleSpotifyRequest,
      Api.getCurrentlyPlayingTrack, perform, throw.
    rewrite Hready, Hcur. cbv beta iota zeta. cbn [fst snd map].
    rewrite Hit, Hkind, Harts. reflexivity.
Qed.

(** X21. Without an API key the tool makes no HTTP request and writes
    nothing on the error console: every effect of the handler is a call
    on the music-service client. *)
Theorem no_key_no_lookup :
  Bpm.GETSONGBPM_API_KEY w = "" ->
  forall ef : Bpm.Effect,
    In ef (fst (Bpm.handler w api)) ->
    ef = Bpm.spotify player_getCurrentlyPlayingTrack.
Proof.
  intros Hkey ef.
  unfold Bpm.handler, Bpm.try_catchB, Bpm.bindB, Bpm.lift, Bpm.retB,
    Bpm.bpmData, Bpm.first_artist_name, Bpm.album_name_of, Bpm.throwB,
    handleSpotifyRequest, Api.getCurrentlyPlayingTrack, perform, throw.
  rewrite Hkey. cbn [Js.truthy_string String.eqb negb].
  destruct (client_ready api); cbn [fst snd map];
    [|intros []].
  destruct (on_getCurrentlyPlayingTrack api) as [[cur|]|e];
    cbn [fst snd map app]; try (intros [<- | []]; reflexivity).
  destruct (state_item cur) as [it|]; cbn [fst snd map app];
    try (intros [<- | []]; reflexivity).
  destruct (negb (item_kind it =? "track")); cbn [fst snd map app];
    try (intros [<- | []]; reflexivity).
  destruct (item_artists it), (item_album it); cbn [fst snd map app];
    intros [<- | []]; reflexivity.
Qed.

(** X22. A failing search (a network failure, a status that is not OK, or
    a body that cannot be read) is swallowed: [searchGetSongBPM] writes
    one line on the error console and returns nothing, no request for the
    details of a song follows, and the summary gets no section on audio
    features. *)
Theorem search_failure_is_swallowed (trackName artistName e : string) :
  Bpm.GETSONGBPM_API_KEY w <> "" ->
  let url := Bpm.search_url w trackName artistName in
  (Bpm.fetch_search w url = Thrown e
   \/ (exists (status : Z) (body : outcome Bpm.SearchData),
          Bpm.fetch_search w url
          = Returned {| Bpm.ok := false; Bpm.status := status;
                        Bpm.json := body |}
          /\ e = "GetSongBPM API returned " ++ Js.double_to_string status)
   \/ (exists status : Z,
          Bpm.fetch_search w url
          = Returned {| Bpm.ok := true; Bpm.status := status;
                        Bpm.json := Thrown e |})) ->
  Bpm.searchGetSongBPM w trackName artistName
  = ([Bpm.fetch url; Bpm.console_error "GetSongBPM search error:" e],
     Returned None)
  /\ Bpm.bpmData w trackName artistName
     = ([Bpm.fetch url; Bpm.console_error "GetSongBPM search error:" e],
        Returned "").
Proof.
  intros Hkey url H.
  assert (Ht : Js.truthy_string (Bpm.GETSONGBPM_API_KEY w) = true).
  { unfold Js.truthy_string.
    destruct (String.eqb_spec (Bpm.GETSONGBPM_API_KEY w) "");
      [contradiction | reflexivity]. }
  assert (Hs : Bpm.searchGetSongBPM w trackName artistName
               = ([Bpm.fetch url;
                   Bpm.console_error "GetSongBPM search error:" e],
                  Returned None)).
  { unfold Bpm.searchGetSongBPM, Bpm.try_catchB, Bpm.bindB, Bpm.read_json,
      Bpm.log_error, Bpm.retB, Bpm.throwB.
    rewrite Ht. cbn [negb]. fold url.
    destruct H as [-> | [(status & body & -> & ->) | (status & ->)]];
      reflexivity. }
  split; [exact Hs|].
  unfold Bpm.bpmData, Bpm.bindB. rewrite Ht, Hs. reflexivity.
Qed.


End LookupTool.

Lemma enriched_lookup_never_throws_witness :
  Bpm.handler (sample_world "k" sample_found sample_details)
    (playing_api sample_bare_track None None)
  = ([Bpm.spotify player_getCurrentlyPlayingTrack],
     Returned
       (text_result
          ("Error getting enriched track info: "
             ++ "Cannot read properties of undefined"))).
Proof.
  exact (proj2 (proj2 (enriched_lookup_never_throws
                         (sample_world "k" sample_found sample_details)
                         (playing_api sample_bare_track None None)))
           {| state_item := Some sample_bare_track;
              state_progress_ms := Some 5000%Z;
              state_is_playing := true |}
           sample_bare_track eq_refl eq_refl eq_refl eq_refl eq_refl).
Defined.

Lemma no_key_no_lookup_witness :
  Bpm.GETSONGBPM_API_KEY (sample_world "" sample_found sample_details) = ""
  /\ hd_error
       (fst (Bpm.handler (sample_world "" sample_found sample_details)
               (playing_api sample_track None None)))
     = Some (Bpm.spotify player_getCurrentlyPlayingTrack).
Proof.
  split; [reflexivity|].
  exact (f_equal Some
           (no_key_no_lookup (sample_world "" sample_found sample_details)
              (playing_api sample_track None None) eq_refl
              (Bpm.spotify player_getCurrentlyPlayingTrack)
              (or_introl eq_refl))).
Defined.

Lemma search_failure_is_swallowed_witness :
  Bpm.searchGetSongBPM (sample_world "k" (Thrown "down") sample_details)
    "Song" "Band"
  = ([Bpm.fetch
        "https://api.getsongbpm.com/search/?api_key=k&type=song&lookup=Song Band";
      Bpm.console_error "GetSongBPM search error:" "down"],
     Returned None).
Proof.
  assert (Hk : "k" <> "") by discriminate.
  exact (proj1 (search_failure_is_swallowed
                  (sample_world "k" (Thrown "down") sample_details)
                  "Song" "Band" "down" Hk (or_introl eq_refl))).
Defined.

